(** * UserAssist parser: a shallow embedding of [userassist-parser.py]

    The development follows the Python source function by function.  The
    standard-library pieces the source calls ([codecs.decode] with the
    [rot_13] codec, [struct.pack]/[struct.unpack], [datetime] and
    [timedelta]) are embedded first, after CPython's own Python sources
    ([encodings/rot_13.py], [_pydatetime.py]); the functions of the script
    come next, and the theorems last. *)

From Stdlib Require Import ZArith NArith Lia List Ascii String.
From Stdlib.Strings Require Import Byte.
From stdpp Require Import base option gmap strings list.

Local Open Scope Z_scope.

(** ** Python values, exceptions and results *)

(** A Python [str] is a sequence of Unicode code points. *)
Definition codepoint := N.
Definition str := list codepoint.

(** String literals of the source, as code-point sequences. *)
Definition lit (s : string) : str :=
  List.map N_of_ascii (list_ascii_of_string s).

(** Python's [<=] on [str]: lexicographic, by code point. *)
Fixpoint str_le (a b : str) : bool :=
  match a, b with
  | [], _ => true
  | _ :: _, [] => false
  | x :: a', y :: b' =>
      if (x <? y)%N then true else if (y <? x)%N then false else str_le a' b'
  end.

Definition bytes := list byte.

(** [data[lo:hi]] for non-negative literal bounds: slicing clips, it never
    raises. *)
Definition slice {A} (l : list A) (lo hi : nat) : list A :=
  firstn (hi - lo) (skipn lo l).

(** The exceptions the script can meet.  All of them derive from
    [Exception]. *)
Inductive exn : Type :=
| struct_error
| OverflowError
| KeyError
| RegistryKeyNotFoundException
| RegistryValueNotFoundException
| RegistryParseException
| TypeError.

Definition exn_eqb (a b : exn) : bool :=
  match a, b with
  | struct_error, struct_error
  | OverflowError, OverflowError
  | KeyError, KeyError
  | RegistryKeyNotFoundException, RegistryKeyNotFoundException
  | RegistryValueNotFoundException, RegistryValueNotFoundException
  | RegistryParseException, RegistryParseException
  | TypeError, TypeError => true
  | _, _ => false
  end.

(** The outcome of evaluating a Python expression or block. *)
Inductive result (A : Type) : Type :=
| Return (a : A)
| Raise (e : exn).
Arguments Return {A} a.
Arguments Raise {A} e.

#[global] Instance result_ret : MRet result := fun _ a => Return a.
#[global] Instance result_bind : MBind result := fun _ _ f r =>
  match r with
  | Return a => f a
  | Raise e => Raise e
  end.

(** [try: body / except E: handler]: the handler runs when the body raises
    an exception the clause matches. *)
Definition try_except {A} (body : result A) (matches : exn → bool)
    (handler : exn → result A) : result A :=
  match body with
  | Return a => Return a
  | Raise e => if matches e then handler e else Raise e
  end.

(** [except Exception]: every exception of [exn] is an [Exception]. *)
Definition Exception (e : exn) : bool := true.
Definition is_exn (e0 : exn) (e : exn) : bool := exn_eqb e0 e.

(** Python objects stored in the dictionaries the script builds. *)
Inductive pyval : Type :=
| PyNone
| PyInt (z : Z)
| PyStr (s : str).

(** [d[k]] raises [KeyError] on a missing key; [d.get(k, dflt)] does not. *)
Definition dict_getitem (d : gmap string pyval) (k : string) : result pyval :=
  match d !! k with
  | Some v => Return v
  | None => Raise KeyError
  end.

Definition dict_get (d : gmap string pyval) (k : string) (dflt : pyval) : pyval :=
  default dflt (d !! k).

(** Truth value of [None] or a dict, as tested by [if parsed_data:]. *)
Definition truthy (o : option (gmap string pyval)) : bool :=
  match o with
  | None => false
  | Some d => negb (bool_decide (d = ∅))
  end.

(** ** [codecs]: the [rot_13] codec *)

Module codecs.

(** [codecs.make_identity_dict(range(n))]. *)
Definition make_identity_dict (n : nat) : gmap N N :=
  list_to_map (List.map (fun k => (N.of_nat k, N.of_nat k)) (seq 0 n)).

(** The table of [encodings/rot_13.py]: the identity on [range(256)],
    updated with the 52 letter pairs. *)
Definition rot13_update : list (N * N) :=
  [ (0x41, 0x4e); (0x42, 0x4f); (0x43, 0x50); (0x44, 0x51); (0x45, 0x52);
    (0x46, 0x53); (0x47, 0x54); (0x48, 0x55); (0x49, 0x56); (0x4a, 0x57);
    (0x4b, 0x58); (0x4c, 0x59); (0x4d, 0x5a); (0x4e, 0x41); (0x4f, 0x42);
    (0x50, 0x43); (0x51, 0x44); (0x52, 0x45); (0x53, 0x46); (0x54, 0x47);
    (0x55, 0x48); (0x56, 0x49); (0x57, 0x4a); (0x58, 0x4b); (0x59, 0x4c);
    (0x5a, 0x4d); (0x61, 0x6e); (0x62, 0x6f); (0x63, 0x70); (0x64, 0x71);
    (0x65, 0x72); (0x66, 0x73); (0x67, 0x74); (0x68, 0x75); (0x69, 0x76);
    (0x6a, 0x77); (0x6b, 0x78); (0x6c, 0x79); (0x6d, 0x7a); (0x6e, 0x61);
    (0x6f, 0x62); (0x70, 0x63); (0x71, 0x64); (0x72, 0x65); (0x73, 0x66);
    (0x74, 0x67); (0x75, 0x68); (0x76, 0x69); (0x77, 0x6a); (0x78, 0x6b);
    (0x79, 0x6c); (0x7a, 0x6d) ]%N.

(** [d.update(u)]: the entries of [u] override those of [d]. *)
Definition rot13_map : gmap N N :=
  list_to_map rot13_update ∪ make_identity_dict 256.

(** [str.translate(input, table)] with an integer-valued table: a code
    point missing from the table is left as it is. *)
Definition translate (table : gmap N N) (input : str) : str :=
  List.map (fun c => default c (table !! c)) input.

(** [codecs.decode(s, 'rot_13')]. *)
Definition decode_rot_13 (input : str) : str := translate rot13_map input.

End codecs.

(** ** [struct]: fixed-width little-endian integers *)

Module struct.

Definition byte_value (b : byte) : Z := Z.of_N (Byte.to_N b).

Definition byte_of_Z (z : Z) : byte :=
  default x00 (Byte.of_N (Z.to_N (z mod 256))).

(** Little-endian value of a byte string. *)
Fixpoint le_decode (bs : bytes) : Z :=
  match bs with
  | [] => 0
  | b :: bs' => byte_value b + 256 * le_decode bs'
  end.

(** The [n] low bytes of [z], least significant first. *)
Fixpoint le_encode (n : nat) (z : Z) : bytes :=
  match n with
  | O => []
  | S n' => byte_of_Z z :: le_encode n' (z / 256)
  end.

(** Size in bytes of the two formats the script uses, ["<I"] and
    ["<Q"]; any other format string is rejected. *)
Definition calcsize (fmt : string) : result nat :=
  if String.eqb fmt "<I" then Return 4%nat
  else if String.eqb fmt "<Q" then Return 8%nat
  else Raise struct_error.

(** [struct.pack(fmt, v)]: [struct.error] when [v] does not fit. *)
Definition pack (fmt : string) (v : Z) : result bytes :=
  n ← calcsize fmt;
  if (0 <=? v) && (v <? 256 ^ Z.of_nat n) then Return (le_encode n v)
  else Raise struct_error.

(** [struct.unpack(fmt, buffer)[0]]: [struct.error] unless the buffer has
    exactly the size of the format. *)
Definition unpack (fmt : string) (buffer : bytes) : result Z :=
  n ← calcsize fmt;
  if Nat.eqb (length buffer) n then Return (le_decode buffer)
  else Raise struct_error.

End struct.

(** ** [datetime]: proleptic Gregorian dates, after [_pydatetime.py] *)

Module datetime.

Definition _MAXORDINAL : Z := 3652059.

Definition _DAYS_IN_MONTH : list Z :=
  [-1; 31; 28; 31; 30; 31; 30; 31; 31; 30; 31; 30; 31].

(** [for dim in _DAYS_IN_MONTH[1:]: _DAYS_BEFORE_MONTH.append(dbm); dbm += dim] *)
Definition _DAYS_BEFORE_MONTH : list Z :=
  fst (fold_left (fun '(acc, dbm) dim => (acc ++ [dbm], dbm + dim))
         (tl _DAYS_IN_MONTH) ([-1], 0)).

(** [table[i]] on the two month tables; every index the code computes
    lies in [1..12] (lemma [month_day_spec] below). *)
Definition getitem (table : list Z) (i : Z) : Z := nth (Z.to_nat i) table 0.

Definition _is_leap (year : Z) : bool :=
  (year mod 4 =? 0) && (negb (year mod 100 =? 0) || (year mod 400 =? 0)).

Definition _days_before_year (year : Z) : Z :=
  let y := year - 1 in
  y * 365 + y / 4 - y / 100 + y / 400.

Definition _days_in_month (year month : Z) : Z :=
  if (month =? 2) && _is_leap year then 29
  else getitem _DAYS_IN_MONTH month.

Definition _days_before_month (year month : Z) : Z :=
  getitem _DAYS_BEFORE_MONTH month
  + (if (2 <? month) && _is_leap year then 1 else 0).

Definition _ymd2ord (year month day : Z) : Z :=
  _days_before_year year + _days_before_month year month + day.

Definition _DI400Y : Z := _days_before_year 401.
Definition _DI100Y : Z := _days_before_year 101.
Definition _DI4Y : Z := _days_before_year 5.

(** Ordinal to (year, month, day); 0001-01-01 is day 1.  The two
    [assert] statements of the original hold for every [n] (lemmas
    [is_leap_decomp] and [ord2ymd_correct] below) and are left out. *)
Definition _ord2ymd (n : Z) : Z * Z * Z :=
  let n := n - 1 in
  let n400 := n / _DI400Y in
  let n := n mod _DI400Y in
  let year := n400 * 400 + 1 in
  let n100 := n / _DI100Y in
  let n := n mod _DI100Y in
  let n4 := n / _DI4Y in
  let n := n mod _DI4Y in
  let n1 := n / 365 in
  let n := n mod 365 in
  let year := year + (n100 * 100 + n4 * 4 + n1) in
  if (n1 =? 4) || (n100 =? 4) then (year - 1, 12, 31)
  else
    let leapyear := (n1 =? 3) && (negb (n4 =? 24) || (n100 =? 3)) in
    let month := Z.shiftr (n + 50) 5 in
    let preceding :=
      getitem _DAYS_BEFORE_MONTH month
      + (if (2 <? month) && leapyear then 1 else 0) in
    if n <? preceding then
      let month := month - 1 in
      let preceding :=
        preceding - (getitem _DAYS_IN_MONTH month
                     + (if (month =? 2) && leapyear then 1 else 0)) in
      (year, month, n - preceding + 1)
    else (year, month, n - preceding + 1).

(** *** [timedelta] *)

Record timedelta : Type := mk_timedelta {
  days : Z;
  seconds : Z;
  microseconds : Z
}.

(** [timedelta(days, seconds, microseconds, milliseconds, minutes, hours)]
    on integer arguments: everything is normalised to days, seconds in
    [0, 86400) and microseconds in [0, 10^6); more than 999999999 days
    either way is an [OverflowError]. *)
Definition timedelta_new
    (days seconds microseconds milliseconds minutes hours : Z)
    : result timedelta :=
  let d := days in
  let seconds := seconds + (minutes * 60 + hours * 3600) in
  let microseconds := microseconds + milliseconds * 1000 in
  let d := d + seconds / 86400 in
  let s := seconds mod 86400 in
  let seconds := microseconds / 1000000 in
  let microseconds := microseconds mod 1000000 in
  let d := d + seconds / 86400 in
  let s := s + seconds mod 86400 in
  let s := s + microseconds / 1000000 in
  let us := microseconds mod 1000000 in
  let d := d + s / 86400 in
  let s := s mod 86400 in
  if 999999999 <? Z.abs d then Raise OverflowError
  else Return (mk_timedelta d s us).

(** [timedelta.__add__] *)
Definition timedelta_add (a b : timedelta) : result timedelta :=
  timedelta_new (days a + days b) (seconds a + seconds b)
    (microseconds a + microseconds b) 0 0 0.

(** *** [datetime] *)

Record datetime : Type := mk_datetime {
  year : Z;
  month : Z;
  day : Z;
  hour : Z;
  minute : Z;
  second : Z;
  microsecond : Z
}.

(** [datetime(year, month, day)], used on the two valid literal dates
    only. *)
Definition datetime_new (year month day : Z) : datetime :=
  mk_datetime year month day 0 0 0 0.

Definition toordinal (self : datetime) : Z :=
  _ymd2ord (year self) (month self) (day self).

(** [datetime.__add__(self, other)] for a [timedelta]. *)
Definition add (self : datetime) (other : timedelta) : result datetime :=
  delta ← timedelta_new (toordinal self) (second self) (microsecond self)
            0 (minute self) (hour self);
  delta ← timedelta_add delta other;
  let hour := seconds delta / 3600 in
  let rem := seconds delta mod 3600 in
  let minute := rem / 60 in
  let second := rem mod 60 in
  if (0 <? days delta) && (days delta <=? _MAXORDINAL) then
    let '(y, m, d) := _ord2ymd (days delta) in
    Return (mk_datetime y m d hour minute second (microseconds delta))
  else Raise OverflowError.

(** *** [strftime] *)

Definition digit (d : Z) : codepoint := Z.to_N (48 + d mod 10).

(** ['%02d' % n] and ['%04d' % n] for the ranges of the fields. *)
Definition dec2 (n : Z) : str := [digit (n / 10); digit n].
Definition dec4 (n : Z) : str :=
  [digit (n / 1000); digit (n / 100); digit (n / 10); digit n].

(** The directives the script uses.  [%Y] is the year with century; the
    years met here have four digits. *)
Definition directive (self : datetime) (c : ascii) : str :=
  if Ascii.eqb c "Y" then dec4 (year self)
  else if Ascii.eqb c "m" then dec2 (month self)
  else if Ascii.eqb c "d" then dec2 (day self)
  else if Ascii.eqb c "H" then dec2 (hour self)
  else if Ascii.eqb c "M" then dec2 (minute self)
  else if Ascii.eqb c "S" then dec2 (second self)
  else [N_of_ascii "%"; N_of_ascii c].

Fixpoint strftime_chars (self : datetime) (fmt : list ascii) : str :=
  match fmt with
  | [] => []
  | c :: rest =>
      if Ascii.eqb c "%" then
        match rest with
        | [] => [N_of_ascii c]
        | c' :: rest' => directive self c' ++ strftime_chars self rest'
        end
      else N_of_ascii c :: strftime_chars self rest
  end.

Definition strftime (self : datetime) (fmt : string) : str :=
  strftime_chars self (list_ascii_of_string fmt).

End datetime.

(** ** The objects a registry value holds

    [value.value()] of python-registry returns an object whose type
    follows the type of the registry value: [bytes] for [REG_BINARY] and
    [REG_NONE], [int] for [REG_DWORD] and [REG_QWORD], [str] for [REG_SZ]
    and [REG_EXPAND_SZ], a list of [str] for [REG_MULTI_SZ], a [datetime]
    for [REG_FILETIME]. *)
Inductive regdata : Type :=
| RegBin (b : list byte)
| RegInt (z : Z)
| RegStr (s : str)
| RegList (l : list str)
| RegTime (t : datetime.datetime).

(** A byte string is read as the object it is. *)
#[warning="-uniform-inheritance"]
Coercion RegBin : list >-> regdata.

(** [len(obj)]: an [int] and a [datetime] have no length. *)
Definition py_len (obj : regdata) : result nat :=
  match obj with
  | RegBin b => Return (length b)
  | RegStr s => Return (length s)
  | RegList l => Return (length l)
  | RegInt _ | RegTime _ => Raise TypeError
  end.

(** [obj[lo:hi]]. *)
Definition py_getslice (obj : regdata) (lo hi : nat) : result regdata :=
  match obj with
  | RegBin b => Return (RegBin (slice b lo hi))
  | RegStr s => Return (RegStr (slice s lo hi))
  | RegList l => Return (RegList (slice l lo hi))
  | RegInt _ | RegTime _ => Raise TypeError
  end.

(** The truth value of [obj], as tested by [if not data:]. *)
Definition py_bool (obj : regdata) : bool :=
  match obj with
  | RegBin b => negb (Nat.eqb (length b) 0)
  | RegInt z => negb (z =? 0)
  | RegStr s => negb (Nat.eqb (length s) 0)
  | RegList l => negb (Nat.eqb (length l) 0)
  | RegTime _ => true
  end.

(** [obj >= n] for an integer [n]: only an [int] compares with it. *)
Definition py_ge (obj : regdata) (n : Z) : result bool :=
  match obj with
  | RegInt z => Return (n <=? z)
  | _ => Raise TypeError
  end.

(** [struct.unpack(fmt, obj)[0]]: a buffer that is not a byte string is a
    [TypeError]. *)
Definition struct_unpack (fmt : string) (buffer : regdata) : result Z :=
  match buffer with
  | RegBin b => struct.unpack fmt b
  | _ => _ ← struct.calcsize fmt; Raise TypeError
  end.


(** ** The script *)

(** [rot13_decode], source lines 58-60. *)
Definition rot13_decode (encoded_string : str) : str :=
  codecs.decode_rot_13 encoded_string.

(** [convert_filetime], source lines 62-77.  [print] only writes to the
    console and is left out, here and below. *)
Definition convert_filetime (filetime : Z) : result str :=
  if filetime =? 0 then Return (lit "Never")
  else
    try_except
      (packed ← struct.pack "<Q" filetime;
       filetime ← struct.unpack "<Q" packed;
       let microseconds := filetime / 10 in
       if microseconds =? 0 then Return (lit "Never")
       else
         let windows_epoch := datetime.datetime_new 1601 1 1 in
         delta ← datetime.timedelta_new 0 0 microseconds 0 0 0;
         timestamp ← datetime.add windows_epoch delta;
         Return (datetime.strftime timestamp "%Y-%m-%d %H:%M:%S"))
      Exception
      (fun e => Return (lit "Invalid timestamp")).

(** [convert_focus_time_to_utc], source lines 79-90. *)
Definition convert_focus_time_to_utc (milliseconds : Z) : result str :=
  try_except
    (if milliseconds =? 0 then Return (lit "Never")
     else
       let unix_epoch := datetime.datetime_new 1970 1 1 in
       delta ← datetime.timedelta_new 0 0 0 milliseconds 0 0;
       timestamp ← datetime.add unix_epoch delta;
       Return (datetime.strftime timestamp "%Y-%m-%d %H:%M:%S"))
    Exception
    (fun e => Return (lit "Invalid focus time")).

Section EntryDecoder.

(** The byte-extraction primitive, [struct.unpack(fmt, buffer)[0]]. *)
Variable unpack : string → regdata → result Z.

(** [parse_userassist_entry], source lines 92-121, on any object [data].
    Python's [None] is Rocq's [None]; a dict is [Some d].  When the length
    test fails, control leaves the [try] and reaches the final
    [return None]. *)
Definition parse_userassist_entry_with (data : regdata) (win7_format : bool)
    : result (option (gmap string pyval)) :=
  if win7_format then
    try_except
      (n ← py_len data;
       if (72 <=? n)%nat then
         bytes_4_8 ← py_getslice data 4 8;
         count ← unpack "<I" bytes_4_8;
         bytes_12_16 ← py_getslice data 12 16;
         focus_time ← unpack "<I" bytes_12_16;
         bytes_60_68 ← py_getslice data 60 68;
         last_execution ← unpack "<Q" bytes_60_68;
         focus ← convert_focus_time_to_utc focus_time;
         last ← convert_filetime last_execution;
         Return (Some (<["count" := PyInt count]>
                      (<["focus_time" := PyStr focus]>
                      (<["last_execution" := PyStr last]> ∅))))
       else Return None)
      (is_exn struct_error)
      (fun e => Return None)
  else
    try_except
      (n ← py_len data;
       if (16 <=? n)%nat then
         bytes_4_8 ← py_getslice data 4 8;
         count ← unpack "<I" bytes_4_8;
         bytes_8_16 ← py_getslice data 8 16;
         last_execution ← unpack "<Q" bytes_8_16;
         last ← convert_filetime last_execution;
         Return (Some (<["count" := PyInt count]>
                      (<["last_execution" := PyStr last]> ∅)))
       else Return None)
      (is_exn struct_error)
      (fun e => Return None).

End EntryDecoder.

(** The function of the script: the primitive is [struct.unpack]. *)
Definition parse_userassist_entry
    : regdata → bool → result (option (gmap string pyval)) :=
  parse_userassist_entry_with struct_unpack.

(** *** The registry collaborator (python-registry), by its interface

    Each call of the collaborator is given by its outcome: a value, or the
    exception it raises. *)

(** A value under a [Count] key: [value.name()] and the outcome of
    [value.value()]. *)
Record RegistryValue : Type := mk_value {
  value_name : str;
  value_value : result regdata
}.

(** A GUID key under [UserAssist]: [guid_key.name()], the outcome of
    [guid_key.value("Version").value()], and the outcome of
    [guid_key.subkey("Count").values()]. *)
Record RegistryKey : Type := mk_key {
  key_name : str;
  key_Version : result regdata;
  key_Count : result (list RegistryValue)
}.

(** An opened hive: [registry.open(r"Software\...\UserAssist").subkeys()]. *)
Record Registry : Type := mk_registry {
  open_UserAssist : result (list RegistryKey)
}.

(** *** Statements that append to [userassist_data]

    The list is mutated in place, so what was appended before an exception
    stays appended: a block maps the list to an outcome and the list
    after it. *)
Definition block (A : Type) : Type :=
  list (gmap string pyval) → result A * list (gmap string pyval).

Definition pass {A} (a : A) : block A := fun s => (Return a, s).

Definition eval {A} (r : result A) : block A := fun s => (r, s).

Definition then_ {A B} (m : block A) (k : A → block B) : block B :=
  fun s =>
    match m s with
    | (Return a, s') => k a s'
    | (Raise e, s') => (Raise e, s')
    end.

Definition append (entry : gmap string pyval) : block unit :=
  fun s => (Return tt, s ++ [entry]).

Definition try_except_block {A} (body : block A) (matches : exn → bool)
    (handler : exn → block A) : block A :=
  fun s =>
    match body s with
    | (Return a, s') => (Return a, s')
    | (Raise e, s') => if matches e then handler e s' else (Raise e, s')
    end.

(** [for x in xs: body]. *)
Fixpoint for_each {A} (xs : list A) (body : A → block unit) : block unit :=
  match xs with
  | [] => pass tt
  | x :: xs' => then_ (body x) (fun _ => for_each xs' body)
  end.

(** How the body of [parse_userassist] ends: at a [return None], or by
    reaching the final [return userassist_data]. *)
Inductive ending : Type :=
| return_None
| fall_through.

Section Driver.

(** [Registry.Registry(ntuser_path)] and [Path(ntuser_path).parent.name]. *)
Variable Registry_Registry : str → result Registry.
Variable Path_parent_name : str → str.

(** The format choice of source lines 144-148: [true] is the Windows 7
    layout, [false] the XP one. *)
Definition select_format (guid_key : RegistryKey) : result bool :=
  try_except
    (version_value ← key_Version guid_key;
     py_ge version_value 5)
    (is_exn RegistryValueNotFoundException)
    (fun e => Return false).

(** The body of [for value in count_key.values()], source lines 154-173.
    Inside [if parsed_data:] the value is a dict, [d]. *)
Definition process_value (username guid ntuser_path : str) (win7_format : bool)
    (value : RegistryValue) : block unit :=
  let name := value_name value in
  then_ (eval (value_value value)) (fun data =>
  if negb (py_bool data) then pass tt
  else
    let decoded_name := rot13_decode name in
    then_ (eval (parse_userassist_entry data win7_format)) (fun parsed_data =>
    if truthy parsed_data then
      let d := default ∅ parsed_data in
      then_ (eval (dict_getitem d "last_execution")) (fun last_execution =>
      then_ (eval (dict_getitem d "count")) (fun count =>
      let entry : gmap string pyval :=
        <["username" := PyStr username]>
        (<["name" := PyStr decoded_name]>
        (<["last_execution" := last_execution]>
        (<["guid" := PyStr guid]>
        (<["count" := count]>
        (<["focus_time" := dict_get d "focus_time" (PyStr (lit "N/A"))]>
        (<["source_file" := PyStr ntuser_path]> ∅)))))) in
      append entry))
    else pass tt)).

(** The body of [for guid_key in userassist_key.subkeys()], source lines
    142-176. *)
Definition process_guid_key (username ntuser_path : str)
    (guid_key : RegistryKey) : block unit :=
  let guid := key_name guid_key in
  then_ (eval (select_format guid_key)) (fun win7_format =>
  try_except_block
    (then_ (eval (key_Count guid_key)) (fun count_key =>
     for_each count_key
       (process_value username guid ntuser_path win7_format)))
    (is_exn RegistryKeyNotFoundException)
    (fun e => pass tt)).

(** [parse_userassist], source lines 130-186. *)
Definition parse_userassist (ntuser_path : str)
    : option (list (gmap string pyval)) :=
  let userassist_data : list (gmap string pyval) := [] in
  let '(outcome, userassist_data) :=
    try_except_block
      (then_ (eval (Registry_Registry ntuser_path)) (fun registry =>
       let username := Path_parent_name ntuser_path in
       try_except_block
         (then_ (eval (open_UserAssist registry)) (fun userassist_key =>
          then_ (for_each userassist_key
                   (process_guid_key username ntuser_path)) (fun _ =>
          pass fall_through)))
         (is_exn RegistryKeyNotFoundException)
         (fun e => pass return_None)))
      Exception
      (fun e => pass return_None)
      userassist_data in
  match outcome with
  | Return fall_through => Some userassist_data
  | Return return_None => None
  | Raise e => None (* not reached: [except Exception] catches every [e] *)
  end.

End Driver.


(** ** Vocabulary of the specification *)

(** The two layouts, as the [win7_format] flag of the script. *)
Definition Modern : bool := true.
Definition Legacy : bool := false.

(** Minimum length of a blob, in bytes. *)
Definition minimum_length (format : bool) : nat :=
  if format then 72%nat else 16%nat.

(** The version marker of a GUID key, as the outcome of looking it up. *)
Definition version_lookup (marker : option Z) : result regdata :=
  match marker with
  | Some v => Return (RegInt v)
  | None => Raise RegistryValueNotFoundException
  end.

(** The unsigned little-endian field of [width] bytes at offset [off]:
    byte [off + i] has weight [256 ^ i]. *)
Fixpoint le_field (data : bytes) (off width : nat) : Z :=
  match width with
  | O => 0
  | S w => struct.byte_value (nth off data x00) + 256 * le_field data (S off) w
  end.

(** The unpacking calls of the entry decoder: format, slice bounds. *)
Definition field_slices (format : bool) : list (string * nat * nat) :=
  if format then [("<I"%string, 4, 8); ("<I"%string, 12, 16); ("<Q"%string, 60, 68)]%nat
  else [("<I"%string, 4, 8); ("<Q"%string, 8, 16)]%nat.

(** The first of the unpacking calls that raises, with what it raises;
    [None] when all of them return. *)
Fixpoint first_raise (unpack : string → regdata → result Z) (data : bytes)
    (calls : list (string * nat * nat)) : option exn :=
  match calls with
  | [] => None
  | (fmt, lo, hi) :: calls' =>
      match unpack fmt (RegBin (slice data lo hi)) with
      | Return _ => first_raise unpack data calls'
      | Raise e => Some e
      end
  end.

(** Rotation by 13 inside each of the two 26-letter ranges, every other
    code point fixed. *)
Definition rot13_char (c : codepoint) : codepoint :=
  if ((65 <=? c) && (c <=? 90))%N then (65 + (c - 65 + 13) mod 26)%N
  else if ((97 <=? c) && (c <=? 122))%N then (97 + (c - 97 + 13) mod 26)%N
  else c.

(** The 52 letters A-Z and a-z. *)
Definition is_letter (c : codepoint) : bool :=
  ((65 <=? c) && (c <=? 90) || (97 <=? c) && (c <=? 122))%N.

Definition is_upper (c : codepoint) : bool := ((65 <=? c) && (c <=? 90))%N.

Definition is_lower (c : codepoint) : bool := ((97 <=? c) && (c <=? 122))%N.

(** A calendar date and time of day within the range of [datetime]. *)
Definition valid_datetime (dt : datetime.datetime) : Prop :=
  1 <= datetime.year dt <= 9999 ∧
  1 <= datetime.month dt <= 12 ∧
  1 <= datetime.day dt <= datetime._days_in_month (datetime.year dt) (datetime.month dt) ∧
  0 <= datetime.hour dt < 24 ∧
  0 <= datetime.minute dt < 60 ∧
  0 <= datetime.second dt < 60.

(** Whole seconds from the start of ordinal day 0 to [dt]. *)
Definition civil_seconds (dt : datetime.datetime) : Z :=
  datetime.toordinal dt * 86400
  + datetime.hour dt * 3600 + datetime.minute dt * 60 + datetime.second dt.

(** [YYYY-MM-DD HH:MM:SS]. *)
Definition render (dt : datetime.datetime) : str :=
  datetime.dec4 (datetime.year dt) ++ lit "-" ++
  datetime.dec2 (datetime.month dt) ++ lit "-" ++
  datetime.dec2 (datetime.day dt) ++ lit " " ++
  datetime.dec2 (datetime.hour dt) ++ lit ":" ++
  datetime.dec2 (datetime.minute dt) ++ lit ":" ++
  datetime.dec2 (datetime.second dt).

(** A valid timestamp of the form [YYYY-MM-DD HH:MM:SS]. *)
Definition is_timestamp (s : str) : Prop :=
  ∃ dt, valid_datetime dt ∧ s = render dt.

(** The two epochs. *)
Definition windows_epoch : datetime.datetime := datetime.datetime_new 1601 1 1.
Definition unix_epoch : datetime.datetime := datetime.datetime_new 1970 1 1.

(** The last day [datetime] can hold is 9999-12-31: an offset of [d] whole
    days from [epoch] is representable when it stays within it. *)
Definition representable (epoch : datetime.datetime) (d : Z) : Prop :=
  1 <= datetime.toordinal epoch + d <= datetime._MAXORDINAL.

(** *** Auxiliary definitions on months

    The month tables with the leap flag as a parameter, the month and day
    part of [_ord2ymd], and the two checks that are run over the tables. *)

Import datetime.

Definition days_in_month_flag (leap : bool) (month : Z) : Z :=
  if (month =? 2) && leap then 29 else getitem _DAYS_IN_MONTH month.

Definition days_before_month_flag (leap : bool) (month : Z) : Z :=
  getitem _DAYS_BEFORE_MONTH month + (if (2 <? month) && leap then 1 else 0).

Definition month_day (leapyear : bool) (n : Z) : Z * Z :=
  let month := Z.shiftr (n + 50) 5 in
  let preceding := days_before_month_flag leapyear month in
  if n <? preceding then
    let month := month - 1 in
    let preceding :=
      preceding - (getitem _DAYS_IN_MONTH month
                   + (if (month =? 2) && leapyear then 1 else 0)) in
    (month, n - preceding + 1)
  else (month, n - preceding + 1).

Definition month_day_ok (leap : bool) (n : Z) : bool :=
  let '(m, d) := month_day leap n in
  (1 <=? m) && (m <=? 12) && (1 <=? d) && (d <=? days_in_month_flag leap m)
  && (days_before_month_flag leap m + d =? n + 1).

Definition month_ok (leap : bool) (m : Z) : bool :=
  (0 <=? days_before_month_flag leap m)
  && (28 <=? days_in_month_flag leap m) && (days_in_month_flag leap m <=? 31)
  && (days_before_month_flag leap m + days_in_month_flag leap m
      <=? (if leap then 366 else 365))
  && ((m =? 12) || (days_before_month_flag leap m + days_in_month_flag leap m
                     =? days_before_month_flag leap (m + 1))).

(** The start of ordinal day [ord] plus [T] microseconds, as [datetime]
    addition computes it (lemma [epoch_plus] below). *)
Definition shifted (ord T : Z) : result datetime :=
  let D := ord + T / 86400000000 in
  let S := (T / 1000000) mod 86400 in
  if (1 <=? D) && (D <=? _MAXORDINAL) then
    let '(y, m, d) := _ord2ymd D in
    Return (mk_datetime y m d (S / 3600) ((S mod 3600) / 60) ((S mod 3600) mod 60)
              (T mod 1000000))
  else Raise OverflowError.

(** What a converter returns after its date arithmetic: the rendered
    date, or its marker when the arithmetic raised. *)
Definition stamp (marker : string) (r : result datetime) : result str :=
  match r with
  | Return dt => Return (render dt)
  | Raise e => Return (lit marker)
  end.

(** Strictly smaller, for strings of one length. *)
Fixpoint str_lt (a b : str) : bool :=
  match a, b with
  | x :: a', y :: b' =>
      if (x <? y)%N then true else if (y <? x)%N then false else str_lt a' b'
  | _, _ => false
  end.

(** Calendar and clock order on the fields a timestamp shows. *)
Definition not_later (a b : datetime) : Prop :=
  year a < year b ∨ (year a = year b ∧
  (month a < month b ∨ (month a = month b ∧
  (day a < day b ∨ (day a = day b ∧
  (hour a < hour b ∨ (hour a = hour b ∧
  (minute a < minute b ∨ (minute a = minute b ∧
   second a <= second b))))))))).

(** The check that is run over the [rot_13] table. *)
Definition rot13_entry_ok (c : codepoint) : bool :=
  (default c (codecs.rot13_map !! c) =? rot13_char c)%N
  && (rot13_char (rot13_char c) =? c)%N
  && Bool.eqb (is_upper (rot13_char c)) (is_upper c)
  && Bool.eqb (is_lower (rot13_char c)) (is_lower c).

(** The two markers the converters substitute on overflow. *)
Definition is_invalid_marker (s : str) : Prop :=
  s = lit "Invalid timestamp" ∨ s = lit "Invalid focus time".

(** A field that holds a string: a timestamp, "Never" or an invalid
    marker. *)
Definition timestamp_field (v : option pyval) : Prop :=
  ∃ s, v = Some (PyStr s)
       ∧ (is_timestamp s ∨ s = lit "Never" ∨ is_invalid_marker s).

(** *** An example hive

    One GUID key without a [Version] value, holding one 16-byte value:
    run count 5, never executed. *)

Definition legacy_blob : bytes :=
  [x00; x00; x00; x00; x05; x00; x00; x00;
   x00; x00; x00; x00; x00; x00; x00; x00].

(** The hive, with the value named by the rot13 of UEME_RUNPATH. *)
Definition legacy_hive : Registry :=
  mk_registry
    (Return [mk_key (lit "{75048700-EF1F-11D0-9888-006097DEACF9}")
               (Raise RegistryValueNotFoundException)
               (Return [mk_value (lit "HRZR_EHACNGU") (Return (RegBin legacy_blob))])]).

(** What the entry decoder returns on the blob. *)
Definition legacy_entry : gmap string pyval :=
  <["count" := PyInt 5]> (<["last_execution" := PyStr (lit "Never")]> ∅).

(** The record the driver builds for it. *)
Definition legacy_record : gmap string pyval :=
  <["username" := PyStr (lit "alice")]>
  (<["name" := PyStr (lit "UEME_RUNPATH")]>
  (<["last_execution" := PyStr (lit "Never")]>
  (<["guid" := PyStr (lit "{75048700-EF1F-11D0-9888-006097DEACF9}")]>
  (<["count" := PyInt 5]>
  (<["focus_time" := PyStr (lit "N/A")]>
  (<["source_file" := PyStr (lit "C:\Users\alice\NTUSER.DAT")]> ∅)))))).

(** A GUID key of version 5 holding one 72-byte value: run count 3, one
    second of focus, last run on 2021-01-01 at 00:00:00. *)
Definition modern_blob : bytes :=
  repeat x00 4 ++ [x03; x00; x00; x00] ++ repeat x00 4
  ++ [xe8; x03; x00; x00] ++ repeat x00 44
  ++ [x00; x80; x35; x0c; xd1; xdf; xd6; x01] ++ repeat x00 4.

Definition modern_hive : Registry :=
  mk_registry
    (Return [mk_key (lit "{CEBFF5CD-ACE2-4F4F-9178-9926F41749EA}")
               (Return (RegInt 5))
               (Return [mk_value (lit "Zvpebfbsg.Jvaqbjf.Rkcybere")
                          (Return (RegBin modern_blob))])]).

Definition modern_record : gmap string pyval :=
  <["username" := PyStr (lit "alice")]>
  (<["name" := PyStr (lit "Microsoft.Windows.Explorer")]>
  (<["last_execution" := PyStr (lit "2021-01-01 00:00:00")]>
  (<["guid" := PyStr (lit "{CEBFF5CD-ACE2-4F4F-9178-9926F41749EA}")]>
  (<["count" := PyInt 3]>
  (<["focus_time" := PyStr (lit "1970-01-01 00:00:01")]>
  (<["source_file" := PyStr (lit "C:\Users\alice\NTUSER.DAT")]> ∅)))))).

(** A hive whose one value under [Count] is a [REG_DWORD]. *)
Definition dword_hive : Registry :=
  mk_registry
    (Return [mk_key (lit "{75048700-EF1F-11D0-9888-006097DEACF9}")
               (Raise RegistryValueNotFoundException)
               (Return [mk_value (lit "HRZR_EHACNGU") (Return (RegBin legacy_blob));
                        mk_value (lit "HRZR_PGYFRFFVBA") (Return (RegInt 1))])]).

(** ** The rest of the script *)

(** *** [main]: the records of all hives, source lines 257-262 *)

(** Truth value of [None] or a list, as tested by [if parsed_data:]. *)
Definition truthy_list {A} (o : option (list A)) : bool :=
  match o with
  | Some (_ :: _) => true
  | _ => false
  end.

Section Main.

Variable Registry_Registry : str → result Registry.
Variable Path_parent_name : str → str.

(** The loop that fills [all_data]: [all_data.extend(parsed_data)] for
    every file whose [parsed_data] is neither [None] nor empty. *)
Definition main_all_data (ntuser_files : list str) : list (gmap string pyval) :=
  fold_left
    (fun all_data ntuser_file =>
       let parsed_data :=
         parse_userassist Registry_Registry Path_parent_name ntuser_file in
       if truthy_list parsed_data then all_data ++ default [] parsed_data
       else all_data)
    ntuser_files [].

End Main.

(** *** [write_csv_results]: the rows of the table, source lines 192-197 *)

Definition fieldnames : list string :=
  ["username"; "name"; "last_execution"; "guid"; "count"; "focus_time";
   "source_file"]%string.

(** [csv.DictWriter._dict_to_list] with the default [extrasaction='raise']
    and [restval='']: the values of the row in the order of the field names.
    [None] stands for the [ValueError] raised when the row has a key that is
    not a field name. *)
Definition _dict_to_list (fieldnames : list string) (rowdict : gmap string pyval)
    : option (list pyval) :=
  let wrong_fields : gset string := dom rowdict ∖ list_to_set fieldnames in
  if bool_decide (wrong_fields = ∅)
  then Some (List.map (fun key => dict_get rowdict key (PyStr [])) fieldnames)
  else None.

(** What [writer.writeheader(); writer.writerows(all_data)] hands to the
    csv writer under [if all_data:]: nothing for an empty list, else the
    header row and one row per record.  [None] stands for the [ValueError]
    of a row, which [write_csv_results] turns into [False]. *)
Definition write_csv_rows (all_data : list (gmap string pyval))
    : option (list (list pyval)) :=
  match all_data with
  | [] => Some []
  | _ :: _ =>
      rows ← mapM (_dict_to_list fieldnames) all_data;
      Some (List.map (fun key => PyStr (lit key)) fieldnames :: rows)
  end.

(** *** The driver as a function

    What a statement of the driver does to [userassist_data], written
    without the list: how the statement ends, and the records it appends. *)

(** The string a converter returns. *)
Definition text (r : result str) : str :=
  match r with
  | Return s => s
  | Raise _ => []
  end.

(** The record of a value called [name] that holds the byte string
    [data]. *)
Definition record_of (username guid ntuser_path : str) (win7_format : bool)
    (name : str) (data : bytes) : gmap string pyval :=
  <["username" := PyStr username]>
  (<["name" := PyStr (rot13_decode name)]>
  (<["last_execution" :=
       PyStr (text (convert_filetime
                      (le_field data (if win7_format then 60 else 8)%nat 8)))]>
  (<["guid" := PyStr guid]>
  (<["count" := PyInt (le_field data 4 4)]>
  (<["focus_time" :=
       PyStr (if win7_format
              then text (convert_focus_time_to_utc (le_field data 12 4))
              else lit "N/A")]>
  (<["source_file" := PyStr ntuser_path]> ∅)))))).

(** How a statement ends, and the records it appended. *)
Definition step : Type := result unit * list (gmap string pyval).

(** The iterations of a loop, one after the other, up to the first that
    raises: what was appended until then stays appended. *)
Fixpoint run_steps (steps : list step) : step :=
  match steps with
  | [] => (Return tt, [])
  | (Return _, records) :: steps' =>
      let '(outcome, records') := run_steps steps' in
      (outcome, records ++ records')
  | (Raise e, records) :: _ => (Raise e, records)
  end.

(** One value under [Count], by the object it holds: a byte string of at
    least the minimum length gives a record, a shorter one nothing; an
    object that is not a byte string gives nothing when it is falsy or a
    sequence below the minimum length, and a [TypeError] otherwise. *)
Definition value_step (username guid ntuser_path : str) (win7_format : bool)
    (value : RegistryValue) : step :=
  match value_value value with
  | Raise e => (Raise e, [])
  | Return (RegBin data) =>
      if (minimum_length win7_format <=? length data)%nat
      then (Return tt,
            [record_of username guid ntuser_path win7_format
               (value_name value) data])
      else (Return tt, [])
  | Return (RegInt z) =>
      if z =? 0 then (Return tt, []) else (Raise TypeError, [])
  | Return (RegStr s) =>
      if (minimum_length win7_format <=? length s)%nat
      then (Raise TypeError, []) else (Return tt, [])
  | Return (RegList l) =>
      if (minimum_length win7_format <=? length l)%nat
      then (Raise TypeError, []) else (Return tt, [])
  | Return (RegTime _) => (Raise TypeError, [])
  end.

Section DriverFunction.

Variable Registry_Registry : str → result Registry.
Variable Path_parent_name : str → str.

(** One GUID key: a "key not found" of the [Count] lookup, or of a value
    under it, ends the key and not the hive. *)
Definition key_step (username ntuser_path : str) (guid_key : RegistryKey)
    : step :=
  match select_format guid_key with
  | Raise e => (Raise e, [])
  | Return win7_format =>
      let '(outcome, records) :=
        match key_Count guid_key with
        | Raise e => (Raise e, [])
        | Return values =>
            run_steps
              (List.map (value_step username (key_name guid_key) ntuser_path
                           win7_format) values)
        end in
      (try_except outcome (is_exn RegistryKeyNotFoundException)
         (fun e => Return tt),
       records)
  end.

(** The hive: the records of its GUID keys when every key ends normally,
    [None] otherwise. *)
Definition hive_records (ntuser_path : str)
    : option (list (gmap string pyval)) :=
  match Registry_Registry ntuser_path with
  | Raise e => None
  | Return registry =>
      match open_UserAssist registry with
      | Raise e => None
      | Return keys =>
          match run_steps (List.map (key_step (Path_parent_name ntuser_path)
                                       ntuser_path) keys) with
          | (Return _, records) => Some records
          | (Raise e, _) => None
          end
      end
  end.

End DriverFunction.

(** A hive as Windows writes it: the [Version] value of a GUID key is
    absent or an integer, its [Count] subkey is absent or holds binary
    values. *)
Definition regular_version (version : result regdata) : bool :=
  match version with
  | Return (RegInt _) => true
  | Raise e => is_exn RegistryValueNotFoundException e
  | _ => false
  end.

Definition binary_value (value : RegistryValue) : bool :=
  match value_value value with
  | Return (RegBin _) => true
  | _ => false
  end.

Definition regular_key (guid_key : RegistryKey) : bool :=
  regular_version (key_Version guid_key)
  && match key_Count guid_key with
     | Return values => forallb binary_value values
     | Raise e => is_exn RegistryKeyNotFoundException e
     end.

(** The records of a binary value and of a regular GUID key. *)
Definition value_records (username guid ntuser_path : str) (win7_format : bool)
    (value : RegistryValue) : list (gmap string pyval) :=
  match value_value value with
  | Return (RegBin data) =>
      if (minimum_length win7_format <=? length data)%nat
      then [record_of username guid ntuser_path win7_format
              (value_name value) data]
      else []
  | _ => []
  end.

Definition key_records (username ntuser_path : str) (guid_key : RegistryKey)
    : list (gmap string pyval) :=
  match select_format guid_key, key_Count guid_key with
  | Return win7_format, Return values =>
      flat_map (value_records username (key_name guid_key) ntuser_path
                  win7_format) values
  | _, _ => []
  end.

(** The byte offsets the entry decoder reads. *)
Definition field_offsets (format : bool) : list nat :=
  flat_map (fun '(_, lo, hi) => seq lo (hi - lo)) (field_slices format).

(** A character that needs no quoting in a CSV field: not a comma, a
    double quote, a carriage return or a line feed. *)
Definition plain_char (c : codepoint) : bool :=
  negb ((c =? 44) || (c =? 34) || (c =? 13) || (c =? 10))%N.

(** The row of a record: seven columns, the count an unsigned 32-bit
    integer, the others strings. *)
Definition record_row (row : list pyval) : Prop :=
  ∃ username name last_execution guid count focus_time source_file,
    row = [PyStr username; PyStr name; PyStr last_execution; PyStr guid;
           PyInt count; PyStr focus_time; PyStr source_file]
    ∧ 0 <= count < 2 ^ 32.

(** ** Results on the embedded functions *)

(** *** [struct] *)

Lemma byte_value_range b : 0 <= struct.byte_value b < 256.
Proof.
  unfold struct.byte_value. pose proof (Byte.to_N_bounded b). lia.
Qed.

Lemma byte_value_of_Z z : struct.byte_value (struct.byte_of_Z z) = z mod 256.
Proof.
  unfold struct.byte_value, struct.byte_of_Z.
  assert (Hr : 0 <= z mod 256 < 256) by (apply Z.mod_pos_bound; lia).
  destruct (Byte.of_N (Z.to_N (z mod 256))) as [b|] eqn:E.
  - apply Byte.to_of_N in E. simpl. rewrite E. lia.
  - exfalso.
    pose proof (Byte.to_of_N_option_map (Z.to_N (z mod 256))) as H.
    rewrite E in H. simpl in H.
    destruct (N.leb_spec (Z.to_N (z mod 256)) 255); [discriminate | lia].
Qed.

Lemma length_le_encode n z : length (struct.le_encode n z) = n.
Proof. revert z. induction n; intros; simpl; auto. Qed.

(** Packing then unpacking gives the number back. *)
Lemma le_decode_encode n z :
  0 <= z < 256 ^ Z.of_nat n → struct.le_decode (struct.le_encode n z) = z.
Proof.
  revert z. induction n as [|n IH]; intros z Hz.
  - simpl in *. lia.
  - cbn [struct.le_encode struct.le_decode].
    rewrite byte_value_of_Z, IH.
    + pose proof (Z.div_mod z 256). lia.
    + rewrite Nat2Z.inj_succ, Z.pow_succ_r in Hz by lia.
      split; [apply Z.div_pos; lia | apply Z.div_lt_upper_bound; lia].
Qed.

Lemma bind_Return {A B} (a : A) (f : A → result B) : (Return a ≫= f) = f a.
Proof. reflexivity. Qed.

Lemma bind_Raise {A B} (e : exn) (f : A → result B) : (Raise e ≫= f) = Raise e.
Proof. reflexivity. Qed.

Lemma calcsize_I : struct.calcsize "<I" = Return 4%nat.
Proof. reflexivity. Qed.

Lemma calcsize_Q : struct.calcsize "<Q" = Return 8%nat.
Proof. reflexivity. Qed.

Lemma pack_Q_in_range v :
  0 <= v < 2 ^ 64 → struct.pack "<Q" v = Return (struct.le_encode 8 v).
Proof.
  intros Hv. unfold struct.pack. rewrite calcsize_Q, bind_Return.
  change (256 ^ Z.of_nat 8) with (2 ^ 64).
  destruct (Z.leb_spec 0 v); [|lia].
  destruct (Z.ltb_spec v (2 ^ 64)); [reflexivity | lia].
Qed.

Lemma unpack_pack_Q v :
  0 <= v < 2 ^ 64 →
  (struct.pack "<Q" v ≫= struct.unpack "<Q") = Return v.
Proof.
  intros Hv. rewrite pack_Q_in_range, bind_Return by exact Hv.
  unfold struct.unpack. rewrite calcsize_Q, bind_Return.
  rewrite length_le_encode, Nat.eqb_refl.
  f_equal. apply le_decode_encode. exact Hv.
Qed.

Lemma pack_Q_out_of_range v :
  v < 0 ∨ 2 ^ 64 <= v → struct.pack "<Q" v = Raise struct_error.
Proof.
  intros Hv. unfold struct.pack. rewrite calcsize_Q, bind_Return.
  change (256 ^ Z.of_nat 8) with (2 ^ 64).
  destruct (Z.leb_spec 0 v); [|reflexivity].
  destruct (Z.ltb_spec v (2 ^ 64)); [lia | reflexivity].
Qed.

Lemma le_decode_range bs :
  0 <= struct.le_decode bs < 256 ^ Z.of_nat (length bs).
Proof.
  induction bs as [|b bs IH]; [cbn; lia|].
  cbn [struct.le_decode length]. rewrite Nat2Z.inj_succ, Z.pow_succ_r by lia.
  pose proof (byte_value_range b). lia.
Qed.

(** The value of a slice is the field at its offset. *)
Lemma le_decode_slice (data : bytes) (off w : nat) :
  (off + w <= length data)%nat →
  struct.le_decode (firstn w (skipn off data)) = le_field data off w.
Proof.
  revert off. induction w as [|w IH]; intros off H; [reflexivity|].
  destruct (skipn off data) as [|b rest] eqn:E.
  - apply (f_equal (@length _)) in E. rewrite List.length_skipn in E.
    simpl in E. lia.
  - assert (Hn : nth off data x00 = b).
    { rewrite <- (Nat.add_0_r off), <- List.nth_skipn, E. reflexivity. }
    assert (Hr : skipn (S off) data = rest).
    { change (S off) with (1 + off)%nat.
      rewrite <- List.skipn_skipn, E. reflexivity. }
    cbn [firstn struct.le_decode le_field].
    rewrite Hn, <- Hr, IH by lia. reflexivity.
Qed.

Lemma length_slice (data : bytes) (lo hi : nat) :
  (hi <= length data)%nat → length (slice data lo hi) = (hi - lo)%nat.
Proof.
  intros H. unfold slice. rewrite List.length_firstn, List.length_skipn. lia.
Qed.

Lemma unpack_I_slice (data : bytes) (lo hi : nat) :
  hi = (lo + 4)%nat → (hi <= length data)%nat →
  struct.unpack "<I" (slice data lo hi) = Return (le_field data lo 4).
Proof.
  intros -> H. unfold struct.unpack. rewrite calcsize_I, bind_Return.
  rewrite length_slice by lia.
  replace (lo + 4 - lo)%nat with 4%nat by lia. rewrite Nat.eqb_refl.
  unfold slice. replace (lo + 4 - lo)%nat with 4%nat by lia.
  f_equal. apply le_decode_slice. lia.
Qed.

Lemma unpack_Q_slice (data : bytes) (lo hi : nat) :
  hi = (lo + 8)%nat → (hi <= length data)%nat →
  struct.unpack "<Q" (slice data lo hi) = Return (le_field data lo 8).
Proof.
  intros -> H. unfold struct.unpack. rewrite calcsize_Q, bind_Return.
  rewrite length_slice by lia.
  replace (lo + 8 - lo)%nat with 8%nat by lia. rewrite Nat.eqb_refl.
  unfold slice. replace (lo + 8 - lo)%nat with 8%nat by lia.
  f_equal. apply le_decode_slice. lia.
Qed.

Lemma le_field_range (data : bytes) (off w : nat) :
  0 <= le_field data off w < 256 ^ Z.of_nat w.
Proof.
  revert off. induction w as [|w IH]; intros off; [cbn; lia|].
  cbn [le_field]. rewrite Nat2Z.inj_succ, Z.pow_succ_r by lia.
  pose proof (byte_value_range (nth off data x00)). specialize (IH (S off)). lia.
Qed.

(** *** The calendar *)

Lemma days_before_year_decomp q n100 n4 n1 :
  0 <= n100 <= 3 → 0 <= n4 <= 24 → 0 <= n1 <= 3 →
  _days_before_year (q * 400 + 1 + (n100 * 100 + n4 * 4 + n1))
  = q * 146097 + n100 * 36524 + n4 * 1461 + n1 * 365.
Proof.
  intros. unfold _days_before_year. cbv zeta.
  Z.div_mod_to_equations. lia.
Qed.

Lemma is_leap_decomp q n100 n4 n1 :
  0 <= n100 <= 3 → 0 <= n4 <= 24 → 0 <= n1 <= 3 →
  _is_leap (q * 400 + 1 + (n100 * 100 + n4 * 4 + n1))
  = (n1 =? 3) && (negb (n4 =? 24) || (n100 =? 3)).
Proof.
  intros. unfold _is_leap.
  repeat match goal with |- context [?a =? ?b] => destruct (Z.eqb_spec a b) end;
  cbn; try reflexivity; exfalso; Z.div_mod_to_equations; lia.
Qed.

Lemma month_day_table leap :
  forallb (fun k => month_day_ok leap (Z.of_nat k)) (seq 0 365) = true.
Proof. destruct leap; vm_compute; reflexivity. Qed.

Lemma month_day_spec leap n :
  0 <= n < 365 →
  let '(m, d) := month_day leap n in
  1 <= m <= 12 ∧ 1 <= d <= days_in_month_flag leap m
  ∧ days_before_month_flag leap m + d = n + 1.
Proof.
  intros Hn.
  pose proof (month_day_table leap) as H.
  rewrite forallb_forall in H.
  specialize (H (Z.to_nat n)).
  rewrite Z2Nat.id in H by lia.
  assert (Hin : In (Z.to_nat n) (seq 0 365)) by (apply in_seq; lia).
  apply H in Hin. unfold month_day_ok in Hin.
  destruct (month_day leap n) as [m d].
  repeat (apply andb_prop in Hin; destruct Hin as [Hin ?]).
  lia.
Qed.

Lemma ord2ymd_unfold n :
  _ord2ymd n =
  let n0 := n - 1 in
  let q := n0 / 146097 in
  let r400 := n0 mod 146097 in
  let n100 := r400 / 36524 in
  let r100 := r400 mod 36524 in
  let n4 := r100 / 1461 in
  let r4 := r100 mod 1461 in
  let n1 := r4 / 365 in
  let r1 := r4 mod 365 in
  let year := q * 400 + 1 + (n100 * 100 + n4 * 4 + n1) in
  if (n1 =? 4) || (n100 =? 4) then (year - 1, 12, 31)
  else
    let '(m, d) := month_day ((n1 =? 3) && (negb (n4 =? 24) || (n100 =? 3))) r1 in
    (year, m, d).
Proof.
  unfold _ord2ymd, month_day, days_before_month_flag.
  change _DI400Y with 146097. change _DI100Y with 36524. change _DI4Y with 1461.
  cbv zeta.
  destruct ((_ =? 4) || (_ =? 4)); [reflexivity|].
  destruct (_ <? _); reflexivity.
Qed.

Lemma days_in_month_flag_eq y m :
  _days_in_month y m = days_in_month_flag (_is_leap y) m.
Proof. reflexivity. Qed.

Lemma days_before_month_flag_eq y m :
  _days_before_month y m = days_before_month_flag (_is_leap y) m.
Proof. reflexivity. Qed.

Lemma ord2ymd_correct n :
  let '(y, m, d) := _ord2ymd n in
  1 <= m <= 12 ∧ 1 <= d <= _days_in_month y m ∧ _ymd2ord y m d = n.
Proof.
  rewrite ord2ymd_unfold. cbv zeta.
  set (n0 := n - 1).
  assert (H400 : 0 <= n0 mod 146097 < 146097) by (apply Z.mod_pos_bound; lia).
  pose proof (Z.div_mod n0 146097 ltac:(lia)) as E400.
  set (q := n0 / 146097) in *. set (r400 := n0 mod 146097) in *.
  assert (H100 : 0 <= r400 mod 36524 < 36524) by (apply Z.mod_pos_bound; lia).
  pose proof (Z.div_mod r400 36524 ltac:(lia)) as E100.
  set (n100 := r400 / 36524) in *. set (r100 := r400 mod 36524) in *.
  assert (H4 : 0 <= r100 mod 1461 < 1461) by (apply Z.mod_pos_bound; lia).
  pose proof (Z.div_mod r100 1461 ltac:(lia)) as E4.
  set (n4 := r100 / 1461) in *. set (r4 := r100 mod 1461) in *.
  assert (H1 : 0 <= r4 mod 365 < 365) by (apply Z.mod_pos_bound; lia).
  pose proof (Z.div_mod r4 365 ltac:(lia)) as E1.
  set (n1 := r4 / 365) in *. set (r1 := r4 mod 365) in *.
  assert (B100 : 0 <= n100 <= 4) by lia.
  assert (B4 : 0 <= n4 <= 24) by lia.
  assert (B1 : 0 <= n1 <= 4) by lia.
  destruct (Z.eqb_spec n1 4) as [En1|Nn1]; cbn [orb].
  - (* the last day of a four-year cycle *)
    assert (n100 <= 3) by lia.
    replace (q * 400 + 1 + (n100 * 100 + n4 * 4 + n1) - 1)
      with (q * 400 + 1 + (n100 * 100 + n4 * 4 + 3)) by lia.
    rewrite days_in_month_flag_eq. unfold _ymd2ord.
    rewrite days_before_month_flag_eq, is_leap_decomp, days_before_year_decomp by lia.
    assert (Hl : (3 =? 3) && (negb (n4 =? 24) || (n100 =? 3)) = true).
    { destruct (Z.eqb_spec n4 24); destruct (Z.eqb_spec n100 3); cbn; try reflexivity. lia. }
    rewrite Hl.
    change (days_in_month_flag true 12) with 31.
    change (days_before_month_flag true 12) with 335. lia.
  - destruct (Z.eqb_spec n100 4) as [En100|Nn100].
    + (* the last day of a 400-year cycle *)
      replace (q * 400 + 1 + (n100 * 100 + n4 * 4 + n1) - 1)
        with (q * 400 + 1 + (3 * 100 + 24 * 4 + 3)) by lia.
      rewrite days_in_month_flag_eq. unfold _ymd2ord.
      rewrite days_before_month_flag_eq, is_leap_decomp, days_before_year_decomp by lia.
      change (days_in_month_flag _ 12) with 31.
      change (days_before_month_flag _ 12) with 335. lia.
    + pose proof (month_day_spec ((n1 =? 3) && (negb (n4 =? 24) || (n100 =? 3))) r1 H1) as Hm.
      destruct (month_day _ r1) as [m d].
      rewrite days_in_month_flag_eq. unfold _ymd2ord.
      rewrite days_before_month_flag_eq, is_leap_decomp, days_before_year_decomp by lia.
      lia.
Qed.

Lemma days_before_year_succ y :
  _days_before_year (y + 1) = _days_before_year y + (if _is_leap y then 366 else 365).
Proof.
  unfold _days_before_year, _is_leap. cbv zeta.
  repeat match goal with |- context [?a =? ?b] => destruct (Z.eqb_spec a b) end;
  cbn [andb orb negb]; Z.div_mod_to_equations; lia.
Qed.

Lemma days_before_year_mono y1 y2 :
  y1 <= y2 → _days_before_year y1 <= _days_before_year y2.
Proof.
  intros H. unfold _days_before_year. cbv zeta. Z.div_mod_to_equations. lia.
Qed.

Lemma month_table leap :
  forallb (fun k => month_ok leap (Z.of_nat k)) (seq 1 12) = true.
Proof. destruct leap; vm_compute; reflexivity. Qed.

Lemma month_spec leap m :
  1 <= m <= 12 →
  0 <= days_before_month_flag leap m
  ∧ 28 <= days_in_month_flag leap m <= 31
  ∧ days_before_month_flag leap m + days_in_month_flag leap m
    <= (if leap then 366 else 365)
  ∧ (m < 12 → days_before_month_flag leap m + days_in_month_flag leap m
              = days_before_month_flag leap (m + 1)).
Proof.
  intros Hm.
  pose proof (month_table leap) as H. rewrite forallb_forall in H.
  specialize (H (Z.to_nat m)). rewrite Z2Nat.id in H by lia.
  assert (Hin : In (Z.to_nat m) (seq 1 12)) by (apply in_seq; lia).
  apply H in Hin. unfold month_ok in Hin.
  repeat (apply andb_prop in Hin; destruct Hin as [Hin ?]).
  match goal with H : _ || _ = true |- _ => apply orb_prop in H end. lia.
Qed.

Lemma days_before_month_mono leap m1 m2 :
  1 <= m1 → m1 < m2 → m2 <= 12 →
  days_before_month_flag leap m1 + days_in_month_flag leap m1
  <= days_before_month_flag leap m2.
Proof.
  intros H1 H12 H2.
  replace m2 with (m1 + 1 + Z.of_nat (Z.to_nat (m2 - m1 - 1))) by lia.
  assert (Hk : m1 + 1 + Z.of_nat (Z.to_nat (m2 - m1 - 1)) <= 12) by lia.
  revert Hk. generalize (Z.to_nat (m2 - m1 - 1)) as k.
  induction k as [|k IH]; intros Hk.
  - rewrite Z.add_0_r. pose proof (month_spec leap m1). lia.
  - rewrite Nat2Z.inj_succ in *.
    pose proof (month_spec leap (m1 + 1 + Z.of_nat k)) as Hs.
    replace (m1 + 1 + Z.succ (Z.of_nat k)) with (m1 + 1 + Z.of_nat k + 1) by lia.
    lia.
Qed.

(** Dates in calendar order have ordinals in the same order. *)
Lemma ymd2ord_lex y1 m1 d1 y2 m2 d2 :
  1 <= m1 <= 12 → 1 <= d1 <= _days_in_month y1 m1 →
  1 <= m2 <= 12 → 1 <= d2 <= _days_in_month y2 m2 →
  _ymd2ord y1 m1 d1 <= _ymd2ord y2 m2 d2 →
  y1 < y2 ∨ (y1 = y2 ∧ (m1 < m2 ∨ (m1 = m2 ∧ d1 <= d2))).
Proof.
  intros Hm1 Hd1 Hm2 Hd2. unfold _ymd2ord.
  rewrite !days_before_month_flag_eq. rewrite days_in_month_flag_eq in Hd1, Hd2.
  intros Hle.
  pose proof (month_spec (_is_leap y1) m1 Hm1) as S1.
  pose proof (month_spec (_is_leap y2) m2 Hm2) as S2.
  destruct (Z.lt_trichotomy y1 y2) as [Hy|[Hy|Hy]]; [left; exact Hy| |].
  - subst y2. right. split; [reflexivity|].
    destruct (Z.lt_trichotomy m1 m2) as [Hm|[Hm|Hm]]; [left; exact Hm| |].
    + subst m2. right. split; [reflexivity | lia].
    + exfalso.
      pose proof (days_before_month_mono (_is_leap y1) m2 m1 ltac:(lia) Hm ltac:(lia)).
      lia.
  - exfalso.
    pose proof (days_before_year_mono (y2 + 1) y1 ltac:(lia)) as Hmono.
    rewrite days_before_year_succ in Hmono. lia.
Qed.

(** Within the ordinals of [datetime], years have four digits. *)
Lemma ymd2ord_year_range y m d :
  1 <= m <= 12 → 1 <= d <= _days_in_month y m →
  1 <= _ymd2ord y m d <= _MAXORDINAL → 1 <= y <= 9999.
Proof.
  intros Hm Hd. unfold _ymd2ord.
  rewrite days_before_month_flag_eq. rewrite days_in_month_flag_eq in Hd.
  pose proof (month_spec (_is_leap y) m Hm) as S1.
  intros [Hlo Hhi]. split.
  - destruct (Z.le_gt_cases 1 y) as [|Hy]; [assumption|exfalso].
    pose proof (days_before_year_mono (y + 1) 1 ltac:(lia)) as Hmono.
    rewrite days_before_year_succ in Hmono.
    change (_days_before_year 1) with 0 in Hmono.
    destruct (_is_leap y); lia.
  - destruct (Z.le_gt_cases y 9999) as [|Hy]; [assumption|exfalso].
    pose proof (days_before_year_mono 10000 y ltac:(lia)) as Hmono.
    change (_days_before_year 10000) with 3652059 in Hmono.
    unfold _MAXORDINAL in Hhi. lia.
Qed.

(** *** [timedelta] and [datetime] arithmetic *)

(** With every argument brought to microseconds, [timedelta_new] is
    Euclidean division. *)
Lemma timedelta_new_normal d s us ms mi h :
  timedelta_new d s us ms mi h =
  let T := (s + (mi * 60 + h * 3600)) * 1000000 + (us + ms * 1000) in
  let D := d + T / 86400000000 in
  if 999999999 <? Z.abs D then Raise OverflowError
  else Return (mk_timedelta D ((T / 1000000) mod 86400) (T mod 1000000)).
Proof.
  unfold timedelta_new. cbv zeta.
  set (S0 := s + (mi * 60 + h * 3600)). set (U0 := us + ms * 1000).
  assert (HD : d + S0 / 86400 + U0 / 1000000 / 86400
               + (S0 mod 86400 + (U0 / 1000000) mod 86400
                  + (U0 mod 1000000) / 1000000) / 86400
               = d + (S0 * 1000000 + U0) / 86400000000).
  { Z.div_mod_to_equations. lia. }
  assert (HS : (S0 mod 86400 + (U0 / 1000000) mod 86400
                + (U0 mod 1000000) / 1000000) mod 86400
               = ((S0 * 1000000 + U0) / 1000000) mod 86400).
  { Z.div_mod_to_equations. lia. }
  assert (HU : (U0 mod 1000000) mod 1000000 = (S0 * 1000000 + U0) mod 1000000).
  { Z.div_mod_to_equations. lia. }
  rewrite HD, HS, HU. reflexivity.
Qed.

Lemma add_midnight y m d dd ds dus :
  1 <= _ymd2ord y m d <= _MAXORDINAL →
  0 <= ds < 86400 → 0 <= dus < 1000000 →
  add (datetime_new y m d) (mk_timedelta dd ds dus) =
  if (1 <=? _ymd2ord y m d + dd) && (_ymd2ord y m d + dd <=? _MAXORDINAL) then
    let '(y', m', d') := _ord2ymd (_ymd2ord y m d + dd) in
    Return (mk_datetime y' m' d' (ds / 3600) ((ds mod 3600) / 60)
              ((ds mod 3600) mod 60) dus)
  else Raise OverflowError.
Proof.
  intros Hord Hs Hus. unfold _MAXORDINAL in *.
  unfold add, toordinal, datetime_new. cbn [year month day hour minute second microsecond].
  set (ord := _ymd2ord y m d) in *.
  rewrite timedelta_new_normal. cbv zeta.
  replace ((0 + (0 * 60 + 0 * 3600)) * 1000000 + (0 + 0 * 1000)) with 0 by lia.
  change (0 / 86400000000) with 0. change (0 / 1000000) with 0.
  change (0 mod 86400) with 0. change (0 mod 1000000) with 0.
  rewrite Z.add_0_r.
  destruct (Z.ltb_spec 999999999 (Z.abs ord)); [lia|].
  rewrite bind_Return. unfold timedelta_add.
  cbn [days seconds microseconds].
  rewrite timedelta_new_normal. cbv zeta.
  replace ((0 + ds + (0 * 60 + 0 * 3600)) * 1000000 + (0 + dus + 0 * 1000))
    with (ds * 1000000 + dus) by lia.
  assert (E1 : (ds * 1000000 + dus) / 86400000000 = 0).
  { apply Z.div_small. lia. }
  assert (E2 : (ds * 1000000 + dus) / 1000000 = ds).
  { symmetry. apply Z.div_unique with dus; lia. }
  assert (E3 : (ds * 1000000 + dus) mod 1000000 = dus).
  { symmetry. apply Z.mod_unique with ds; lia. }
  rewrite E1, E2, E3, Z.add_0_r, (Z.mod_small ds) by lia.
  destruct (Z.ltb_spec 999999999 (Z.abs (ord + dd))) as [Hbig|Hsmall].
  - rewrite bind_Raise.
    destruct (Z.leb_spec 1 (ord + dd)); cbn [andb]; [|reflexivity].
    destruct (Z.leb_spec (ord + dd) 3652059); [lia | reflexivity].
  - rewrite bind_Return. cbn [days seconds microseconds].
    destruct (Z.ltb_spec 0 (ord + dd)); destruct (Z.leb_spec 1 (ord + dd));
      try lia; cbn [andb]; reflexivity.
Qed.

(** The epoch plus a number [T] of microseconds. *)
Lemma epoch_plus y m d us ms :
  1 <= _ymd2ord y m d <= _MAXORDINAL →
  (timedelta_new 0 0 us ms 0 0 ≫= add (datetime_new y m d))
  = shifted (_ymd2ord y m d) (us + ms * 1000).
Proof.
  intros Hord. rewrite timedelta_new_normal. cbv zeta.
  replace ((0 + (0 * 60 + 0 * 3600)) * 1000000 + (us + ms * 1000))
    with (us + ms * 1000) by lia.
  set (T := us + ms * 1000). rewrite Z.add_0_l. unfold shifted. cbv zeta.
  unfold _MAXORDINAL in *.
  destruct (Z.ltb_spec 999999999 (Z.abs (T / 86400000000))) as [Hbig|Hsmall].
  - rewrite bind_Raise.
    destruct (Z.leb_spec 1 (_ymd2ord y m d + T / 86400000000)); cbn [andb];
      [|reflexivity].
    destruct (Z.leb_spec (_ymd2ord y m d + T / 86400000000) 3652059);
      [lia | reflexivity].
  - rewrite bind_Return, add_midnight.
    + reflexivity.
    + exact Hord.
    + apply Z.mod_pos_bound; lia.
    + apply Z.mod_pos_bound; lia.
Qed.

Lemma strftime_render dt : strftime dt "%Y-%m-%d %H:%M:%S" = render dt.
Proof. reflexivity. Qed.

Lemma length_render dt : length (render dt) = 19%nat.
Proof. reflexivity. Qed.

(** What [shifted] returns is a valid date and time, [T] microseconds
    (rounded down to a second) after the start of day [ord]. *)
Lemma shifted_spec ord T dt :
  shifted ord T = Return dt →
  valid_datetime dt ∧ civil_seconds dt = ord * 86400 + T / 1000000.
Proof.
  unfold shifted. cbv zeta.
  set (D := ord + T / 86400000000). set (S := (T / 1000000) mod 86400).
  destruct (Z.leb_spec 1 D); cbn [andb]; [|discriminate].
  destruct (Z.leb_spec D _MAXORDINAL); [|discriminate].
  pose proof (ord2ymd_correct D) as Hc.
  destruct (_ord2ymd D) as [[y m] d]. destruct Hc as (Hm & Hd & Ho).
  intros [= <-].
  assert (HS : 0 <= S < 86400) by (apply Z.mod_pos_bound; lia).
  assert (Hy : 1 <= y <= 9999).
  { apply (ymd2ord_year_range y m d Hm Hd). lia. }
  unfold valid_datetime, civil_seconds, toordinal.
  cbn [year month day hour minute second].
  rewrite Ho. subst D S.
  repeat split; try lia; try (Z.div_mod_to_equations; lia).
Qed.

(** *** The two converters, case by case *)

Lemma windows_epoch_ordinal : toordinal windows_epoch = 584389.
Proof. reflexivity. Qed.

Lemma unix_epoch_ordinal : toordinal unix_epoch = 719163.
Proof. reflexivity. Qed.

Lemma convert_filetime_zero : convert_filetime 0 = Return (lit "Never").
Proof. reflexivity. Qed.

Lemma convert_filetime_out_of_range ticks :
  ticks < 0 ∨ 2 ^ 64 <= ticks →
  convert_filetime ticks = Return (lit "Invalid timestamp").
Proof.
  intros H. unfold convert_filetime.
  destruct (Z.eqb_spec ticks 0); [lia|].
  rewrite pack_Q_out_of_range by exact H. reflexivity.
Qed.

Lemma convert_filetime_in_range ticks :
  0 < ticks < 2 ^ 64 →
  convert_filetime ticks =
  if ticks / 10 =? 0 then Return (lit "Never")
  else stamp "Invalid timestamp" (shifted (toordinal windows_epoch) (ticks / 10)).
Proof.
  intros H. unfold convert_filetime.
  destruct (Z.eqb_spec ticks 0); [lia|].
  rewrite pack_Q_in_range, bind_Return by lia.
  unfold struct.unpack. rewrite calcsize_Q, bind_Return.
  rewrite length_le_encode, Nat.eqb_refl, bind_Return.
  rewrite le_decode_encode by (change (256 ^ Z.of_nat 8) with (2 ^ 64); lia).
  destruct (ticks / 10 =? 0); [reflexivity|].
  pose proof (epoch_plus 1601 1 1 (ticks / 10) 0) as E.
  replace (ticks / 10 + 0 * 1000) with (ticks / 10) in E by lia.
  change (_ymd2ord 1601 1 1) with (toordinal windows_epoch) in E.
  specialize (E ltac:(rewrite windows_epoch_ordinal; unfold _MAXORDINAL; lia)).
  unfold mbind, result_bind in E |- *.
  destruct (timedelta_new 0 0 (ticks / 10) 0 0 0) as [delta|e0].
  - rewrite E. destruct (shifted _ _); reflexivity.
  - rewrite <- E. reflexivity.
Qed.

Lemma convert_focus_time_zero : convert_focus_time_to_utc 0 = Return (lit "Never").
Proof. reflexivity. Qed.

Lemma convert_focus_time_nonzero ms :
  ms ≠ 0 →
  convert_focus_time_to_utc ms =
  stamp "Invalid focus time" (shifted (toordinal unix_epoch) (ms * 1000)).
Proof.
  intros H. unfold convert_focus_time_to_utc.
  destruct (Z.eqb_spec ms 0); [lia|].
  pose proof (epoch_plus 1970 1 1 0 ms) as E.
  rewrite Z.add_0_l in E.
  change (_ymd2ord 1970 1 1) with (toordinal unix_epoch) in E.
  specialize (E ltac:(rewrite unix_epoch_ordinal; unfold _MAXORDINAL; lia)).
  unfold mbind, result_bind in E |- *.
  destruct (timedelta_new 0 0 0 ms 0 0) as [delta|e0].
  - rewrite E. destruct (shifted _ _); reflexivity.
  - rewrite <- E. reflexivity.
Qed.

(** Neither converter raises. *)
Lemma convert_filetime_total ticks : ∃ s, convert_filetime ticks = Return s.
Proof.
  unfold convert_filetime. destruct (ticks =? 0); [eauto|].
  unfold try_except. destruct (_ ≫= _); cbn; eauto.
Qed.

Lemma convert_focus_time_total ms : ∃ s, convert_focus_time_to_utc ms = Return s.
Proof.
  unfold convert_focus_time_to_utc, try_except.
  destruct (if ms =? 0 then _ else _); cbn; eauto.
Qed.

Lemma shifted_in_range ord T :
  1 <= ord + T / 86400000000 <= _MAXORDINAL → ∃ dt, shifted ord T = Return dt.
Proof.
  intros H. unfold shifted. cbv zeta.
  destruct (Z.leb_spec 1 (ord + T / 86400000000)); [|lia].
  destruct (Z.leb_spec (ord + T / 86400000000) _MAXORDINAL); [|lia].
  cbn [andb]. destruct (_ord2ymd _) as [[y m] d]. eauto.
Qed.

Lemma shifted_out_of_range ord T :
  ord + T / 86400000000 < 1 ∨ _MAXORDINAL < ord + T / 86400000000 →
  shifted ord T = Raise OverflowError.
Proof.
  intros H. unfold shifted. cbv zeta.
  destruct (Z.leb_spec 1 (ord + T / 86400000000)); cbn [andb]; [|reflexivity].
  destruct (Z.leb_spec (ord + T / 86400000000) _MAXORDINAL); [lia|reflexivity].
Qed.

(** The result of a successful conversion. *)
Lemma stamp_shifted marker ord T :
  1 <= ord + T / 86400000000 <= _MAXORDINAL →
  ∃ dt, valid_datetime dt
        ∧ civil_seconds dt = ord * 86400 + T / 1000000
        ∧ stamp marker (shifted ord T) = Return (render dt).
Proof.
  intros H. destruct (shifted_in_range ord T H) as [dt Hdt].
  exists dt. destruct (shifted_spec ord T dt Hdt) as [Hv Hs].
  rewrite Hdt. auto.
Qed.

Lemma convert_filetime_representable ticks :
  0 <= ticks < 2 ^ 64 → ticks / 10 ≠ 0 →
  representable windows_epoch (ticks / 10 / 86400000000) →
  ∃ dt, valid_datetime dt
        ∧ civil_seconds dt = civil_seconds windows_epoch + ticks / 10 / 1000000
        ∧ convert_filetime ticks = Return (render dt).
Proof.
  intros Hr Hnz Hrep.
  assert (0 < ticks).
  { destruct (Z.eq_dec ticks 0) as [->|]; [exfalso; apply Hnz; reflexivity | lia]. }
  rewrite convert_filetime_in_range by lia.
  destruct (Z.eqb_spec (ticks / 10) 0); [contradiction|].
  change (civil_seconds windows_epoch) with (toordinal windows_epoch * 86400).
  apply stamp_shifted. exact Hrep.
Qed.

Lemma convert_focus_time_representable ms :
  ms ≠ 0 → representable unix_epoch (ms / 86400000) →
  ∃ dt, valid_datetime dt
        ∧ civil_seconds dt = civil_seconds unix_epoch + ms / 1000
        ∧ convert_focus_time_to_utc ms = Return (render dt).
Proof.
  intros Hnz Hrep. rewrite convert_focus_time_nonzero by exact Hnz.
  change (civil_seconds unix_epoch) with (toordinal unix_epoch * 86400).
  replace (ms / 1000) with (ms * 1000 / 1000000)
    by (Z.div_mod_to_equations; lia).
  apply stamp_shifted.
  replace (ms * 1000 / 86400000000) with (ms / 86400000)
    by (Z.div_mod_to_equations; lia).
  exact Hrep.
Qed.

(** *** Order of rendered timestamps *)

Lemma str_le_refl a : str_le a a = true.
Proof.
  induction a as [|x a IH]; [reflexivity|].
  cbn [str_le]. rewrite N.ltb_irrefl. exact IH.
Qed.

Lemma str_le_app_same p a b : str_le (p ++ a) (p ++ b) = str_le a b.
Proof.
  induction p as [|x p IH]; [reflexivity|].
  cbn [app str_le]. rewrite N.ltb_irrefl. exact IH.
Qed.

Lemma str_le_app_lt p q a b : str_lt p q = true → str_le (p ++ a) (q ++ b) = true.
Proof.
  revert q. induction p as [|x p IH]; intros [|y q] H; try discriminate.
  cbn [app str_le]. cbn [str_lt] in H.
  destruct (x <? y)%N; [reflexivity|].
  destruct (y <? x)%N; [discriminate|]. apply IH, H.
Qed.

Lemma digit_lt a b :
  0 <= a → a < b → b <= 9 → (digit a <? digit b)%N = true.
Proof.
  intros. unfold digit. apply N.ltb_lt.
  rewrite !Z.mod_small by lia. lia.
Qed.

Lemma dec2_lt a b : 0 <= a → a < b → b <= 99 → str_lt (dec2 a) (dec2 b) = true.
Proof.
  intros Ha Hab Hb. unfold dec2. cbn [str_lt].
  assert (Hq : a / 10 < b / 10 ∨ (a / 10 = b / 10 ∧ a mod 10 < b mod 10))
    by (Z.div_mod_to_equations; lia).
  destruct Hq as [Hq|[Hq Hr]].
  - rewrite digit_lt; [reflexivity| | |]; Z.div_mod_to_equations; lia.
  - rewrite Hq, N.ltb_irrefl.
    unfold digit. destruct (N.ltb_spec (Z.to_N (48 + a mod 10)) (Z.to_N (48 + b mod 10)));
      [reflexivity|]. Z.div_mod_to_equations; lia.
Qed.

Lemma dec4_split n : dec4 n = dec2 (n / 100) ++ dec2 (n mod 100).
Proof.
  assert (E1 : digit (n / 1000) = digit (n / 100 / 10)).
  { unfold digit. do 2 f_equal. Z.div_mod_to_equations; lia. }
  assert (E2 : digit (n / 10) = digit (n mod 100 / 10)).
  { unfold digit. do 2 f_equal. Z.div_mod_to_equations; lia. }
  assert (E3 : digit n = digit (n mod 100)).
  { unfold digit. do 2 f_equal. Z.div_mod_to_equations; lia. }
  unfold dec4, dec2. cbn [app]. rewrite E1, E2, E3. reflexivity.
Qed.

Lemma str_lt_app_lt p q a b : str_lt p q = true → str_lt (p ++ a) (q ++ b) = true.
Proof.
  revert q. induction p as [|x p IH]; intros [|y q] H; try discriminate.
  cbn [app str_lt]. cbn [str_lt] in H.
  destruct (x <? y)%N; [reflexivity|].
  destruct (y <? x)%N; [discriminate|]. apply IH, H.
Qed.

Lemma str_lt_app_same p a b : str_lt (p ++ a) (p ++ b) = str_lt a b.
Proof.
  induction p as [|x p IH]; [reflexivity|].
  cbn [app str_lt]. rewrite N.ltb_irrefl. exact IH.
Qed.

Lemma dec4_lt a b : 0 <= a → a < b → b <= 9999 → str_lt (dec4 a) (dec4 b) = true.
Proof.
  intros Ha Hab Hb. rewrite !dec4_split.
  assert (Hq : a / 100 < b / 100 ∨ (a / 100 = b / 100 ∧ a mod 100 < b mod 100))
    by (Z.div_mod_to_equations; lia).
  destruct Hq as [Hq|[Hq Hr]].
  - apply str_lt_app_lt, dec2_lt; Z.div_mod_to_equations; lia.
  - rewrite Hq, str_lt_app_same. apply dec2_lt; Z.div_mod_to_equations; lia.
Qed.

(** On valid dates and times, the order of the rendered strings is the
    order of the fields. *)
Lemma render_le a b :
  valid_datetime a → valid_datetime b → not_later a b →
  str_le (render a) (render b) = true.
Proof.
  intros (Hy1 & Hm1 & Hd1 & Hh1 & Hi1 & Hs1) (Hy2 & Hm2 & Hd2 & Hh2 & Hi2 & Hs2).
  pose proof (month_spec (_is_leap (year a)) (month a) Hm1) as Sa.
  pose proof (month_spec (_is_leap (year b)) (month b) Hm2) as Sb.
  rewrite days_in_month_flag_eq in Hd1, Hd2.
  unfold not_later, render.
  intros [H|[-> H]]; [apply str_le_app_lt, dec4_lt; lia|].
  rewrite str_le_app_same, str_le_app_same.
  destruct H as [H|[-> H]]; [apply str_le_app_lt, dec2_lt; lia|].
  rewrite str_le_app_same, str_le_app_same.
  destruct H as [H|[-> H]]; [apply str_le_app_lt, dec2_lt; lia|].
  rewrite str_le_app_same, str_le_app_same.
  destruct H as [H|[-> H]]; [apply str_le_app_lt, dec2_lt; lia|].
  rewrite str_le_app_same, str_le_app_same.
  destruct H as [H|[-> H]]; [apply str_le_app_lt, dec2_lt; lia|].
  rewrite str_le_app_same, str_le_app_same.
  destruct (Z.eq_dec (second a) (second b)) as [->|Hne]; [apply str_le_refl|].
  rewrite <- (app_nil_r (dec2 (second a))), <- (app_nil_r (dec2 (second b))).
  apply str_le_app_lt, dec2_lt; lia.
Qed.

(** Earlier in seconds is earlier field by field. *)
Lemma civil_seconds_not_later a b :
  valid_datetime a → valid_datetime b →
  civil_seconds a <= civil_seconds b → not_later a b.
Proof.
  intros (Hy1 & Hm1 & Hd1 & Hh1 & Hi1 & Hs1) (Hy2 & Hm2 & Hd2 & Hh2 & Hi2 & Hs2).
  unfold civil_seconds, toordinal, not_later. intros Hle.
  pose proof (ymd2ord_lex (year a) (month a) (day a) (year b) (month b) (day b)
                Hm1 Hd1 Hm2 Hd2) as Hlex.
  assert (Ho : _ymd2ord (year a) (month a) (day a)
               <= _ymd2ord (year b) (month b) (day b)) by lia.
  destruct (Hlex Ho) as [H|[Ey [H|[Em Hd]]]]; [lia| lia |].
  right. split; [exact Ey|]. right. split; [exact Em|].
  destruct (Z.eq_dec (day a) (day b)) as [Ed|Nd]; [|lia].
  right. split; [exact Ed|].
  rewrite Ey, Em, Ed in Hle. lia.
Qed.

(** *** The [rot_13] table *)

Lemma rot13_map_keys c v : codecs.rot13_map !! c = Some v → (c < 256)%N.
Proof.
  intros H. apply elem_of_map_to_list in H.
  assert (Hc : forallb (fun kv => (fst kv <? 256)%N) (map_to_list codecs.rot13_map) = true)
    by (vm_compute; reflexivity).
  rewrite forallb_forall in Hc.
  apply list_elem_of_In in H. apply Hc in H. apply N.ltb_lt in H. exact H.
Qed.

Lemma rot13_table :
  forallb (fun k => rot13_entry_ok (N.of_nat k)) (seq 0 256) = true.
Proof. vm_compute. reflexivity. Qed.

Lemma rot13_char_outside c : (256 <= c)%N → rot13_char c = c.
Proof.
  intros H. unfold rot13_char.
  destruct (N.leb_spec c 90); [lia|]. rewrite andb_false_r.
  destruct (N.leb_spec c 122); [lia|]. rewrite andb_false_r. reflexivity.
Qed.

Lemma rot13_entry c : rot13_entry_ok c = true.
Proof.
  destruct (N.lt_ge_cases c 256) as [Hlt|Hge].
  - pose proof rot13_table as H. rewrite forallb_forall in H.
    specialize (H (N.to_nat c)). rewrite N2Nat.id in H.
    apply H, in_seq. lia.
  - unfold rot13_entry_ok. rewrite !rot13_char_outside by exact Hge.
    destruct (codecs.rot13_map !! c) as [v|] eqn:E.
    + apply rot13_map_keys in E. lia.
    + cbn [default]. rewrite N.eqb_refl, !Bool.eqb_reflx. reflexivity.
Qed.

Lemma rot13_lookup c : default c (codecs.rot13_map !! c) = rot13_char c.
Proof.
  pose proof (rot13_entry c) as H. unfold rot13_entry_ok in H.
  repeat (apply andb_prop in H; destruct H as [H ?]).
  apply N.eqb_eq, H.
Qed.

Lemma rot13_char_involutive c : rot13_char (rot13_char c) = c.
Proof.
  pose proof (rot13_entry c) as H. unfold rot13_entry_ok in H.
  repeat (apply andb_prop in H; destruct H as [H ?]).
  apply N.eqb_eq. assumption.
Qed.

Lemma rot13_char_case c :
  is_upper (rot13_char c) = is_upper c ∧ is_lower (rot13_char c) = is_lower c.
Proof.
  pose proof (rot13_entry c) as H. unfold rot13_entry_ok in H.
  repeat (apply andb_prop in H; destruct H as [H ?]).
  split; apply Bool.eqb_prop; assumption.
Qed.

Lemma rot13_decode_map s : rot13_decode s = List.map rot13_char s.
Proof.
  unfold rot13_decode, codecs.decode_rot_13, codecs.translate.
  apply List.map_ext. exact rot13_lookup.
Qed.

(** *** The entry decoder *)

Lemma struct_unpack_bytes fmt (b : bytes) :
  struct_unpack fmt b = struct.unpack fmt b.
Proof. reflexivity. Qed.

Lemma parse_short data format :
  (length data < minimum_length format)%nat →
  parse_userassist_entry data format = Return None.
Proof.
  intros H. unfold parse_userassist_entry, parse_userassist_entry_with.
  destruct format; cbn [minimum_length] in H; cbn [py_len];
    rewrite bind_Return.
  - destruct (Nat.leb_spec 72 (length data)); [lia | reflexivity].
  - destruct (Nat.leb_spec 16 (length data)); [lia | reflexivity].
Qed.

Lemma parse_modern data :
  (72 <= length data)%nat →
  ∃ focus last,
    convert_focus_time_to_utc (le_field data 12 4) = Return focus
    ∧ convert_filetime (le_field data 60 8) = Return last
    ∧ parse_userassist_entry data Modern =
      Return (Some (<["count" := PyInt (le_field data 4 4)]>
                   (<["focus_time" := PyStr focus]>
                   (<["last_execution" := PyStr last]> ∅)))).
Proof.
  intros H.
  destruct (convert_focus_time_total (le_field data 12 4)) as [focus Hf].
  destruct (convert_filetime_total (le_field data 60 8)) as [last Hl].
  exists focus, last. split; [exact Hf|]. split; [exact Hl|].
  unfold parse_userassist_entry, parse_userassist_entry_with, Modern.
  cbn [py_len py_getslice]. rewrite bind_Return.
  destruct (Nat.leb_spec 72 (length data)); [|lia].
  rewrite bind_Return, struct_unpack_bytes.
  rewrite (unpack_I_slice data 4 8), bind_Return by lia.
  rewrite bind_Return, struct_unpack_bytes.
  rewrite (unpack_I_slice data 12 16), bind_Return by lia.
  rewrite bind_Return, struct_unpack_bytes.
  rewrite (unpack_Q_slice data 60 68), bind_Return by lia.
  rewrite Hf, bind_Return, Hl, bind_Return. reflexivity.
Qed.

Lemma parse_legacy data :
  (16 <= length data)%nat →
  ∃ last,
    convert_filetime (le_field data 8 8) = Return last
    ∧ parse_userassist_entry data Legacy =
      Return (Some (<["count" := PyInt (le_field data 4 4)]>
                   (<["last_execution" := PyStr last]> ∅))).
Proof.
  intros H.
  destruct (convert_filetime_total (le_field data 8 8)) as [last Hl].
  exists last. split; [exact Hl|].
  unfold parse_userassist_entry, parse_userassist_entry_with, Legacy.
  cbn [py_len py_getslice]. rewrite bind_Return.
  destruct (Nat.leb_spec 16 (length data)); [|lia].
  rewrite bind_Return, struct_unpack_bytes.
  rewrite (unpack_I_slice data 4 8), bind_Return by lia.
  rewrite bind_Return, struct_unpack_bytes.
  rewrite (unpack_Q_slice data 8 16), bind_Return by lia.
  rewrite Hl, bind_Return. reflexivity.
Qed.

(** On a byte string the decoder returns: [None] below the minimum
    length, a dict from it on. *)
Lemma parse_bytes_returns (data : bytes) format :
  ∃ r, parse_userassist_entry data format = Return r.
Proof.
  destruct (Nat.lt_ge_cases (length data) (minimum_length format)) as [Hs|Hl].
  - rewrite parse_short by exact Hs. eauto.
  - destruct format; cbn [minimum_length] in Hl.
    + destruct (parse_modern data Hl) as (focus & last & _ & _ & Hp).
      unfold Modern in Hp. rewrite Hp. eauto.
    + destruct (parse_legacy data Hl) as (last & _ & Hp).
      unfold Legacy in Hp. rewrite Hp. eauto.
Qed.

(** With any primitive, from the minimum length on: the first call that
    raises decides, and when none does the result is a dict. *)
Lemma parse_with_first_raise unpack (data : bytes) format :
  (minimum_length format <= length data)%nat →
  match first_raise unpack data (field_slices format) with
  | Some e =>
      parse_userassist_entry_with unpack data format
      = if is_exn struct_error e then Return None else Raise e
  | None => ∃ d, parse_userassist_entry_with unpack data format = Return (Some d)
  end.
Proof.
  intros Hlen. unfold parse_userassist_entry_with.
  destruct format; cbn [minimum_length] in Hlen;
    cbn [field_slices first_raise py_len py_getslice]; rewrite bind_Return.
  - destruct (Nat.leb_spec 72 (length data)); [|lia].
    rewrite bind_Return.
    destruct (unpack "<I"%string (RegBin (slice data 4 8))) as [c|e];
      [rewrite !bind_Return | reflexivity].
    destruct (unpack "<I"%string (RegBin (slice data 12 16))) as [f|e];
      [rewrite !bind_Return | reflexivity].
    destruct (unpack "<Q"%string (RegBin (slice data 60 68))) as [l|e];
      [rewrite !bind_Return | reflexivity].
    destruct (convert_focus_time_total f) as [focus ->].
    destruct (convert_filetime_total l) as [last ->].
    rewrite !bind_Return. eauto.
  - destruct (Nat.leb_spec 16 (length data)); [|lia].
    rewrite bind_Return.
    destruct (unpack "<I"%string (RegBin (slice data 4 8))) as [c|e];
      [rewrite !bind_Return | reflexivity].
    destruct (unpack "<Q"%string (RegBin (slice data 8 16))) as [l|e];
      [rewrite !bind_Return | reflexivity].
    destruct (convert_filetime_total l) as [last ->].
    rewrite !bind_Return. eauto.
Qed.

(** With any primitive, below the minimum length no call is made. *)
Lemma parse_with_short unpack (data : bytes) format :
  (length data < minimum_length format)%nat →
  parse_userassist_entry_with unpack data format = Return None.
Proof.
  intros H. unfold parse_userassist_entry_with.
  destruct format; cbn [minimum_length] in H; cbn [py_len];
    rewrite bind_Return.
  - destruct (Nat.leb_spec 72 (length data)); [lia | reflexivity].
  - destruct (Nat.leb_spec 16 (length data)); [lia | reflexivity].
Qed.

(** An object that is not a byte string: an [int] and a [datetime] have no
    length; a [str] and a list have one, and are no buffer to unpack. *)
Lemma parse_not_sized (obj : regdata) format :
  py_len obj = Raise TypeError →
  parse_userassist_entry obj format = Raise TypeError.
Proof.
  intros H. unfold parse_userassist_entry, parse_userassist_entry_with.
  destruct format; rewrite H; reflexivity.
Qed.

Lemma parse_str (s : str) format :
  parse_userassist_entry (RegStr s) format
  = if (minimum_length format <=? length s)%nat
    then Raise TypeError else Return None.
Proof.
  unfold parse_userassist_entry, parse_userassist_entry_with.
  destruct format; cbn [minimum_length py_len]; rewrite bind_Return;
    destruct (_ <=? _)%nat; reflexivity.
Qed.

Lemma parse_list (l : list str) format :
  parse_userassist_entry (RegList l) format
  = if (minimum_length format <=? length l)%nat
    then Raise TypeError else Return None.
Proof.
  unfold parse_userassist_entry, parse_userassist_entry_with.
  destruct format; cbn [minimum_length py_len]; rewrite bind_Return;
    destruct (_ <=? _)%nat; reflexivity.
Qed.

(** A dict comes from a byte string of at least the minimum length
    only. *)
Lemma parse_Some_bytes (obj : regdata) format d :
  parse_userassist_entry obj format = Return (Some d) →
  ∃ data : bytes, obj = RegBin data ∧ (minimum_length format <= length data)%nat.
Proof.
  destruct obj as [b|z|s|l|t]; intros H.
  - exists b. split; [reflexivity|].
    destruct (Nat.lt_ge_cases (length b) (minimum_length format)) as [Hs|Hl];
      [|exact Hl].
    rewrite parse_short in H by exact Hs. discriminate.
  - rewrite parse_not_sized in H by reflexivity. discriminate.
  - rewrite parse_str in H. destruct (_ <=? _)%nat; discriminate.
  - rewrite parse_list in H. destruct (_ <=? _)%nat; discriminate.
  - rewrite parse_not_sized in H by reflexivity. discriminate.
Qed.

Lemma struct_unpack_raises fmt b e : struct.unpack fmt b = Raise e → e = struct_error.
Proof.
  unfold struct.unpack, struct.calcsize.
  destruct (String.eqb fmt "<I"); [|destruct (String.eqb fmt "<Q")];
    cbn; try destruct (Nat.eqb _ _); congruence.
Qed.

(** *** The driver *)

Lemma stamp_kind marker ord T s :
  stamp marker (shifted ord T) = Return s → is_timestamp s ∨ s = lit marker.
Proof.
  destruct (shifted ord T) as [dt|e] eqn:E; cbn; intros [= <-].
  - left. exists dt. split; [|reflexivity]. apply (shifted_spec ord T dt E).
  - right. reflexivity.
Qed.

Lemma convert_filetime_kind ticks s :
  convert_filetime ticks = Return s →
  is_timestamp s ∨ s = lit "Never" ∨ s = lit "Invalid timestamp".
Proof.
  destruct (Z.eq_dec ticks 0) as [->|Hnz].
  { intros [= <-]. auto. }
  destruct (Z.lt_ge_cases ticks 0) as [Hneg|Hpos].
  { rewrite convert_filetime_out_of_range by lia. intros [= <-]. auto. }
  destruct (Z.lt_ge_cases ticks (2 ^ 64)) as [Hlt|Hge].
  - rewrite convert_filetime_in_range by lia.
    destruct (ticks / 10 =? 0); [intros [= <-]; auto|].
    intros H. apply stamp_kind in H. tauto.
  - rewrite convert_filetime_out_of_range by lia. intros [= <-]. auto.
Qed.

Lemma convert_focus_time_kind ms s :
  convert_focus_time_to_utc ms = Return s →
  is_timestamp s ∨ s = lit "Never" ∨ s = lit "Invalid focus time".
Proof.
  destruct (Z.eq_dec ms 0) as [->|Hnz].
  { intros [= <-]. auto. }
  rewrite convert_focus_time_nonzero by exact Hnz.
  intros H. apply stamp_kind in H. tauto.
Qed.

Lemma timestamp_field_filetime ticks s :
  convert_filetime ticks = Return s → timestamp_field (Some (PyStr s)).
Proof.
  intros H. exists s. split; [reflexivity|].
  destruct (convert_filetime_kind _ _ H) as [?|[?|?]]; unfold is_invalid_marker; auto.
Qed.

Lemma timestamp_field_focus_time ms s :
  convert_focus_time_to_utc ms = Return s → timestamp_field (Some (PyStr s)).
Proof.
  intros H. exists s. split; [reflexivity|].
  destruct (convert_focus_time_kind _ _ H) as [?|[?|?]]; unfold is_invalid_marker; auto.
Qed.

(** Lookups in a dict literal. *)
Ltac lookup_dict :=
  repeat first
    [ rewrite lookup_insert_eq
    | rewrite lookup_insert_ne by discriminate
    | rewrite lookup_empty ].

Lemma truthy_insert k v (m : gmap string pyval) : truthy (Some (<[k := v]> m)) = true.
Proof.
  unfold truthy. rewrite bool_decide_eq_false_2; [reflexivity|].
  apply insert_non_empty.
Qed.

Lemma text_filetime ticks : convert_filetime ticks = Return (text (convert_filetime ticks)).
Proof. destruct (convert_filetime_total ticks) as [s ->]. reflexivity. Qed.

Lemma text_focus_time ms :
  convert_focus_time_to_utc ms = Return (text (convert_focus_time_to_utc ms)).
Proof. destruct (convert_focus_time_total ms) as [s ->]. reflexivity. Qed.

(** From the object of the value on, lines 157-173. *)
Lemma process_value_from username guid ntuser_path win7_format value data s :
  value_value value = Return data →
  process_value username guid ntuser_path win7_format value s
  = if negb (py_bool data) then (Return tt, s)
    else
      match parse_userassist_entry data win7_format with
      | Raise e => (Raise e, s)
      | Return parsed_data =>
          if truthy parsed_data then
            let d := default ∅ parsed_data in
            match dict_getitem d "last_execution", dict_getitem d "count" with
            | Return last_execution, Return count =>
                (Return tt,
                 s ++ [<["username" := PyStr username]>
                       (<["name" := PyStr (rot13_decode (value_name value))]>
                       (<["last_execution" := last_execution]>
                       (<["guid" := PyStr guid]>
                       (<["count" := count]>
                       (<["focus_time" :=
                            dict_get d "focus_time" (PyStr (lit "N/A"))]>
                       (<["source_file" := PyStr ntuser_path]> ∅))))))])
            | Raise e, _ => (Raise e, s)
            | Return _, Raise e => (Raise e, s)
            end
          else (Return tt, s)
      end.
Proof.
  intros Hv. unfold process_value. cbv zeta.
  unfold then_ at 1, eval at 1. rewrite Hv.
  destruct (negb (py_bool data)); [reflexivity|].
  unfold then_ at 1, eval at 1.
  destruct (parse_userassist_entry data win7_format) as [parsed_data|e];
    [|reflexivity].
  destruct (truthy parsed_data); [|reflexivity].
  unfold then_ at 1, eval at 1.
  destruct (dict_getitem _ "last_execution") as [last|e]; [|reflexivity].
  unfold then_ at 1, eval at 1.
  destruct (dict_getitem _ "count") as [count|e]; reflexivity.
Qed.

(** The record built from a byte string of sufficient length. *)
Lemma process_value_bytes username guid ntuser_path win7_format value
    (data : bytes) s :
  value_value value = Return (RegBin data) →
  (minimum_length win7_format <= length data)%nat →
  process_value username guid ntuser_path win7_format value s
  = (Return tt,
     s ++ [record_of username guid ntuser_path win7_format
             (value_name value) data]).
Proof.
  intros Hv Hl. rewrite (process_value_from _ _ _ _ _ _ _ Hv).
  assert (Hb : py_bool (RegBin data) = true).
  { cbn [py_bool]. destruct (Nat.eqb_spec (length data) 0); [|reflexivity].
    destruct win7_format; cbn [minimum_length] in Hl; lia. }
  rewrite Hb. cbn [negb].
  destruct win7_format; cbn [minimum_length] in Hl.
  - destruct (parse_modern data Hl) as (focus & last & Hf & Hla & Hp).
    unfold Modern in Hp. rewrite Hp, truthy_insert.
    change (default ∅ (Some ?d)) with d. cbv zeta.
    unfold dict_getitem, dict_get. lookup_dict.
    unfold record_of. cbn [default from_option id].
    rewrite text_filetime in Hla. rewrite text_focus_time in Hf.
    injection Hla as <-. injection Hf as <-. reflexivity.
  - destruct (parse_legacy data Hl) as (last & Hla & Hp).
    unfold Legacy in Hp. rewrite Hp, truthy_insert.
    change (default ∅ (Some ?d)) with d. cbv zeta.
    unfold dict_getitem, dict_get. lookup_dict.
    unfold record_of. cbn [default from_option id].
    rewrite text_filetime in Hla.
    injection Hla as <-. reflexivity.
Qed.

(** The body of the inner loop is [value_step]. *)
Lemma process_value_exact username guid ntuser_path win7_format value s :
  process_value username guid ntuser_path win7_format value s
  = (fst (value_step username guid ntuser_path win7_format value),
     s ++ snd (value_step username guid ntuser_path win7_format value)).
Proof.
  unfold value_step.
  destruct (value_value value) as [data|e] eqn:Hv.
  2:{ unfold process_value. cbv zeta. unfold then_ at 1, eval at 1.
      rewrite Hv, app_nil_r. reflexivity. }
  destruct data as [b|z|str_|l|t].
  - destruct (Nat.leb_spec (minimum_length win7_format) (length b)) as [Hl|Hs].
    + apply process_value_bytes; assumption.
    + rewrite (process_value_from _ _ _ _ _ _ _ Hv).
      rewrite parse_short by exact Hs. cbn [truthy fst snd].
      rewrite app_nil_r. destruct (negb _); reflexivity.
  - rewrite (process_value_from _ _ _ _ _ _ _ Hv).
    rewrite parse_not_sized by reflexivity. cbn [py_bool].
    destruct (z =? 0); cbn [negb fst snd]; rewrite app_nil_r; reflexivity.
  - rewrite (process_value_from _ _ _ _ _ _ _ Hv).
    rewrite parse_str. cbn [py_bool].
    destruct (Nat.leb_spec (minimum_length win7_format) (length str_)) as [Hl|Hs];
      cbn [fst snd truthy]; rewrite app_nil_r.
    + destruct (Nat.eqb_spec (length str_) 0); [|reflexivity].
      destruct win7_format; cbn [minimum_length] in Hl; lia.
    + destruct (negb (negb _)); reflexivity.
  - rewrite (process_value_from _ _ _ _ _ _ _ Hv).
    rewrite parse_list. cbn [py_bool].
    destruct (Nat.leb_spec (minimum_length win7_format) (length l)) as [Hl|Hs];
      cbn [fst snd truthy]; rewrite app_nil_r.
    + destruct (Nat.eqb_spec (length l) 0); [|reflexivity].
      destruct win7_format; cbn [minimum_length] in Hl; lia.
    + destruct (negb (negb _)); reflexivity.
  - rewrite (process_value_from _ _ _ _ _ _ _ Hv).
    rewrite parse_not_sized by reflexivity. cbn [py_bool negb fst snd].
    rewrite app_nil_r. reflexivity.
Qed.

(** A loop whose body is a step is the run of the steps. *)
Lemma for_each_exact {A} (f : A → step) xs body :
  (∀ x s, body x s = (fst (f x), s ++ snd (f x))) →
  ∀ s, for_each xs body s
       = (fst (run_steps (List.map f xs)), s ++ snd (run_steps (List.map f xs))).
Proof.
  intros H. induction xs as [|x xs IH]; intros s.
  - cbn. rewrite app_nil_r. reflexivity.
  - cbn [for_each List.map run_steps]. unfold then_ at 1. rewrite H.
    destruct (f x) as [[[]|e] records]; cbn [fst snd]; [|reflexivity].
    rewrite IH. destruct (run_steps (List.map f xs)) as [outcome records'].
    cbn [fst snd]. rewrite app_assoc. reflexivity.
Qed.

Lemma process_guid_key_exact username ntuser_path guid_key s :
  process_guid_key username ntuser_path guid_key s
  = (fst (key_step username ntuser_path guid_key),
     s ++ snd (key_step username ntuser_path guid_key)).
Proof.
  unfold process_guid_key, key_step. cbv zeta.
  unfold then_ at 1, eval at 1.
  destruct (select_format guid_key) as [win7_format|e];
    [|cbn [fst snd]; rewrite app_nil_r; reflexivity].
  unfold try_except_block, then_ at 1, eval at 1.
  destruct (key_Count guid_key) as [values|e].
  - rewrite for_each_exact
      with (f := value_step username (key_name guid_key) ntuser_path win7_format)
      by (intros; apply process_value_exact).
    destruct (run_steps _) as [[[]|e] records]; cbn [fst snd try_except];
      [reflexivity|].
    destruct (is_exn _ e); reflexivity.
  - cbn [fst snd try_except]. rewrite app_nil_r.
    destruct (is_exn _ e); reflexivity.
Qed.

(** [parse_userassist] is [hive_records]. *)
Lemma parse_userassist_exact Registry_Registry Path_parent_name ntuser_path :
  parse_userassist Registry_Registry Path_parent_name ntuser_path
  = hive_records Registry_Registry Path_parent_name ntuser_path.
Proof.
  unfold parse_userassist, hive_records. cbv zeta.
  unfold try_except_block at 1, then_ at 1, eval at 1.
  destruct (Registry_Registry ntuser_path) as [registry|e0]; [|reflexivity].
  unfold try_except_block at 1, then_ at 1, eval at 1.
  destruct (open_UserAssist registry) as [keys|e1];
    [|destruct (is_exn _ e1); reflexivity].
  unfold then_ at 1.
  rewrite for_each_exact
    with (f := key_step (Path_parent_name ntuser_path) ntuser_path)
    by (intros; apply process_guid_key_exact).
  destruct (run_steps _) as [[[]|e] records]; cbn [fst snd app];
    [reflexivity|].
  destruct (is_exn _ e); reflexivity.
Qed.

(** Runs of steps. *)
Lemma run_steps_elem steps e :
  e ∈ snd (run_steps steps) → ∃ st, st ∈ steps ∧ e ∈ snd st.
Proof.
  induction steps as [|[[[]|x] records] steps IH]; cbn [run_steps].
  - intros H. inversion H.
  - destruct (run_steps steps) as [outcome records']. cbn [snd] in *.
    intros H. apply elem_of_app in H. destruct H as [H|H].
    + eexists. split; [left|exact H].
    + destruct (IH H) as (st & Hin & He). exists st. split; [right|]; assumption.
  - cbn [snd]. intros H. eexists. split; [left|exact H].
Qed.

Lemma run_steps_returns steps :
  (∀ st, st ∈ steps → fst st = Return tt) →
  run_steps steps = (Return tt, flat_map snd steps).
Proof.
  induction steps as [|[[[]|x] records] steps IH]; intros H; cbn [run_steps].
  - reflexivity.
  - rewrite IH by (intros; apply H; right; assumption). reflexivity.
  - specialize (H _ ltac:(left)). discriminate.
Qed.

Lemma run_steps_raises steps e records :
  run_steps steps = (Raise e, records) → ∃ st, st ∈ steps ∧ fst st = Raise e.
Proof.
  revert records.
  induction steps as [|[[[]|x] recs] steps IH]; intros records; cbn [run_steps].
  - discriminate.
  - destruct (run_steps steps) as [outcome records']. intros [= -> _].
    destruct (IH _ eq_refl) as (st & Hin & He).
    exists st. split; [right|]; assumption.
  - intros [= -> _]. eexists. split; [left|reflexivity].
Qed.

Lemma run_steps_Return steps records :
  run_steps steps = (Return tt, records) →
  (∀ st, st ∈ steps → fst st = Return tt) ∧ records = flat_map snd steps.
Proof.
  revert records.
  induction steps as [|[[[]|x] recs] steps IH]; intros records; cbn [run_steps].
  - intros [= <-]. split; [|reflexivity]. intros st H. inversion H.
  - destruct (run_steps steps) as [outcome records']. intros [= -> <-].
    destruct (IH _ eq_refl) as [Hall ->]. split; [|reflexivity].
    intros st H. apply elem_of_cons in H. destruct H as [->|H]; auto.
  - discriminate.
Qed.

(** A step that raises makes the run raise. *)
Lemma run_steps_raise_in steps st e :
  st ∈ steps → fst st = Raise e → ∃ e' records, run_steps steps = (Raise e', records).
Proof.
  intros Hin He.
  destruct (run_steps steps) as [[[]|e'] records] eqn:E; [|eauto].
  apply run_steps_Return in E. destruct E as [Hall _].
  rewrite (Hall st Hin) in He. discriminate.
Qed.

(** What a value step appends, and what it raises. *)
Lemma value_step_records username guid ntuser_path win7_format value :
  snd (value_step username guid ntuser_path win7_format value)
  = value_records username guid ntuser_path win7_format value.
Proof.
  unfold value_step, value_records.
  destruct (value_value value) as [[b|z|s|l|t]|e]; try reflexivity.
  - destruct (_ <=? _)%nat; reflexivity.
  - destruct (z =? 0); reflexivity.
  - destruct (_ <=? _)%nat; reflexivity.
  - destruct (_ <=? _)%nat; reflexivity.
Qed.

Lemma value_records_elem username guid ntuser_path win7_format value e :
  e ∈ value_records username guid ntuser_path win7_format value →
  ∃ data : bytes,
    value_value value = Return (RegBin data)
    ∧ (minimum_length win7_format <= length data)%nat
    ∧ e = record_of username guid ntuser_path win7_format (value_name value) data.
Proof.
  unfold value_records.
  destruct (value_value value) as [[b|z|s|l|t]|x]; try (intros H; inversion H; fail).
  destruct (Nat.leb_spec (minimum_length win7_format) (length b)) as [Hl|Hs];
    [|intros H; inversion H].
  intros H. apply list_elem_of_singleton in H. eauto.
Qed.

Lemma value_step_raises username guid ntuser_path win7_format value e :
  fst (value_step username guid ntuser_path win7_format value) = Raise e →
  value_value value = Raise e
  ∨ (e = TypeError ∧ ∃ data, value_value value = Return data).
Proof.
  unfold value_step.
  destruct (value_value value) as [[b|z|s|l|t]|x]; cbn.
  - destruct (_ <=? _)%nat; discriminate.
  - destruct (z =? 0); [discriminate|]. intros [= <-]. eauto.
  - destruct (_ <=? _)%nat; [|discriminate]. intros [= <-]. eauto.
  - destruct (_ <=? _)%nat; [|discriminate]. intros [= <-]. eauto.
  - intros [= <-]. eauto.
  - intros [= <-]. auto.
Qed.

Lemma value_step_binary username guid ntuser_path win7_format value :
  binary_value value = true →
  fst (value_step username guid ntuser_path win7_format value) = Return tt.
Proof.
  unfold binary_value, value_step.
  destruct (value_value value) as [[b|z|s|l|t]|x]; try discriminate.
  intros _. destruct (_ <=? _)%nat; reflexivity.
Qed.

(** What a key step appends. *)
Lemma key_step_elem username ntuser_path guid_key e :
  e ∈ snd (key_step username ntuser_path guid_key) →
  ∃ win7_format values value (data : bytes),
    select_format guid_key = Return win7_format
    ∧ key_Count guid_key = Return values
    ∧ value ∈ values
    ∧ value_value value = Return (RegBin data)
    ∧ (minimum_length win7_format <= length data)%nat
    ∧ e = record_of username (key_name guid_key) ntuser_path win7_format
            (value_name value) data.
Proof.
  unfold key_step.
  destruct (select_format guid_key) as [w|x]; [|intros H; inversion H].
  destruct (key_Count guid_key) as [values|x]; [|intros H; inversion H].
  destruct (run_steps _) as [outcome records] eqn:E. cbn [snd].
  intros H.
  assert (H' : e ∈ snd (run_steps
                          (List.map (value_step username (key_name guid_key)
                                       ntuser_path w) values)))
    by (rewrite E; exact H).
  apply run_steps_elem in H'. destruct H' as (st & Hin & He).
  apply list_elem_of_In, in_map_iff in Hin. destruct Hin as (v & <- & Hv).
  rewrite value_step_records in He. apply value_records_elem in He.
  destruct He as (data & Hd & Hl & ->).
  exists w, values, v, data. repeat (split; [auto|]).
  - apply list_elem_of_In, Hv.
  - reflexivity.
Qed.

(** A key step that returns after reading every value has the record of
    each of them. *)
Lemma key_step_has_record username ntuser_path guid_key win7_format values
    value (data : bytes) :
  fst (key_step username ntuser_path guid_key) = Return tt →
  select_format guid_key = Return win7_format →
  key_Count guid_key = Return values →
  (∀ v, v ∈ values → value_value v ≠ Raise RegistryKeyNotFoundException) →
  value ∈ values →
  value_value value = Return (RegBin data) →
  (minimum_length win7_format <= length data)%nat →
  record_of username (key_name guid_key) ntuser_path win7_format
    (value_name value) data
  ∈ snd (key_step username ntuser_path guid_key).
Proof.
  unfold key_step. intros Hret Hsel Hcount Hread Hin Hv Hl.
  rewrite Hsel, Hcount in *.
  destruct (run_steps _) as [[[]|x] records] eqn:E; cbn [fst snd] in *.
  - apply run_steps_Return in E. destruct E as [_ ->].
    apply list_elem_of_In, in_flat_map.
    exists (value_step username (key_name guid_key) ntuser_path win7_format value).
    split.
    + apply in_map, list_elem_of_In, Hin.
    + rewrite value_step_records. unfold value_records. rewrite Hv.
      destruct (Nat.leb_spec (minimum_length win7_format) (length data)); [|lia].
      left. reflexivity.
  - exfalso. apply run_steps_raises in E. destruct E as (st & Hst & He).
    apply list_elem_of_In, in_map_iff in Hst. destruct Hst as (v & <- & Hvin).
    apply value_step_raises in He. destruct He as [He|[-> _]].
    + destruct x; try discriminate Hret.
      exact (Hread v (proj2 (list_elem_of_In _ _) Hvin) He).
    + discriminate Hret.
Qed.

(** A regular key returns, with the records of its values. *)
Lemma key_step_regular username ntuser_path guid_key :
  regular_key guid_key = true →
  key_step username ntuser_path guid_key
  = (Return tt, key_records username ntuser_path guid_key).
Proof.
  unfold regular_key, key_step, key_records. intros H.
  apply andb_prop in H. destruct H as [Hver Hcount].
  assert (Hsel : ∃ w, select_format guid_key = Return w).
  { unfold select_format, regular_version in *.
    destruct (key_Version guid_key) as [[b|z|s|l|t]|x]; try discriminate.
    - cbn. eauto.
    - destruct x; try discriminate. cbn. eauto. }
  destruct Hsel as [w ->].
  destruct (key_Count guid_key) as [values|x].
  - rewrite run_steps_returns.
    + cbn [try_except]. f_equal.
      rewrite flat_map_concat_map, List.map_map, <- flat_map_concat_map.
      apply flat_map_ext. intros v. apply value_step_records.
    + intros st Hst. apply list_elem_of_In, in_map_iff in Hst.
      destruct Hst as (v & <- & Hv). apply value_step_binary.
      rewrite forallb_forall in Hcount. apply Hcount, Hv.
  - cbn [try_except]. rewrite Hcount. reflexivity.
Qed.

(** The records of a hive, one by one. *)
Lemma hive_records_elem Registry_Registry Path_parent_name ntuser_path records :
  hive_records Registry_Registry Path_parent_name ntuser_path = Some records →
  ∃ registry keys,
    Registry_Registry ntuser_path = Return registry
    ∧ open_UserAssist registry = Return keys
    ∧ ∀ e, e ∈ records →
        ∃ guid_key win7_format values value (data : bytes),
          guid_key ∈ keys
          ∧ select_format guid_key = Return win7_format
          ∧ key_Count guid_key = Return values
          ∧ value ∈ values
          ∧ value_value value = Return (RegBin data)
          ∧ (minimum_length win7_format <= length data)%nat
          ∧ e = record_of (Path_parent_name ntuser_path) (key_name guid_key)
                  ntuser_path win7_format (value_name value) data.
Proof.
  unfold hive_records.
  destruct (Registry_Registry ntuser_path) as [registry|]; [|discriminate].
  destruct (open_UserAssist registry) as [keys|] eqn:EO; [|discriminate].
  destruct (run_steps _) as [[[]|x] recs] eqn:E; [|discriminate].
  intros [= <-]. exists registry, keys. split; [reflexivity|]. split; [exact EO|].
  intros e He.
  assert (H' : e ∈ snd (run_steps
                          (List.map (key_step (Path_parent_name ntuser_path)
                                       ntuser_path) keys)))
    by (rewrite E; exact He).
  apply run_steps_elem in H'. destruct H' as (st & Hin & Hst).
  apply list_elem_of_In, in_map_iff in Hin. destruct Hin as (gk & <- & Hgk).
  apply key_step_elem in Hst.
  destruct Hst as (w & values & v & data & Hsel & Hcount & Hv & Hd & Hl & ->).
  exists gk, w, values, v, data. split; [apply list_elem_of_In, Hgk|]. auto 10.
Qed.

(** When the hive gives a list, every key step returned and the list has
    what each appended. *)
Lemma hive_records_keys Registry_Registry Path_parent_name ntuser_path
    registry keys records :
  hive_records Registry_Registry Path_parent_name ntuser_path = Some records →
  Registry_Registry ntuser_path = Return registry →
  open_UserAssist registry = Return keys →
  ∀ guid_key, guid_key ∈ keys →
    fst (key_step (Path_parent_name ntuser_path) ntuser_path guid_key) = Return tt
    ∧ ∀ e, e ∈ snd (key_step (Path_parent_name ntuser_path) ntuser_path guid_key) →
           e ∈ records.
Proof.
  unfold hive_records. intros H ER EO gk Hgk. rewrite ER, EO in H.
  destruct (run_steps _) as [[[]|x] recs] eqn:E; [|discriminate].
  injection H as <-. apply run_steps_Return in E. destruct E as [Hall ->].
  split.
  - apply Hall, list_elem_of_In, in_map, list_elem_of_In, Hgk.
  - intros e He. apply list_elem_of_In, in_flat_map.
    eexists. split; [apply in_map, list_elem_of_In, Hgk|].
    apply list_elem_of_In, He.
Qed.

(** A key step that raises makes the hive give nothing. *)
Lemma hive_records_raise Registry_Registry Path_parent_name ntuser_path
    registry keys guid_key e :
  Registry_Registry ntuser_path = Return registry →
  open_UserAssist registry = Return keys →
  guid_key ∈ keys →
  fst (key_step (Path_parent_name ntuser_path) ntuser_path guid_key) = Raise e →
  hive_records Registry_Registry Path_parent_name ntuser_path = None.
Proof.
  intros ER EO Hgk He. unfold hive_records. rewrite ER, EO.
  destruct (run_steps_raise_in
              (List.map (key_step (Path_parent_name ntuser_path) ntuser_path) keys)
              _ e
              (proj2 (list_elem_of_In _ _)
                 (in_map _ _ _ (proj1 (list_elem_of_In _ _) Hgk))) He)
    as (e' & recs & ->).
  reflexivity.
Qed.

(** The fields of a record. *)
Lemma record_of_fields username guid ntuser_path win7_format name (data : bytes) :
  let e := record_of username guid ntuser_path win7_format name data in
  e !! "username" = Some (PyStr username)
  ∧ e !! "name" = Some (PyStr (rot13_decode name))
  ∧ e !! "guid" = Some (PyStr guid)
  ∧ e !! "count" = Some (PyInt (le_field data 4 4))
  ∧ e !! "source_file" = Some (PyStr ntuser_path)
  ∧ timestamp_field (e !! "last_execution")
  ∧ if win7_format then timestamp_field (e !! "focus_time")
    else e !! "focus_time" = Some (PyStr (lit "N/A")).
Proof.
  cbv zeta. unfold record_of.
  repeat (split; [lookup_dict; reflexivity|]).
  split.
  - lookup_dict. eapply timestamp_field_filetime. apply text_filetime.
  - destruct win7_format; lookup_dict; [|reflexivity].
    eapply timestamp_field_focus_time. apply text_focus_time.
Qed.

Lemma legacy_blob_entry :
  parse_userassist_entry legacy_blob Legacy = Return (Some legacy_entry).
Proof.
  destruct (parse_legacy legacy_blob) as (last & Hl & Hp).
  { cbn. lia. }
  rewrite Hp. change (le_field _ 8 8) with 0 in Hl.
  rewrite convert_filetime_zero in Hl. injection Hl as <-. reflexivity.
Qed.

Lemma legacy_hive_records :
  parse_userassist (fun _ => Return legacy_hive) (fun _ => lit "alice")
    (lit "C:\Users\alice\NTUSER.DAT") = Some [legacy_record].
Proof. vm_compute. reflexivity. Qed.

Lemma modern_hive_records :
  parse_userassist (fun _ => Return modern_hive) (fun _ => lit "alice")
    (lit "C:\Users\alice\NTUSER.DAT") = Some [modern_record].
Proof. vm_compute. reflexivity. Qed.

Lemma dword_hive_records :
  parse_userassist (fun _ => Return dword_hive) (fun _ => lit "alice")
    (lit "C:\Users\alice\NTUSER.DAT") = None.
Proof. vm_compute. reflexivity. Qed.

Lemma not_applicable_is_no_timestamp : ¬ is_timestamp (lit "N/A").
Proof.
  intros (dt & _ & H). apply (f_equal (@length _)) in H.
  rewrite length_render in H. discriminate.
Qed.

Lemma not_applicable_is_no_marker :
  lit "N/A" ≠ lit "Never" ∧ ¬ is_invalid_marker (lit "N/A").
Proof. split; [discriminate|]. intros [H|H]; discriminate. Qed.

(** *** The converters on a few inputs *)

Example convert_filetime_first_tick :
  convert_filetime 10 = Return (lit "1601-01-01 00:00:00").
Proof. vm_compute. reflexivity. Qed.

Example convert_filetime_last_second :
  convert_filetime 2650467743999999999 = Return (lit "9999-12-31 23:59:59").
Proof. vm_compute. reflexivity. Qed.

Example convert_filetime_leap_day :
  convert_filetime 125962560000000000 = Return (lit "2000-02-29 00:00:00").
Proof. vm_compute. reflexivity. Qed.

Example convert_focus_time_one_ms :
  convert_focus_time_to_utc 1 = Return (lit "1970-01-01 00:00:00").
Proof. vm_compute. reflexivity. Qed.

Example convert_focus_time_max_u32 :
  convert_focus_time_to_utc 4294967295 = Return (lit "1970-02-19 17:02:47").
Proof. vm_compute. reflexivity. Qed.

Example rot13_decode_name :
  rot13_decode (lit "HRZR_EHACNGU:P:\Jvaqbjf\abgrcnq.rkr")
  = lit "UEME_RUNPATH:C:\Windows\notepad.exe".
Proof. vm_compute. reflexivity. Qed.

(** ** The claims *)

(** C1.  The entry decoder reads the little-endian fields at the
    documented offsets: under the Modern layout, from 72 bytes on, the
    run count is bytes [4,8), the focus time bytes [12,16) and the last
    execution bytes [60,68); under the Legacy layout, from 16 bytes on, the
    run count is bytes [4,8) and the last execution bytes [8,16), and the
    result has no focus_time field.  72 zero bytes decode to run count 0
    with both times "Never"; 16 bytes with [05,00,00,00] at [4,8) and zeros
    at [8,16) decode to run count 5 and last execution "Never". *)
Theorem parse_userassist_entry_fields :
  (∀ data, (72 <= length data)%nat →
     ∃ focus last,
       convert_focus_time_to_utc (le_field data 12 4) = Return focus
       ∧ convert_filetime (le_field data 60 8) = Return last
       ∧ parse_userassist_entry data Modern =
         Return (Some (<["count" := PyInt (le_field data 4 4)]>
                      (<["focus_time" := PyStr focus]>
                      (<["last_execution" := PyStr last]> ∅)))))
  ∧ (∀ data, (16 <= length data)%nat →
     ∃ last d,
       convert_filetime (le_field data 8 8) = Return last
       ∧ parse_userassist_entry data Legacy = Return (Some d)
       ∧ d = <["count" := PyInt (le_field data 4 4)]>
             (<["last_execution" := PyStr last]> ∅)
       ∧ d !! "focus_time" = None)
  ∧ parse_userassist_entry (repeat x00 72) Modern =
    Return (Some (<["count" := PyInt 0]>
                 (<["focus_time" := PyStr (lit "Never")]>
                 (<["last_execution" := PyStr (lit "Never")]> ∅))))
  ∧ (∀ b0 b1 b2 b3,
     parse_userassist_entry
       [b0; b1; b2; b3; x05; x00; x00; x00; x00; x00; x00; x00; x00; x00; x00; x00]
       Legacy =
     Return (Some (<["count" := PyInt 5]>
                  (<["last_execution" := PyStr (lit "Never")]> ∅)))).
Proof.
  split; [exact parse_modern|]. split; [|split].
  - intros data H. destruct (parse_legacy data H) as (last & Hl & Hp).
    exists last. eexists. split; [exact Hl|]. split; [exact Hp|].
    split; [reflexivity|]. reflexivity.
  - destruct (parse_modern (repeat x00 72)) as (focus & last & Hf & Hl & Hp).
    { rewrite repeat_length. lia. }
    rewrite Hp. change (le_field (repeat x00 72) 12 4) with 0 in Hf.
    change (le_field (repeat x00 72) 60 8) with 0 in Hl.
    rewrite convert_focus_time_zero in Hf. rewrite convert_filetime_zero in Hl.
    injection Hf as <-. injection Hl as <-. reflexivity.
  - intros b0 b1 b2 b3.
    destruct (parse_legacy [b0; b1; b2; b3; x05; x00; x00; x00; x00; x00; x00;
                            x00; x00; x00; x00; x00]) as (last & Hl & Hp).
    { cbn. lia. }
    rewrite Hp.
    change (le_field _ 8 8) with 0 in Hl.
    rewrite convert_filetime_zero in Hl. injection Hl as <-. reflexivity.
Qed.

Lemma parse_userassist_entry_fields_witness :
  (16 <= length (repeat xff 16))%nat
  ∧ ∃ last d,
      convert_filetime (le_field (repeat xff 16) 8 8) = Return last
      ∧ parse_userassist_entry (repeat xff 16) Legacy = Return (Some d)
      ∧ d = <["count" := PyInt (le_field (repeat xff 16) 4 4)]>
            (<["last_execution" := PyStr last]> ∅)
      ∧ d !! "focus_time" = None.
Proof.
  split; [cbn; lia|].
  apply (proj1 (proj2 parse_userassist_entry_fields)). cbn. lia.
Defined.

(** C2, where the claim fails: the decoder is handed whatever object the
    registry value holds.  The value of a [REG_DWORD] is an [int], and
    [len] of it raises a [TypeError]; a [str] of 16 characters has a length,
    and unpacking a slice of it raises a [TypeError]; and a primitive that
    fails with another exception than [struct.error] is not caught
    either.  The handler is for [struct.error] alone, so each of them
    reaches the caller. *)
Lemma parse_userassist_entry_no_result_counterexample :
  parse_userassist_entry (RegInt 1) Modern = Raise TypeError
  ∧ parse_userassist_entry (RegStr (lit "AAAAAAAAAAAAAAAA")) Legacy
    = Raise TypeError
  ∧ parse_userassist_entry_with (fun _ _ => Raise TypeError)
      (repeat x00 72) Modern = Raise TypeError.
Proof. repeat split; vm_compute; reflexivity. Qed.

(** C2, as the code has it.  A byte string shorter than the minimum length
    of the format (72 bytes Modern, 16 bytes Legacy) decodes to "no
    result", and on every byte string the decoder returns, it never
    raises.  Whatever the unpacking primitive: below the minimum length it
    is not called; from the minimum length on, the first call that raises
    decides: a [struct.error] is caught and turned into "no result", any
    other exception goes on to the caller; when no call raises, the result
    is a dict.  An object that is not a byte string raises a [TypeError]:
    at once when it has no length, and from the minimum length on when it
    has one; below it the result is "no result". *)
Theorem parse_userassist_entry_no_result :
  (∀ (data : bytes) format, (length data < minimum_length format)%nat →
     parse_userassist_entry data format = Return None)
  ∧ (∀ (data : bytes) format,
       ∃ r, parse_userassist_entry data format = Return r)
  ∧ (∀ unpack (data : bytes) format,
       ((length data < minimum_length format)%nat →
        parse_userassist_entry_with unpack data format = Return None)
       ∧ ((minimum_length format <= length data)%nat →
          match first_raise unpack data (field_slices format) with
          | Some e =>
              parse_userassist_entry_with unpack data format
              = if is_exn struct_error e then Return None else Raise e
          | None =>
              ∃ d, parse_userassist_entry_with unpack data format
                   = Return (Some d)
          end))
  ∧ (∀ (obj : regdata) format,
       (∀ data : bytes, obj ≠ RegBin data) →
       parse_userassist_entry obj format
       = match py_len obj with
         | Return n =>
             if (minimum_length format <=? n)%nat
             then Raise TypeError else Return None
         | Raise e => Raise e
         end).
Proof.
  split; [exact parse_short|]. split; [exact parse_bytes_returns|]. split.
  - intros unpack data format. split.
    + apply parse_with_short.
    + apply parse_with_first_raise.
  - intros [b|z|s|l|t] format Hobj.
    + destruct (Hobj b eq_refl).
    + apply parse_not_sized. reflexivity.
    + apply parse_str.
    + apply parse_list.
    + apply parse_not_sized. reflexivity.
Qed.

Lemma parse_userassist_entry_no_result_witness :
  ((length (repeat x00 71) < minimum_length Modern)%nat
   ∧ parse_userassist_entry (repeat x00 71) Modern = Return None)
  ∧ ((minimum_length Modern <= length (repeat x00 72))%nat
     ∧ parse_userassist_entry_with (fun _ _ => Raise struct_error)
         (repeat x00 72) Modern = Return None
     ∧ parse_userassist_entry_with (fun _ _ => Raise OverflowError)
         (repeat x00 72) Modern = Raise OverflowError)
  ∧ ((∀ data : bytes, RegInt 1 ≠ RegBin data)
     ∧ parse_userassist_entry (RegInt 1) Legacy = Raise TypeError).
Proof.
  assert (H71 : (length (repeat x00 71) < minimum_length Modern)%nat)
    by (cbn; lia).
  assert (H72 : (minimum_length Modern <= length (repeat x00 72))%nat)
    by (cbn; lia).
  assert (Hint : ∀ data : bytes, RegInt 1 ≠ RegBin data)
    by (intros data; discriminate).
  split; [|split].
  - split; [exact H71|].
    exact (proj1 parse_userassist_entry_no_result (repeat x00 71) Modern H71).
  - split; [exact H72|]. split.
    + exact (proj2 (proj1 (proj2 (proj2 parse_userassist_entry_no_result))
                      (fun _ _ => Raise struct_error) (repeat x00 72) Modern)
               H72).
    + exact (proj2 (proj1 (proj2 (proj2 parse_userassist_entry_no_result))
                      (fun _ _ => Raise OverflowError) (repeat x00 72) Modern)
               H72).
  - split; [exact Hint|].
    exact (proj2 (proj2 (proj2 parse_userassist_entry_no_result))
             (RegInt 1) Legacy Hint).
Defined.

(** The tick count the specification gives for 2021-01-01 is that of
    2020-12-02T16:00:00Z. *)
Lemma convert_filetime_2021_counterexample :
  convert_filetime 132513984000000000 ≠ Return (lit "2021-01-01 00:00:00").
Proof. vm_compute. discriminate. Qed.

(** C3, as the code has it.  On an unsigned 64-bit tick count,
    [convert_filetime] returns "Never" when the count or its tenth, the
    microsecond count, is 0; otherwise, when the date is representable, it
    returns 1601-01-01T00:00:00 plus that many microseconds, rendered as
    YYYY-MM-DD HH:MM:SS.  It maps 132513984000000000 to
    "2020-12-02 16:00:00"; the tick count of 2021-01-01T00:00:00Z is
    132539328000000000. *)
Theorem convert_filetime_spec :
  (∀ ticks, 0 <= ticks < 2 ^ 64 →
     (ticks = 0 ∨ ticks / 10 = 0 → convert_filetime ticks = Return (lit "Never"))
     ∧ (ticks / 10 ≠ 0 →
        representable windows_epoch (ticks / 10 / 86400000000) →
        ∃ dt, valid_datetime dt
              ∧ civil_seconds dt
                = civil_seconds windows_epoch + ticks / 10 / 1000000
              ∧ convert_filetime ticks = Return (render dt)))
  ∧ convert_filetime 132513984000000000 = Return (lit "2020-12-02 16:00:00")
  ∧ convert_filetime 132539328000000000 = Return (lit "2021-01-01 00:00:00").
Proof.
  split; [|split; vm_compute; reflexivity].
  intros ticks Hr. split.
  - intros Hz. destruct (Z.eq_dec ticks 0) as [->|Hnz]; [reflexivity|].
    destruct Hz as [Hz|Hz]; [contradiction|].
    rewrite convert_filetime_in_range by lia. rewrite Hz. reflexivity.
  - apply convert_filetime_representable. exact Hr.
Qed.

Lemma convert_filetime_spec_witness :
  (0 <= 132539328000000000 < 2 ^ 64
   ∧ 132539328000000000 / 10 ≠ 0
   ∧ representable windows_epoch (132539328000000000 / 10 / 86400000000))
  ∧ ∃ dt, valid_datetime dt
          ∧ civil_seconds dt
            = civil_seconds windows_epoch + 132539328000000000 / 10 / 1000000
          ∧ convert_filetime 132539328000000000 = Return (render dt).
Proof.
  assert (H1 : 0 <= 132539328000000000 < 2 ^ 64) by lia.
  assert (H2 : 132539328000000000 / 10 ≠ 0) by (vm_compute; discriminate).
  assert (H3 : representable windows_epoch (132539328000000000 / 10 / 86400000000))
    by (vm_compute; split; discriminate).
  split; [auto|].
  exact (proj2 (proj1 convert_filetime_spec 132539328000000000 H1) H2 H3).
Defined.

(** C4.  [convert_focus_time_to_utc] returns "Never" for 0; for a
    positive number of milliseconds whose date is representable it returns
    1970-01-01T00:00:00 plus that many milliseconds, rendered as
    YYYY-MM-DD HH:MM:SS. *)
Theorem convert_focus_time_spec :
  convert_focus_time_to_utc 0 = Return (lit "Never")
  ∧ (∀ ms, 0 < ms → representable unix_epoch (ms / 86400000) →
       ∃ dt, valid_datetime dt
             ∧ civil_seconds dt = civil_seconds unix_epoch + ms / 1000
             ∧ convert_focus_time_to_utc ms = Return (render dt)).
Proof.
  split; [reflexivity|].
  intros ms Hpos. apply convert_focus_time_representable. lia.
Qed.

Lemma convert_focus_time_spec_witness :
  (0 < 4294967295 ∧ representable unix_epoch (4294967295 / 86400000))
  ∧ ∃ dt, valid_datetime dt
          ∧ civil_seconds dt = civil_seconds unix_epoch + 4294967295 / 1000
          ∧ convert_focus_time_to_utc 4294967295 = Return (render dt).
Proof.
  assert (H1 : 0 < 4294967295) by lia.
  assert (H2 : representable unix_epoch (4294967295 / 86400000))
    by (vm_compute; split; discriminate).
  split; [auto|].
  exact (proj2 convert_focus_time_spec 4294967295 H1 H2).
Defined.

(** C5.  Neither converter raises, whatever integer it is given.  When
    the tick count does not fit 64 unsigned bits, or the date falls outside
    the range of [datetime], [convert_filetime] returns
    "Invalid timestamp"; when the date falls outside that range,
    [convert_focus_time_to_utc] returns "Invalid focus time". *)
Theorem converters_recover :
  (∀ ticks, ∃ s, convert_filetime ticks = Return s)
  ∧ (∀ ms, ∃ s, convert_focus_time_to_utc ms = Return s)
  ∧ (∀ ticks,
       ticks < 0 ∨ 2 ^ 64 <= ticks
       ∨ ¬ representable windows_epoch (ticks / 10 / 86400000000) →
       convert_filetime ticks = Return (lit "Invalid timestamp"))
  ∧ (∀ ms,
       ¬ representable unix_epoch (ms / 86400000) →
       convert_focus_time_to_utc ms = Return (lit "Invalid focus time")).
Proof.
  split; [exact convert_filetime_total|].
  split; [exact convert_focus_time_total|]. split.
  - intros ticks H.
    destruct (Z.lt_ge_cases ticks 0) as [Hneg|Hpos];
      [apply convert_filetime_out_of_range; lia|].
    destruct (Z.lt_ge_cases ticks (2 ^ 64)) as [Hlt|Hge];
      [|apply convert_filetime_out_of_range; lia].
    destruct H as [H|[H|H]]; try lia.
    unfold representable in H. rewrite windows_epoch_ordinal in H.
    unfold _MAXORDINAL in H.
    assert (Hd : 0 <= ticks / 10 / 86400000000)
      by (Z.div_mod_to_equations; lia).
    assert (Hbig : 3652059 < 584389 + ticks / 10 / 86400000000) by lia.
    assert (0 < ticks).
    { destruct (Z.eq_dec ticks 0) as [->|]; [exfalso; revert Hbig; vm_compute; discriminate | lia]. }
    rewrite convert_filetime_in_range by lia.
    destruct (Z.eqb_spec (ticks / 10) 0) as [E|_].
    { rewrite E in Hbig. revert Hbig. vm_compute. discriminate. }
    rewrite shifted_out_of_range; [reflexivity|].
    rewrite windows_epoch_ordinal. unfold _MAXORDINAL. lia.
  - intros ms H.
    assert (Hnz : ms ≠ 0).
    { intros ->. apply H. vm_compute. split; discriminate. }
    rewrite convert_focus_time_nonzero by exact Hnz.
    rewrite shifted_out_of_range; [reflexivity|].
    replace (ms * 1000 / 86400000000) with (ms / 86400000)
      by (Z.div_mod_to_equations; lia).
    unfold representable in H. lia.
Qed.

Lemma converters_recover_witness :
  (¬ representable windows_epoch (2650467744000000000 / 10 / 86400000000)
   ∧ convert_filetime 2650467744000000000 = Return (lit "Invalid timestamp"))
  ∧ (¬ representable unix_epoch (253402300800000 / 86400000)
     ∧ convert_focus_time_to_utc 253402300800000 = Return (lit "Invalid focus time")).
Proof.
  assert (H1 : ¬ representable windows_epoch (2650467744000000000 / 10 / 86400000000)).
  { vm_compute. intros [_ H]. apply H. reflexivity. }
  assert (H2 : ¬ representable unix_epoch (253402300800000 / 86400000)).
  { vm_compute. intros [_ H]. apply H. reflexivity. }
  exact (conj
           (conj H1 (proj1 (proj2 (proj2 converters_recover)) _
                       (or_intror (or_intror H1))))
           (conj H2 (proj2 (proj2 (proj2 converters_recover)) _ H2))).
Defined.

(** C6.  Format selection: Legacy when the version marker is absent,
    Modern when it is present and at least 5, Legacy otherwise; it returns
    in each of these cases.  So an absent marker and 4 give Legacy, 5 and 7
    give Modern. *)
Theorem select_format_spec :
  (∀ name count marker,
     select_format (mk_key name (version_lookup marker) count) =
     Return (match marker with
             | None => Legacy
             | Some v => if 5 <=? v then Modern else Legacy
             end))
  ∧ (∀ name count,
       select_format (mk_key name (version_lookup None) count) = Return Legacy
       ∧ select_format (mk_key name (version_lookup (Some 4)) count) = Return Legacy
       ∧ select_format (mk_key name (version_lookup (Some 5)) count) = Return Modern
       ∧ select_format (mk_key name (version_lookup (Some 7)) count) = Return Modern).
Proof.
  split.
  - intros name count [v|]; [|reflexivity].
    unfold select_format. cbn. destruct (5 <=? v); reflexivity.
  - intros name count. repeat split; reflexivity.
Qed.

(** C7.  [rot13_decode] is its own inverse on every string; it maps each
    code point by [rot13_char], the rotation by 13 within A-Z and within
    a-z, so the case of a letter is kept and a code point that is not one
    of the 52 letters is left unchanged; it is a total function, and the
    empty string decodes to itself. *)
Theorem rot13_decode_involutive :
  (∀ s, rot13_decode (rot13_decode s) = s)
  ∧ (∀ s, rot13_decode s = List.map rot13_char s)
  ∧ (∀ c, is_upper (rot13_char c) = is_upper c
          ∧ is_lower (rot13_char c) = is_lower c)
  ∧ (∀ c, is_letter c = false → rot13_char c = c)
  ∧ (∀ s, length (rot13_decode s) = length s)
  ∧ rot13_decode [] = [].
Proof.
  split; [|split; [|split; [|split; [|split]]]].
  - intros s. rewrite !rot13_decode_map, List.map_map.
    rewrite <- (List.map_id s) at 2.
    apply List.map_ext. exact rot13_char_involutive.
  - exact rot13_decode_map.
  - exact rot13_char_case.
  - intros c H. unfold is_letter in H. unfold rot13_char.
    apply orb_false_elim in H. destruct H as [-> ->]. reflexivity.
  - intros s. rewrite rot13_decode_map. apply List.length_map.
  - reflexivity.
Qed.

Lemma rot13_decode_involutive_witness :
  is_letter 48%N = false ∧ rot13_char 48%N = 48%N.
Proof.
  split; [reflexivity|].
  apply (proj1 (proj2 (proj2 (proj2 rot13_decode_involutive)))).
  reflexivity.
Defined.

(** C8, where the claim fails: the record of a Legacy value has the
    string "N/A" as its focus_time, which is neither a timestamp, nor
    "Never", nor an invalid marker. *)
Lemma record_fields_counterexample :
  parse_userassist (fun _ => Return legacy_hive) (fun _ => lit "alice")
    (lit "C:\Users\alice\NTUSER.DAT") = Some [legacy_record]
  ∧ legacy_record !! "focus_time" = Some (PyStr (lit "N/A"))
  ∧ ¬ timestamp_field (legacy_record !! "focus_time").
Proof.
  split; [exact legacy_hive_records|].
  assert (E : legacy_record !! "focus_time" = Some (PyStr (lit "N/A")))
    by (vm_compute; reflexivity).
  split; [exact E|]. rewrite E.
  intros (s & [= <-] & [H|[H|H]]).
  - exact (not_applicable_is_no_timestamp H).
  - exact (proj1 not_applicable_is_no_marker H).
  - exact (proj2 not_applicable_is_no_marker H).
Qed.

(** C8, as the code has it.  Every record the driver emits belongs to a
    GUID key of the hive, whose name is its guid.  Its last_execution is a
    string: a timestamp YYYY-MM-DD HH:MM:SS, "Never" or an invalid marker.
    Its focus_time is a string: one of these three when the format
    selected for the key is Modern, and the literal "N/A" when it is
    Legacy.  Neither field is null or absent. *)
Theorem record_fields_are_strings
    Registry_Registry Path_parent_name ntuser_path records :
  parse_userassist Registry_Registry Path_parent_name ntuser_path = Some records →
  ∀ e, e ∈ records →
    ∃ registry keys guid_key win7_format,
      Registry_Registry ntuser_path = Return registry
      ∧ open_UserAssist registry = Return keys
      ∧ guid_key ∈ keys
      ∧ select_format guid_key = Return win7_format
      ∧ e !! "guid" = Some (PyStr (key_name guid_key))
      ∧ timestamp_field (e !! "last_execution")
      ∧ if win7_format then timestamp_field (e !! "focus_time")
        else e !! "focus_time" = Some (PyStr (lit "N/A")).
Proof.
  intros H e He. rewrite parse_userassist_exact in H.
  destruct (hive_records_elem _ _ _ _ H) as (registry & keys & ER & EO & Hall).
  destruct (Hall e He)
    as (gk & w & values & v & data & Hgk & Hsel & _ & _ & _ & _ & ->).
  exists registry, keys, gk, w. repeat (split; [assumption|]).
  pose proof (record_of_fields (Path_parent_name ntuser_path) (key_name gk)
                ntuser_path w (value_name v) data) as Hf.
  cbv zeta in Hf. tauto.
Qed.

Lemma record_fields_are_strings_witness :
  (∃ registry keys guid_key win7_format,
     Return legacy_hive = Return registry
     ∧ open_UserAssist registry = Return keys
     ∧ guid_key ∈ keys
     ∧ select_format guid_key = Return win7_format
     ∧ legacy_record !! "guid" = Some (PyStr (key_name guid_key))
     ∧ timestamp_field (legacy_record !! "last_execution")
     ∧ if win7_format then timestamp_field (legacy_record !! "focus_time")
       else legacy_record !! "focus_time" = Some (PyStr (lit "N/A")))
  ∧ (∃ registry keys guid_key win7_format,
       Return modern_hive = Return registry
       ∧ open_UserAssist registry = Return keys
       ∧ guid_key ∈ keys
       ∧ select_format guid_key = Return win7_format
       ∧ modern_record !! "guid" = Some (PyStr (key_name guid_key))
       ∧ timestamp_field (modern_record !! "last_execution")
       ∧ if win7_format then timestamp_field (modern_record !! "focus_time")
         else modern_record !! "focus_time" = Some (PyStr (lit "N/A"))).
Proof.
  split.
  - exact (record_fields_are_strings (fun _ => Return legacy_hive)
             (fun _ => lit "alice") (lit "C:\Users\alice\NTUSER.DAT")
             [legacy_record] legacy_hive_records
             legacy_record (list_elem_of_here legacy_record [])).
  - exact (record_fields_are_strings (fun _ => Return modern_hive)
             (fun _ => lit "alice") (lit "C:\Users\alice\NTUSER.DAT")
             [modern_record] modern_hive_records
             modern_record (list_elem_of_here modern_record [])).
Defined.

(** C9.  [convert_focus_time_to_utc] is monotone on positive inputs: for
    0 < a <= b with the date of b representable, both are rendered as
    timestamps, and the one of a is not later than the one of b, as dates
    and times and as strings. *)
Theorem convert_focus_time_monotone (a b : Z) :
  0 < a → a <= b → representable unix_epoch (b / 86400000) →
  ∃ ta tb,
    valid_datetime ta ∧ valid_datetime tb
    ∧ convert_focus_time_to_utc a = Return (render ta)
    ∧ convert_focus_time_to_utc b = Return (render tb)
    ∧ not_later ta tb
    ∧ str_le (render ta) (render tb) = true.
Proof.
  intros Ha Hab Hb.
  assert (Hra : representable unix_epoch (a / 86400000)).
  { unfold representable in *. rewrite unix_epoch_ordinal in *.
    split; [Z.div_mod_to_equations; lia|].
    assert (a / 86400000 <= b / 86400000) by (apply Z.div_le_mono; lia). lia. }
  destruct (convert_focus_time_representable a ltac:(lia) Hra) as (ta & Hva & Hsa & Hca).
  destruct (convert_focus_time_representable b ltac:(lia) Hb) as (tb & Hvb & Hsb & Hcb).
  exists ta, tb.
  assert (Hnl : not_later ta tb).
  { apply civil_seconds_not_later; [assumption..|].
    rewrite Hsa, Hsb.
    assert (a / 1000 <= b / 1000) by (apply Z.div_le_mono; lia). lia. }
  repeat (split; [assumption|]).
  apply render_le; assumption.
Qed.

Lemma convert_focus_time_monotone_witness :
  (0 < 86399999 ∧ 86399999 <= 86400000
   ∧ representable unix_epoch (86400000 / 86400000))
  ∧ ∃ ta tb,
      valid_datetime ta ∧ valid_datetime tb
      ∧ convert_focus_time_to_utc 86399999 = Return (render ta)
      ∧ convert_focus_time_to_utc 86400000 = Return (render tb)
      ∧ not_later ta tb
      ∧ str_le (render ta) (render tb) = true.
Proof.
  assert (H1 : 0 < 86399999) by lia.
  assert (H2 : 86399999 <= 86400000) by lia.
  assert (H3 : representable unix_epoch (86400000 / 86400000))
    by (vm_compute; split; discriminate).
  split; [auto|].
  exact (convert_focus_time_monotone 86399999 86400000 H1 H2 H3).
Defined.

(** C10.  Under the Legacy format the decoded entry has no focus_time
    field, and the driver emits for it a record whose focus_time is "N/A":
    when [parse_userassist] returns a list, every value of at least 16
    bytes under a GUID key for which Legacy is selected has its record in
    the list, with the decoded name, the guid of the key, the run count
    and last execution of the blob, and focus_time "N/A" (the values of
    that key being read without a "key not found", which would end the
    key).  Conversely every record of the list belongs to a GUID key of the
    hive, and when the format selected for that key is Legacy its
    focus_time is "N/A".  "N/A" is not a timestamp, not "Never", and not
    an invalid marker. *)
Theorem legacy_focus_time_not_applicable :
  (∀ data d, parse_userassist_entry data Legacy = Return (Some d) →
     d !! "focus_time" = None)
  ∧ (∀ Registry_Registry Path_parent_name ntuser_path records
       registry keys guid_key values value (data : bytes),
       parse_userassist Registry_Registry Path_parent_name ntuser_path
       = Some records →
       Registry_Registry ntuser_path = Return registry →
       open_UserAssist registry = Return keys →
       guid_key ∈ keys →
       select_format guid_key = Return Legacy →
       key_Count guid_key = Return values →
       (∀ v, v ∈ values → value_value v ≠ Raise RegistryKeyNotFoundException) →
       value ∈ values →
       value_value value = Return (RegBin data) →
       (16 <= length data)%nat →
       ∃ e last,
         e ∈ records
         ∧ e !! "name" = Some (PyStr (rot13_decode (value_name value)))
         ∧ e !! "guid" = Some (PyStr (key_name guid_key))
         ∧ e !! "count" = Some (PyInt (le_field data 4 4))
         ∧ convert_filetime (le_field data 8 8) = Return last
         ∧ e !! "last_execution" = Some (PyStr last)
         ∧ e !! "focus_time" = Some (PyStr (lit "N/A")))
  ∧ (∀ Registry_Registry Path_parent_name ntuser_path records,
       parse_userassist Registry_Registry Path_parent_name ntuser_path
       = Some records →
       ∀ e, e ∈ records →
         ∃ registry keys guid_key win7_format,
           Registry_Registry ntuser_path = Return registry
           ∧ open_UserAssist registry = Return keys
           ∧ guid_key ∈ keys
           ∧ select_format guid_key = Return win7_format
           ∧ e !! "guid" = Some (PyStr (key_name guid_key))
           ∧ (win7_format = Legacy →
              e !! "focus_time" = Some (PyStr (lit "N/A"))))
  ∧ (¬ is_timestamp (lit "N/A")
     ∧ lit "N/A" ≠ lit "Never"
     ∧ ¬ is_invalid_marker (lit "N/A")).
Proof.
  split; [|split; [|split]].
  - intros data d H.
    destruct (parse_Some_bytes _ _ _ H) as (b & -> & Hl).
    destruct (parse_legacy b Hl) as (last & _ & Hp).
    unfold Legacy in *. rewrite Hp in H. injection H as <-.
    lookup_dict. reflexivity.
  - intros RR PPN path records registry keys gk values v data
      H ER EO Hgk Hsel Hcount Hread Hv Hd Hl.
    rewrite parse_userassist_exact in H.
    destruct (hive_records_keys _ _ _ _ _ _ H ER EO gk Hgk) as [Hret Hsub].
    pose proof (key_step_has_record (PPN path) path gk Legacy values v data
                  Hret Hsel Hcount Hread Hv Hd Hl) as Hin.
    exists (record_of (PPN path) (key_name gk) path Legacy (value_name v) data),
           (text (convert_filetime (le_field data 8 8))).
    split; [exact (Hsub _ Hin)|].
    unfold record_of, Legacy.
    repeat (split; [lookup_dict; reflexivity|]).
    split; [apply text_filetime|].
    split; lookup_dict; reflexivity.
  - intros RR PPN path records H e He. rewrite parse_userassist_exact in H.
    destruct (hive_records_elem _ _ _ _ H) as (registry & keys & ER & EO & Hall).
    destruct (Hall e He)
      as (gk & w & values & v & data & Hgk & Hsel & _ & _ & _ & _ & ->).
    exists registry, keys, gk, w. repeat (split; [assumption|]).
    pose proof (record_of_fields (PPN path) (key_name gk) path w
                  (value_name v) data) as Hf.
    cbv zeta in Hf. split; [tauto|]. intros ->. tauto.
  - split; [exact not_applicable_is_no_timestamp|].
    exact not_applicable_is_no_marker.
Qed.

Lemma legacy_focus_time_not_applicable_witness :
  (parse_userassist_entry legacy_blob Legacy = Return (Some legacy_entry)
   ∧ legacy_entry !! "focus_time" = None)
  ∧ (parse_userassist (fun _ => Return legacy_hive) (fun _ => lit "alice")
       (lit "C:\Users\alice\NTUSER.DAT") = Some [legacy_record]
     ∧ ∃ e last,
         e ∈ [legacy_record]
         ∧ e !! "name" = Some (PyStr (rot13_decode (lit "HRZR_EHACNGU")))
         ∧ e !! "guid"
           = Some (PyStr (lit "{75048700-EF1F-11D0-9888-006097DEACF9}"))
         ∧ e !! "count" = Some (PyInt (le_field legacy_blob 4 4))
         ∧ convert_filetime (le_field legacy_blob 8 8) = Return last
         ∧ e !! "last_execution" = Some (PyStr last)
         ∧ e !! "focus_time" = Some (PyStr (lit "N/A"))).
Proof.
  split.
  - split; [exact legacy_blob_entry|].
    exact (proj1 legacy_focus_time_not_applicable legacy_blob legacy_entry
             legacy_blob_entry).
  - split; [exact legacy_hive_records|].
    refine (proj1 (proj2 legacy_focus_time_not_applicable)
              (fun _ => Return legacy_hive) (fun _ => lit "alice")
              (lit "C:\Users\alice\NTUSER.DAT") [legacy_record]
              legacy_hive _
              (mk_key (lit "{75048700-EF1F-11D0-9888-006097DEACF9}")
                 (Raise RegistryValueNotFoundException)
                 (Return [mk_value (lit "HRZR_EHACNGU")
                            (Return (RegBin legacy_blob))]))
              _
              (mk_value (lit "HRZR_EHACNGU") (Return (RegBin legacy_blob)))
              legacy_blob
              legacy_hive_records eq_refl eq_refl _ eq_refl eq_refl _ _ eq_refl _).
    + apply list_elem_of_here.
    + intros v Hv. apply list_elem_of_singleton in Hv. rewrite Hv. discriminate.
    + apply list_elem_of_here.
    + cbn. lia.
Defined.

(** ** Further properties *)

(** *** The converters *)

Lemma timestamp_not_never s : is_timestamp s → s ≠ lit "Never".
Proof.
  intros (dt & _ & ->) H. apply (f_equal (@length _)) in H.
  rewrite length_render in H. discriminate.
Qed.

Lemma timestamp_not_invalid s : is_timestamp s → ¬ is_invalid_marker s.
Proof.
  intros (dt & _ & ->) [H|H]; apply (f_equal (@length _)) in H;
    rewrite length_render in H; discriminate.
Qed.

Lemma filetime_days_threshold ticks :
  0 <= ticks →
  (ticks / 10 / 86400000000 <= 3067670 ↔ ticks < 2650467744000000000).
Proof. intros H. split; intros; Z.div_mod_to_equations; lia. Qed.

Lemma convert_filetime_timestamp ticks :
  10 <= ticks < 2650467744000000000 →
  ∃ dt, valid_datetime dt
        ∧ civil_seconds dt = civil_seconds windows_epoch + ticks / 10 / 1000000
        ∧ convert_filetime ticks = Return (render dt).
Proof.
  intros H. apply convert_filetime_representable.
  - lia.
  - Z.div_mod_to_equations; lia.
  - unfold representable. rewrite windows_epoch_ordinal. unfold _MAXORDINAL.
    pose proof (proj2 (filetime_days_threshold ticks ltac:(lia)) ltac:(lia)).
    split; [Z.div_mod_to_equations; lia | lia].
Qed.

Lemma convert_filetime_invalid ticks :
  2650467744000000000 <= ticks →
  convert_filetime ticks = Return (lit "Invalid timestamp").
Proof.
  intros H.
  destruct (Z.lt_ge_cases ticks (2 ^ 64)) as [Hlt|Hge];
    [|apply convert_filetime_out_of_range; lia].
  rewrite convert_filetime_in_range by lia.
  destruct (Z.eqb_spec (ticks / 10) 0) as [E|_];
    [exfalso; Z.div_mod_to_equations; lia|].
  rewrite shifted_out_of_range; [reflexivity|].
  right. rewrite windows_epoch_ordinal. unfold _MAXORDINAL.
  pose proof (filetime_days_threshold ticks ltac:(lia)). lia.
Qed.

Lemma convert_filetime_never ticks :
  0 <= ticks < 10 → convert_filetime ticks = Return (lit "Never").
Proof.
  intros H. destruct (Z.eq_dec ticks 0) as [->|Hnz]; [reflexivity|].
  rewrite convert_filetime_in_range by lia.
  replace (ticks / 10) with 0 by (Z.div_mod_to_equations; lia). reflexivity.
Qed.

(** X1.  On an unsigned 64-bit tick count [convert_filetime] has three
    outcomes with sharp bounds: "Never" exactly below 10 ticks,
    "Invalid timestamp" exactly from 2650467744000000000 ticks on (the first
    instant of year 10000), and a timestamp exactly in between. *)
Theorem convert_filetime_partition (ticks : Z) :
  0 <= ticks < 2 ^ 64 →
  (convert_filetime ticks = Return (lit "Never") ↔ ticks < 10)
  ∧ (convert_filetime ticks = Return (lit "Invalid timestamp")
     ↔ 2650467744000000000 <= ticks)
  ∧ ((∃ s, convert_filetime ticks = Return s ∧ is_timestamp s)
     ↔ 10 <= ticks < 2650467744000000000).
Proof.
  intros Hr.
  destruct (Z.lt_ge_cases ticks 10) as [H1|H1].
  { rewrite convert_filetime_never by lia. (split; [|split]); (split; intros H); try lia; try reflexivity.
    - discriminate.
    - destruct H as (s & [= <-] & Hs). exfalso.
      exact (timestamp_not_never _ Hs eq_refl). }
  destruct (Z.lt_ge_cases ticks 2650467744000000000) as [H2|H2].
  - destruct (convert_filetime_timestamp ticks ltac:(lia)) as (dt & Hv & _ & ->).
    assert (Hts : is_timestamp (render dt)) by (exists dt; auto).
    (split; [|split]); (split; intros H); try lia; try reflexivity.
    + exfalso. apply (timestamp_not_never _ Hts). congruence.
    + exfalso. apply (timestamp_not_invalid _ Hts). left. congruence.
    + eauto.
  - rewrite convert_filetime_invalid by lia. (split; [|split]); (split; intros H); try lia; try reflexivity.
    + discriminate.
    + destruct H as (s & [= <-] & Hs). exfalso.
      apply (timestamp_not_invalid _ Hs). left. reflexivity.
Qed.

Lemma convert_filetime_partition_witness :
  0 <= 2650467743999999999 < 2 ^ 64
  ∧ ∃ s, convert_filetime 2650467743999999999 = Return s ∧ is_timestamp s.
Proof.
  assert (H : 0 <= 2650467743999999999 < 2 ^ 64) by lia.
  split; [exact H|].
  apply (proj2 (proj2 (proj2 (convert_filetime_partition _ H)))). lia.
Defined.

Lemma convert_focus_time_timestamp ms :
  0 < ms < 253402300800000 →
  ∃ dt, valid_datetime dt
        ∧ civil_seconds dt = civil_seconds unix_epoch + ms / 1000
        ∧ convert_focus_time_to_utc ms = Return (render dt).
Proof.
  intros H. apply convert_focus_time_representable; [lia|].
  unfold representable. rewrite unix_epoch_ordinal. unfold _MAXORDINAL.
  split; Z.div_mod_to_equations; lia.
Qed.

Lemma convert_focus_time_invalid ms :
  253402300800000 <= ms →
  convert_focus_time_to_utc ms = Return (lit "Invalid focus time").
Proof.
  intros H. rewrite convert_focus_time_nonzero by lia.
  rewrite shifted_out_of_range; [reflexivity|].
  right. rewrite unix_epoch_ordinal. unfold _MAXORDINAL.
  Z.div_mod_to_equations; lia.
Qed.

(** X2.  On a non-negative number of milliseconds
    [convert_focus_time_to_utc] returns "Never" exactly for 0,
    "Invalid focus time" exactly from 253402300800000 ms on (the first
    instant of year 10000), and a timestamp exactly in between. *)
Theorem convert_focus_time_partition (ms : Z) :
  0 <= ms →
  (convert_focus_time_to_utc ms = Return (lit "Never") ↔ ms = 0)
  ∧ (convert_focus_time_to_utc ms = Return (lit "Invalid focus time")
     ↔ 253402300800000 <= ms)
  ∧ ((∃ s, convert_focus_time_to_utc ms = Return s ∧ is_timestamp s)
     ↔ 0 < ms < 253402300800000).
Proof.
  intros Hr.
  destruct (Z.eq_dec ms 0) as [->|Hnz].
  { rewrite convert_focus_time_zero. (split; [|split]); (split; intros H); try lia; try reflexivity.
    - discriminate.
    - destruct H as (s & [= <-] & Hs). exfalso.
      exact (timestamp_not_never _ Hs eq_refl). }
  destruct (Z.lt_ge_cases ms 253402300800000) as [H2|H2].
  - destruct (convert_focus_time_timestamp ms ltac:(lia)) as (dt & Hv & _ & ->).
    assert (Hts : is_timestamp (render dt)) by (exists dt; auto).
    (split; [|split]); (split; intros H); try lia; try reflexivity.
    + exfalso. apply (timestamp_not_never _ Hts). congruence.
    + exfalso. apply (timestamp_not_invalid _ Hts). right. congruence.
    + eauto.
  - rewrite convert_focus_time_invalid by lia. (split; [|split]); (split; intros H); try lia; try reflexivity.
    + discriminate.
    + destruct H as (s & [= <-] & Hs). exfalso.
      apply (timestamp_not_invalid _ Hs). right. reflexivity.
Qed.

Lemma convert_focus_time_partition_witness :
  0 <= 253402300799999
  ∧ ∃ s, convert_focus_time_to_utc 253402300799999 = Return s ∧ is_timestamp s.
Proof.
  assert (H : 0 <= 253402300799999) by lia.
  split; [exact H|].
  apply (proj2 (proj2 (proj2 (convert_focus_time_partition _ H)))). lia.
Defined.

(** X3.  [convert_filetime] is monotone: of two tick counts from 10 on
    that are rendered as timestamps, the smaller one gives the timestamp
    that is not later, as dates and times and as strings, so sorting records
    by the last_execution string sorts them in time. *)
Theorem convert_filetime_monotone (a b : Z) :
  10 <= a → a <= b → b < 2650467744000000000 →
  ∃ ta tb,
    valid_datetime ta ∧ valid_datetime tb
    ∧ convert_filetime a = Return (render ta)
    ∧ convert_filetime b = Return (render tb)
    ∧ not_later ta tb
    ∧ str_le (render ta) (render tb) = true.
Proof.
  intros Ha Hab Hb.
  destruct (convert_filetime_timestamp a ltac:(lia)) as (ta & Hva & Hsa & Hca).
  destruct (convert_filetime_timestamp b ltac:(lia)) as (tb & Hvb & Hsb & Hcb).
  exists ta, tb.
  assert (Hnl : not_later ta tb).
  { apply civil_seconds_not_later; [assumption..|].
    rewrite Hsa, Hsb.
    assert (a / 10 / 1000000 <= b / 10 / 1000000)
      by (Z.div_mod_to_equations; lia).
    lia. }
  repeat (split; [assumption|]).
  apply render_le; assumption.
Qed.

Lemma convert_filetime_monotone_witness :
  (10 <= 132513984000000000
   ∧ 132513984000000000 <= 132539328000000000
   ∧ 132539328000000000 < 2650467744000000000)
  ∧ ∃ ta tb,
      valid_datetime ta ∧ valid_datetime tb
      ∧ convert_filetime 132513984000000000 = Return (render ta)
      ∧ convert_filetime 132539328000000000 = Return (render tb)
      ∧ not_later ta tb
      ∧ str_le (render ta) (render tb) = true.
Proof.
  assert (H1 : 10 <= 132513984000000000) by lia.
  assert (H2 : 132513984000000000 <= 132539328000000000) by lia.
  assert (H3 : 132539328000000000 < 2650467744000000000) by lia.
  split; [auto|].
  exact (convert_filetime_monotone _ _ H1 H2 H3).
Defined.

Lemma render_shifted_seconds ord T1 T2 :
  T1 / 1000000 = T2 / 1000000 →
  stamp "Invalid timestamp" (shifted ord T1)
  = stamp "Invalid timestamp" (shifted ord T2).
Proof.
  intros H. unfold shifted. cbv zeta.
  replace (T1 / 86400000000) with (T1 / 1000000 / 86400)
    by (Z.div_mod_to_equations; lia).
  replace (T2 / 86400000000) with (T2 / 1000000 / 86400)
    by (Z.div_mod_to_equations; lia).
  rewrite H.
  destruct ((1 <=? _) && (_ <=? _)); [|reflexivity].
  destruct (_ord2ymd _) as [[y m] d]. reflexivity.
Qed.

(** X4.  [convert_filetime] has a resolution of one second: two tick
    counts from 10 on within one second (equal after division by 10^7)
    give the same string. *)
Theorem convert_filetime_same_second (a b : Z) :
  10 <= a < 2 ^ 64 → 10 <= b < 2 ^ 64 →
  a / 10000000 = b / 10000000 →
  convert_filetime a = convert_filetime b.
Proof.
  intros Ha Hb H.
  rewrite !convert_filetime_in_range by lia.
  destruct (Z.eqb_spec (a / 10) 0); [exfalso; Z.div_mod_to_equations; lia|].
  destruct (Z.eqb_spec (b / 10) 0); [exfalso; Z.div_mod_to_equations; lia|].
  apply render_shifted_seconds.
  Z.div_mod_to_equations; lia.
Qed.

Lemma convert_filetime_same_second_witness :
  (10 <= 132539328000000000 < 2 ^ 64
   ∧ 10 <= 132539328009999999 < 2 ^ 64
   ∧ 132539328000000000 / 10000000 = 132539328009999999 / 10000000)
  ∧ convert_filetime 132539328000000000 = convert_filetime 132539328009999999.
Proof.
  assert (H1 : 10 <= 132539328000000000 < 2 ^ 64) by lia.
  assert (H2 : 10 <= 132539328009999999 < 2 ^ 64) by lia.
  assert (H3 : 132539328000000000 / 10000000 = 132539328009999999 / 10000000)
    by reflexivity.
  split; [auto|].
  exact (convert_filetime_same_second _ _ H1 H2 H3).
Defined.

Lemma digit_plain d : plain_char (digit d) = true.
Proof.
  unfold plain_char, digit.
  assert (H : 0 <= d mod 10 < 10) by (apply Z.mod_pos_bound; lia).
  repeat match goal with
         | |- context [(?a =? ?b)%N] => destruct (N.eqb_spec a b); [lia|]
         end.
  reflexivity.
Qed.

Lemma render_plain dt : forallb plain_char (render dt) = true.
Proof.
  unfold render. rewrite !forallb_app. unfold dec4, dec2. cbn [forallb].
  rewrite !digit_plain. reflexivity.
Qed.

Lemma stamp_plain marker r :
  forallb plain_char (lit marker) = true →
  ∃ s, stamp marker r = Return s ∧ forallb plain_char s = true.
Proof.
  intros H. destruct r as [dt|e]; cbn [stamp]; eauto using render_plain.
Qed.

(** X5.  Neither converter ever returns a string with a comma, a double
    quote, a carriage return or a line feed: the two time columns need no
    quoting in the CSV output. *)
Theorem converters_plain_text :
  (∀ ticks, ∃ s, convert_filetime ticks = Return s
                 ∧ forallb plain_char s = true)
  ∧ (∀ ms, ∃ s, convert_focus_time_to_utc ms = Return s
               ∧ forallb plain_char s = true).
Proof.
  split.
  - intros ticks.
    destruct (Z.eq_dec ticks 0) as [->|Hnz]; [eexists; split; reflexivity|].
    destruct (Z.lt_ge_cases ticks 0) as [Hneg|Hpos].
    { rewrite convert_filetime_out_of_range by lia. eexists; split; reflexivity. }
    destruct (Z.lt_ge_cases ticks (2 ^ 64)) as [Hlt|Hge].
    + rewrite convert_filetime_in_range by lia.
      destruct (ticks / 10 =? 0); [eexists; split; reflexivity|].
      apply stamp_plain. reflexivity.
    + rewrite convert_filetime_out_of_range by lia. eexists; split; reflexivity.
  - intros ms.
    destruct (Z.eq_dec ms 0) as [->|Hnz]; [eexists; split; reflexivity|].
    rewrite convert_focus_time_nonzero by exact Hnz.
    apply stamp_plain. reflexivity.
Qed.

(** X6.  Line 67 of [convert_filetime], unpacking what was just packed,
    is a range check and nothing else: an integer that fits 64 unsigned
    bits comes back unchanged, any other one raises [struct.error]. *)
Theorem pack_unpack_is_range_check (filetime : Z) :
  (struct.pack "<Q" filetime ≫= struct.unpack "<Q")
  = if (0 <=? filetime) && (filetime <? 2 ^ 64) then Return filetime
    else Raise struct_error.
Proof.
  destruct (Z.leb_spec 0 filetime); cbn [andb].
  - destruct (Z.ltb_spec filetime (2 ^ 64)).
    + apply unpack_pack_Q. lia.
    + rewrite pack_Q_out_of_range by lia. reflexivity.
  - rewrite pack_Q_out_of_range by lia. reflexivity.
Qed.

(** *** The entry decoder *)

(** X7.  On a byte string the entry decoder gives "no result" exactly
    below the minimum length of the format, and from the minimum length on
    (72 bytes Modern, 16 bytes Legacy) it returns a dict, whatever the
    content: with the keys count, focus_time and last_execution under
    Modern, count and last_execution under Legacy. *)
Theorem parse_userassist_entry_none_iff (data : bytes) (format : bool) :
  (parse_userassist_entry data format = Return None
   ↔ (length data < minimum_length format)%nat)
  ∧ ((minimum_length format <= length data)%nat →
     ∃ d, parse_userassist_entry data format = Return (Some d)
          ∧ dom d =@{gset string}
            if format then {["count"; "focus_time"; "last_execution"]}
            else {["count"; "last_execution"]}).
Proof.
  assert (Hlong : (minimum_length format <= length data)%nat →
                  ∃ d, parse_userassist_entry data format = Return (Some d)
                       ∧ dom d =@{gset string}
                         if format
                         then {["count"; "focus_time"; "last_execution"]}
                         else {["count"; "last_execution"]}).
  { intros Hl. destruct format; cbn [minimum_length] in Hl.
    - destruct (parse_modern data Hl) as (focus & last & _ & _ & Hp).
      unfold Modern in Hp. rewrite Hp. eexists. split; [reflexivity|].
      rewrite !dom_insert_L, dom_empty_L. set_solver.
    - destruct (parse_legacy data Hl) as (last & _ & Hp).
      unfold Legacy in Hp. rewrite Hp. eexists. split; [reflexivity|].
      rewrite !dom_insert_L, dom_empty_L. set_solver. }
  split; [|exact Hlong].
  split; [|apply parse_short].
  intros H.
  destruct (Nat.lt_ge_cases (length data) (minimum_length format)) as [|Hl];
    [assumption|exfalso].
  destruct (Hlong Hl) as (d & Hp & _). rewrite Hp in H. discriminate.
Qed.

Lemma parse_userassist_entry_none_iff_witness :
  (minimum_length Legacy <= length legacy_blob)%nat
  ∧ ∃ d, parse_userassist_entry legacy_blob Legacy = Return (Some d)
         ∧ dom d =@{gset string} {["count"; "last_execution"]}.
Proof.
  assert (H : (minimum_length Legacy <= length legacy_blob)%nat) by (cbn; lia).
  split; [exact H|].
  exact (proj2 (parse_userassist_entry_none_iff legacy_blob Legacy) H).
Defined.

Lemma le_field_ext (data data' : bytes) (off w : nat) :
  (∀ i, (off <= i < off + w)%nat → nth i data x00 = nth i data' x00) →
  le_field data off w = le_field data' off w.
Proof.
  revert off. induction w as [|w IH]; intros off H; [reflexivity|].
  cbn [le_field]. rewrite (H off) by lia. rewrite (IH (S off)); [reflexivity|].
  intros i Hi. apply H. lia.
Qed.

Lemma field_offsets_modern i :
  In i (field_offsets Modern)
  ↔ (4 <= i < 8 ∨ 12 <= i < 16 ∨ 60 <= i < 68)%nat.
Proof.
  change (field_offsets Modern) with (seq 4 4 ++ seq 12 4 ++ seq 60 8).
  rewrite !in_app_iff, !in_seq. lia.
Qed.

Lemma field_offsets_legacy i :
  In i (field_offsets Legacy) ↔ (4 <= i < 8 ∨ 8 <= i < 16)%nat.
Proof.
  change (field_offsets Legacy) with (seq 4 4 ++ seq 8 8).
  rewrite !in_app_iff, !in_seq. lia.
Qed.

Lemma parse_field_bytes data data' format :
  (minimum_length format <= length data)%nat →
  (minimum_length format <= length data')%nat →
  (∀ i, In i (field_offsets format) → nth i data x00 = nth i data' x00) →
  parse_userassist_entry data format = parse_userassist_entry data' format.
Proof.
  intros Hl Hl' H. destruct format; cbn [minimum_length] in Hl, Hl'.
  - destruct (parse_modern data Hl) as (focus & last & Hf & Hla & Hp).
    destruct (parse_modern data' Hl') as (focus' & last' & Hf' & Hla' & Hp').
    unfold Modern in Hp, Hp'. rewrite Hp, Hp'.
    rewrite (le_field_ext data data' 12 4) in Hf
      by (intros; apply H, field_offsets_modern; lia).
    rewrite (le_field_ext data data' 60 8) in Hla
      by (intros; apply H, field_offsets_modern; lia).
    rewrite (le_field_ext data data' 4 4)
      by (intros; apply H, field_offsets_modern; lia).
    congruence.
  - destruct (parse_legacy data Hl) as (last & Hla & Hp).
    destruct (parse_legacy data' Hl') as (last' & Hla' & Hp').
    unfold Legacy in Hp, Hp'. rewrite Hp, Hp'.
    rewrite (le_field_ext data data' 8 8) in Hla
      by (intros; apply H, field_offsets_legacy; lia).
    rewrite (le_field_ext data data' 4 4)
      by (intros; apply H, field_offsets_legacy; lia).
    congruence.
Qed.

(** X8.  The decoded entry depends on the bytes of the fields only: two
    blobs of sufficient length that agree at the offsets the decoder reads
    (Modern [4,8), [12,16), [60,68); Legacy [4,16)) decode alike.  So
    bytes appended to a blob of sufficient length are ignored. *)
Theorem parse_userassist_entry_field_bytes :
  (∀ data data' format,
     (minimum_length format <= length data)%nat →
     (minimum_length format <= length data')%nat →
     (∀ i, In i (field_offsets format) → nth i data x00 = nth i data' x00) →
     parse_userassist_entry data format = parse_userassist_entry data' format)
  ∧ (∀ data extra format,
       (minimum_length format <= length data)%nat →
       parse_userassist_entry (data ++ extra) format
       = parse_userassist_entry data format).
Proof.
  split; [exact parse_field_bytes|].
  intros data extra format Hl. apply parse_field_bytes.
  - rewrite List.length_app. lia.
  - exact Hl.
  - intros i Hi. apply List.app_nth1.
    destruct format; cbn [minimum_length] in Hl.
    + apply field_offsets_modern in Hi. lia.
    + apply field_offsets_legacy in Hi. lia.
Qed.

Lemma parse_userassist_entry_field_bytes_witness :
  (minimum_length Legacy <= length legacy_blob)%nat
  ∧ parse_userassist_entry (legacy_blob ++ [xff; xff]) Legacy
    = parse_userassist_entry legacy_blob Legacy.
Proof.
  assert (H : (minimum_length Legacy <= length legacy_blob)%nat) by (cbn; lia).
  split; [exact H|].
  exact (proj2 parse_userassist_entry_field_bytes legacy_blob [xff; xff] Legacy H).
Defined.

Lemma ymd2ord_in_year Y y m d :
  1 <= m <= 12 → 1 <= d <= _days_in_month y m →
  _days_before_year Y < _ymd2ord y m d <= _days_before_year (Y + 1) →
  y = Y.
Proof.
  intros Hm Hd. unfold _ymd2ord.
  rewrite days_before_month_flag_eq. rewrite days_in_month_flag_eq in Hd.
  pose proof (month_spec (_is_leap y) m Hm) as S1.
  intros [Hlo Hhi].
  destruct (Z.lt_trichotomy y Y) as [Hy|[Hy|Hy]]; [exfalso|assumption|exfalso].
  - pose proof (days_before_year_mono (y + 1) Y ltac:(lia)) as Hmono.
    rewrite days_before_year_succ in Hmono.
    destruct (_is_leap y); lia.
  - pose proof (days_before_year_mono (Y + 1) y ltac:(lia)). lia.
Qed.

(** A focus time of 32 unsigned bits stays within the first fifty days of
    1970. *)
Lemma convert_focus_time_u32 ms :
  0 <= ms < 2 ^ 32 →
  ∃ focus, convert_focus_time_to_utc ms = Return focus
    ∧ (focus = lit "Never"
       ∨ ∃ dt, valid_datetime dt ∧ year dt = 1970 ∧ month dt <= 2
               ∧ focus = render dt).
Proof.
  intros H. destruct (Z.eq_dec ms 0) as [->|Hnz].
  { exists (lit "Never"). split; [reflexivity | left; reflexivity]. }
  destruct (convert_focus_time_timestamp ms ltac:(lia)) as (dt & Hv & Hs & Hc).
  exists (render dt). split; [exact Hc|]. right. exists dt.
  split; [exact Hv|].
  destruct Hv as (Hy & Hm & Hd & Hh & Hi & Hse).
  unfold civil_seconds, toordinal in Hs.
  change (_ymd2ord (year unix_epoch) (month unix_epoch) (day unix_epoch)) with 719163 in Hs.
  cbn [hour minute second unix_epoch datetime_new] in Hs.
  assert (Hms : 0 <= ms / 1000 < 4294968) by (Z.div_mod_to_equations; lia).
  assert (Hord : 719163 <= _ymd2ord (year dt) (month dt) (day dt) <= 719163 + 49) by lia.
  assert (Ey : year dt = 1970).
  { apply (ymd2ord_in_year 1970 _ _ _ Hm Hd).
    change (_days_before_year 1970) with 719162.
    change (_days_before_year (1970 + 1)) with 719527. lia. }
  split; [exact Ey|]. split; [|reflexivity].
  destruct (Z.le_gt_cases (month dt) 2) as [|Hgt]; [assumption|exfalso].
  unfold _ymd2ord in Hord. rewrite days_before_month_flag_eq, Ey in Hord.
  change (_days_before_year 1970) with 719162 in Hord.
  change (_is_leap 1970) with false in Hord.
  pose proof (days_before_month_mono false 2 (month dt) ltac:(lia) ltac:(lia) ltac:(lia)) as Hmono.
  change (days_before_month_flag false 2) with 31 in Hmono.
  change (days_in_month_flag false 2) with 28 in Hmono.
  lia.
Qed.

(** X9.  In an entry decoded under the Modern layout the run count is an
    unsigned 32-bit integer, and the focus time, read from 32 bits, is
    "Never" or a timestamp of January or February 1970: the decoder never
    yields "Invalid focus time". *)
Theorem parse_userassist_entry_modern_ranges (data : bytes) :
  (72 <= length data)%nat →
  ∃ d count focus,
    parse_userassist_entry data Modern = Return (Some d)
    ∧ d !! "count" = Some (PyInt count) ∧ 0 <= count < 2 ^ 32
    ∧ d !! "focus_time" = Some (PyStr focus)
    ∧ (focus = lit "Never"
       ∨ ∃ dt, valid_datetime dt ∧ year dt = 1970 ∧ month dt <= 2
               ∧ focus = render dt).
Proof.
  intros Hl.
  destruct (parse_modern data Hl) as (focus & last & Hf & Hla & Hp).
  destruct (convert_focus_time_u32 (le_field data 12 4)) as (focus' & Hf' & Hk).
  { apply (le_field_range data 12 4). }
  assert (focus' = focus) by congruence. subst focus'.
  eexists _, (le_field data 4 4), focus.
  split; [exact Hp|].
  split; [lookup_dict; reflexivity|].
  split; [apply (le_field_range data 4 4)|].
  split; [lookup_dict; reflexivity|].
  exact Hk.
Qed.

Lemma parse_userassist_entry_modern_ranges_witness :
  (72 <= length (repeat xff 72))%nat
  ∧ ∃ d count focus,
      parse_userassist_entry (repeat xff 72) Modern = Return (Some d)
      ∧ d !! "count" = Some (PyInt count) ∧ 0 <= count < 2 ^ 32
      ∧ d !! "focus_time" = Some (PyStr focus)
      ∧ (focus = lit "Never"
         ∨ ∃ dt, valid_datetime dt ∧ year dt = 1970 ∧ month dt <= 2
                 ∧ focus = render dt).
Proof.
  assert (H : (72 <= length (repeat xff 72))%nat) by (cbn; lia).
  split; [exact H|].
  exact (parse_userassist_entry_modern_ranges (repeat xff 72) H).
Defined.

(** *** The name decoder *)

Lemma rot13_letters_move :
  forallb (fun k => negb (is_letter (N.of_nat k))
                    || (negb (rot13_char (N.of_nat k) =? N.of_nat k)%N
                        && is_letter (rot13_char (N.of_nat k))))
    (seq 0 256) = true.
Proof. vm_compute. reflexivity. Qed.

Lemma is_letter_small c : is_letter c = true → (c < 256)%N.
Proof.
  unfold is_letter. intros H. apply orb_prop in H.
  destruct H as [H|H]; apply andb_prop in H; destruct H as [_ H];
    apply N.leb_le in H; lia.
Qed.

(** X10.  [rot13_decode] loses nothing and hides every letter: distinct
    names decode to distinct names; the decoded name has the length of the
    name, and position by position a letter A-Z, a-z is replaced by
    another letter while any other character stays; and decoding a
    concatenation is decoding its parts. *)
Theorem rot13_decode_injective :
  (∀ a b, rot13_decode a = rot13_decode b → a = b)
  ∧ (∀ s,
       length (rot13_decode s) = length s
       ∧ ∀ i c, s !! i = Some c →
           ∃ c', rot13_decode s !! i = Some c'
                 ∧ if is_letter c then c' ≠ c ∧ is_letter c' = true
                   else c' = c)
  ∧ (∀ a b, rot13_decode (a ++ b) = rot13_decode a ++ rot13_decode b).
Proof.
  split; [|split].
  - intros a b H.
    assert (Hinv : ∀ s, List.map rot13_char (List.map rot13_char s) = s).
    { intros s. rewrite List.map_map. rewrite <- (List.map_id s) at 2.
      apply List.map_ext. exact rot13_char_involutive. }
    rewrite !rot13_decode_map in H.
    rewrite <- (Hinv a), <- (Hinv b), H. reflexivity.
  - intros s. rewrite rot13_decode_map. split; [apply List.length_map|].
    induction s as [|x s IH]; intros i c Hi; [discriminate|].
    destruct i as [|i]; [|exact (IH i c Hi)].
    injection Hi as ->. exists (rot13_char c). split; [reflexivity|].
    destruct (is_letter c) eqn:Hc.
    + pose proof rot13_letters_move as H. rewrite forallb_forall in H.
      specialize (H (N.to_nat c)). rewrite N2Nat.id in H.
      pose proof (is_letter_small c Hc) as Hlt.
      specialize (H ltac:(apply in_seq; lia)).
      rewrite Hc in H. cbn [negb orb] in H.
      apply andb_prop in H. destruct H as [H1 H2]. split; [|exact H2].
      intros E. rewrite E, N.eqb_refl in H1. discriminate.
    + unfold is_letter in Hc. unfold rot13_char.
      apply orb_false_elim in Hc. destruct Hc as [-> ->]. reflexivity.
  - intros a b. rewrite !rot13_decode_map. apply List.map_app.
Qed.

Lemma rot13_decode_injective_witness :
  lit "HRZR_EHACNGU" !! 5%nat = Some 69%N
  ∧ ∃ c', rot13_decode (lit "HRZR_EHACNGU") !! 5%nat = Some c'
          ∧ c' ≠ 69%N ∧ is_letter c' = true.
Proof.
  assert (H : lit "HRZR_EHACNGU" !! 5%nat = Some 69%N) by reflexivity.
  split; [exact H|].
  exact (proj2 (proj1 (proj2 rot13_decode_injective) (lit "HRZR_EHACNGU"))
           5%nat 69%N H).
Defined.

(** *** The driver as a function *)

(** X11.  [parse_userassist] as a function of the hive: it is
    [hive_records], which runs the GUID keys and their values up to the
    first exception that is not handled.  For a hive that opens and has the
    UserAssist key: when every GUID key is regular (its [Version] absent or
    an integer, its [Count] subkey absent or holding byte strings only) the
    result is the list, in registry order, of one record for every value of
    at least the minimum length of its key's format, and nothing for an
    empty or shorter value or a key without [Count]; one [REG_DWORD] value
    other than 0 under a [Count] key, or one [Version] that is not an
    integer, makes the result [None], discarding the records of the whole
    hive.  A hive that does not open, or has no UserAssist key, gives
    [None]. *)
Theorem parse_userassist_records_exact
    Registry_Registry Path_parent_name ntuser_path :
  parse_userassist Registry_Registry Path_parent_name ntuser_path
  = hive_records Registry_Registry Path_parent_name ntuser_path
  ∧ (∀ registry keys,
       Registry_Registry ntuser_path = Return registry →
       open_UserAssist registry = Return keys →
       (forallb regular_key keys = true →
        parse_userassist Registry_Registry Path_parent_name ntuser_path
        = Some (flat_map (key_records (Path_parent_name ntuser_path) ntuser_path)
                  keys))
       ∧ (∀ guid_key win7_format values value z,
            guid_key ∈ keys →
            select_format guid_key = Return win7_format →
            key_Count guid_key = Return values →
            (∀ v, v ∈ values →
               value_value v ≠ Raise RegistryKeyNotFoundException) →
            value ∈ values →
            value_value value = Return (RegInt z) → z ≠ 0 →
            parse_userassist Registry_Registry Path_parent_name ntuser_path
            = None)
       ∧ (∀ guid_key data,
            guid_key ∈ keys →
            key_Version guid_key = Return data →
            (∀ z, data ≠ RegInt z) →
            parse_userassist Registry_Registry Path_parent_name ntuser_path
            = None))
  ∧ (∀ e, Registry_Registry ntuser_path = Raise e →
          parse_userassist Registry_Registry Path_parent_name ntuser_path = None)
  ∧ (∀ registry e,
       Registry_Registry ntuser_path = Return registry →
       open_UserAssist registry = Raise e →
       parse_userassist Registry_Registry Path_parent_name ntuser_path = None).
Proof.
  split; [apply parse_userassist_exact|].
  rewrite parse_userassist_exact. split; [|split].
  - intros registry keys ER EO. split; [|split].
    + intros Hreg. unfold hive_records. rewrite ER, EO.
      rewrite run_steps_returns.
      * f_equal. rewrite !flat_map_concat_map, List.map_map. f_equal.
        apply List.map_ext_in. intros gk Hgk.
        rewrite forallb_forall in Hreg.
        rewrite key_step_regular by (apply Hreg, Hgk). reflexivity.
      * intros st Hst. apply list_elem_of_In, in_map_iff in Hst.
        destruct Hst as (gk & <- & Hgk).
        rewrite forallb_forall in Hreg.
        rewrite key_step_regular by (apply Hreg, Hgk). reflexivity.
    + intros gk w values v z Hgk Hsel Hcount Hread Hv Hd Hz.
      destruct (fst (key_step (Path_parent_name ntuser_path) ntuser_path gk))
        as [[]|e] eqn:E.
      2:{ eapply hive_records_raise; eassumption. }
      exfalso. unfold key_step in E. rewrite Hsel, Hcount in E.
      destruct (run_steps _) as [[[]|x] recs] eqn:R; cbn [fst] in E.
      * apply run_steps_Return in R. destruct R as [Hall _].
        specialize (Hall (value_step (Path_parent_name ntuser_path) (key_name gk)
                            ntuser_path w v)
                      ltac:(apply list_elem_of_In, in_map, list_elem_of_In, Hv)).
        unfold value_step in Hall. rewrite Hd in Hall.
        destruct (Z.eqb_spec z 0); [contradiction | discriminate].
      * apply run_steps_raises in R. destruct R as (st & Hst & He).
        apply list_elem_of_In, in_map_iff in Hst. destruct Hst as (v' & <- & Hv').
        apply value_step_raises in He. destruct He as [He|[-> _]].
        -- destruct x; try discriminate E.
           exact (Hread v' (proj2 (list_elem_of_In _ _) Hv') He).
        -- discriminate E.
    + intros gk data Hgk Hver Hint.
      eapply (hive_records_raise _ _ _ _ _ gk TypeError); try eassumption.
      unfold key_step, select_format. rewrite Hver.
      destruct data as [b|z|s|l|t]; try reflexivity.
      destruct (Hint z eq_refl).
  - intros e ER. unfold hive_records. rewrite ER. reflexivity.
  - intros registry e ER EO. unfold hive_records. rewrite ER, EO. reflexivity.
Qed.

Lemma parse_userassist_records_exact_witness :
  (forallb regular_key
     [mk_key (lit "{75048700-EF1F-11D0-9888-006097DEACF9}")
        (Raise RegistryValueNotFoundException)
        (Return [mk_value (lit "HRZR_EHACNGU") (Return (RegBin legacy_blob))])]
   = true
   ∧ parse_userassist (fun _ => Return legacy_hive) (fun _ => lit "alice")
       (lit "C:\Users\alice\NTUSER.DAT")
     = Some (flat_map
               (key_records (lit "alice") (lit "C:\Users\alice\NTUSER.DAT"))
               [mk_key (lit "{75048700-EF1F-11D0-9888-006097DEACF9}")
                  (Raise RegistryValueNotFoundException)
                  (Return [mk_value (lit "HRZR_EHACNGU")
                             (Return (RegBin legacy_blob))])]))
  ∧ parse_userassist (fun _ => Return dword_hive) (fun _ => lit "alice")
      (lit "C:\Users\alice\NTUSER.DAT") = None.
Proof.
  split.
  - assert (H : forallb regular_key
                  [mk_key (lit "{75048700-EF1F-11D0-9888-006097DEACF9}")
                     (Raise RegistryValueNotFoundException)
                     (Return [mk_value (lit "HRZR_EHACNGU")
                                (Return (RegBin legacy_blob))])] = true)
      by reflexivity.
    split; [exact H|].
    exact (proj1 (proj1 (proj2 (parse_userassist_records_exact
                                  (fun _ => Return legacy_hive)
                                  (fun _ => lit "alice")
                                  (lit "C:\Users\alice\NTUSER.DAT")))
                    legacy_hive _ eq_refl eq_refl) H).
  - refine (proj1 (proj2 (proj1 (proj2 (parse_userassist_records_exact
                                          (fun _ => Return dword_hive)
                                          (fun _ => lit "alice")
                                          (lit "C:\Users\alice\NTUSER.DAT")))
                            dword_hive _ eq_refl eq_refl))
              (mk_key (lit "{75048700-EF1F-11D0-9888-006097DEACF9}")
                 (Raise RegistryValueNotFoundException)
                 (Return [mk_value (lit "HRZR_EHACNGU")
                            (Return (RegBin legacy_blob));
                          mk_value (lit "HRZR_PGYFRFFVBA") (Return (RegInt 1))]))
              Legacy _
              (mk_value (lit "HRZR_PGYFRFFVBA") (Return (RegInt 1))) 1
              _ eq_refl eq_refl _ _ eq_refl _).
    + apply list_elem_of_here.
    + intros v Hv. apply elem_of_cons in Hv. destruct Hv as [->|Hv].
      * discriminate.
      * apply list_elem_of_singleton in Hv. rewrite Hv. discriminate.
    + apply list_elem_of_further, list_elem_of_here.
    + discriminate.
Defined.

(** *** Records, rows and the records of all hives *)

Lemma parse_userassist_are_records
    Registry_Registry Path_parent_name ntuser_path records e :
  parse_userassist Registry_Registry Path_parent_name ntuser_path = Some records →
  e ∈ records →
  ∃ guid win7_format name (data : bytes),
    e = record_of (Path_parent_name ntuser_path) guid ntuser_path win7_format
          name data.
Proof.
  intros H He. rewrite parse_userassist_exact in H.
  destruct (hive_records_elem _ _ _ _ H) as (registry & keys & _ & _ & Hall).
  destruct (Hall e He) as (gk & w & values & v & data & _ & _ & _ & _ & _ & _ & ->).
  eauto.
Qed.

Lemma main_all_data_flat_map Registry_Registry Path_parent_name ntuser_files :
  main_all_data Registry_Registry Path_parent_name ntuser_files
  = flat_map (fun f => default [] (parse_userassist Registry_Registry
                                     Path_parent_name f)) ntuser_files.
Proof.
  unfold main_all_data.
  set (step := fun all_data ntuser_file => _).
  assert (H : ∀ files acc,
             fold_left step files acc
             = acc ++ flat_map (fun f => default [] (parse_userassist
                                  Registry_Registry Path_parent_name f)) files).
  { induction files as [|f files IH]; intros acc.
    - cbn. rewrite app_nil_r. reflexivity.
    - cbn [fold_left flat_map]. rewrite IH. unfold step.
      destruct (parse_userassist _ _ f) as [[|e l]|]; simpl;
        rewrite <- ?app_assoc; reflexivity. }
  apply (H ntuser_files []).
Qed.

Lemma main_all_data_are_records Registry_Registry Path_parent_name ntuser_files e :
  e ∈ main_all_data Registry_Registry Path_parent_name ntuser_files →
  ∃ f guid win7_format name (data : bytes),
    f ∈ ntuser_files
    ∧ e = record_of (Path_parent_name f) guid f win7_format name data.
Proof.
  rewrite main_all_data_flat_map. intros H.
  apply list_elem_of_In, in_flat_map in H. destruct H as (f & Hf & H).
  destruct (parse_userassist _ _ f) as [records|] eqn:E; [|destruct H].
  apply list_elem_of_In in H.
  destruct (parse_userassist_are_records _ _ _ _ _ E H) as (g & w & n & d & ->).
  exists f, g, w, n, d. split; [apply list_elem_of_In, Hf | reflexivity].
Qed.

(** X12.  The list [main] collects is the concatenation, in file order,
    of the lists [parse_userassist] returns, a file that gave [None]
    contributing nothing; and every record tells where it comes from: its
    source_file is one of the files and its username the name of that
    file's parent directory. *)
Theorem main_all_data_provenance Registry_Registry Path_parent_name ntuser_files :
  main_all_data Registry_Registry Path_parent_name ntuser_files
  = flat_map (fun f => default [] (parse_userassist Registry_Registry
                                     Path_parent_name f)) ntuser_files
  ∧ ∀ e, e ∈ main_all_data Registry_Registry Path_parent_name ntuser_files →
      ∃ f, f ∈ ntuser_files
           ∧ e !! "source_file" = Some (PyStr f)
           ∧ e !! "username" = Some (PyStr (Path_parent_name f)).
Proof.
  split; [apply main_all_data_flat_map|].
  intros e He.
  destruct (main_all_data_are_records _ _ _ _ He) as (f & g & w & n & d & Hf & ->).
  exists f. split; [exact Hf|].
  unfold record_of. split; lookup_dict; reflexivity.
Qed.

Lemma main_all_data_provenance_witness :
  legacy_record ∈ main_all_data (fun _ => Return legacy_hive) (fun _ => lit "alice")
                    [lit "C:\Users\alice\NTUSER.DAT"]
  ∧ ∃ f, f ∈ [lit "C:\Users\alice\NTUSER.DAT"]
         ∧ legacy_record !! "source_file" = Some (PyStr f)
         ∧ legacy_record !! "username" = Some (PyStr (lit "alice")).
Proof.
  assert (H : legacy_record
              ∈ main_all_data (fun _ => Return legacy_hive) (fun _ => lit "alice")
                  [lit "C:\Users\alice\NTUSER.DAT"]).
  { unfold main_all_data. cbn [fold_left]. rewrite legacy_hive_records.
    cbn. apply list_elem_of_here. }
  split; [exact H|].
  exact (proj2 (main_all_data_provenance (fun _ => Return legacy_hive)
                  (fun _ => lit "alice") [lit "C:\Users\alice\NTUSER.DAT"])
           legacy_record H).
Defined.

(** The row of a record: every column is a field of the record. *)
Lemma record_of_row username guid ntuser_path win7_format name (data : bytes) :
  let e := record_of username guid ntuser_path win7_format name data in
  dom e =@{gset string} list_to_set fieldnames
  ∧ ∃ row, _dict_to_list fieldnames e = Some row
           ∧ Forall2 (fun key v => e !! key = Some v) fieldnames row
           ∧ record_row row.
Proof.
  cbv zeta.
  assert (Hdom : dom (record_of username guid ntuser_path win7_format name data)
                 =@{gset string} list_to_set fieldnames).
  { unfold record_of, fieldnames.
    rewrite !dom_insert_L, dom_empty_L. cbn [list_to_set]. set_solver. }
  split; [exact Hdom|].
  unfold _dict_to_list. cbv zeta.
  rewrite bool_decide_eq_true_2 by (rewrite Hdom; set_solver).
  eexists. split; [reflexivity|].
  unfold fieldnames, dict_get, record_of. cbn [List.map].
  lookup_dict. cbn [default from_option id].
  split.
  - repeat (apply List.Forall2_cons; [reflexivity|]). apply List.Forall2_nil.
  - eexists _, _, _, _, _, _, _. split; [reflexivity|].
    apply (le_field_range data 4 4).
Qed.

Lemma records_rows (all_data : list (gmap string pyval)) :
  (∀ e, e ∈ all_data → ∃ u g p w n (d : bytes), e = record_of u g p w n d) →
  ∃ rows,
    mapM (_dict_to_list fieldnames) all_data = Some rows
    ∧ Forall2 (fun e row =>
                 dom e =@{gset string} list_to_set fieldnames
                 ∧ Forall2 (fun key v => e !! key = Some v) fieldnames row
                 ∧ record_row row)
        all_data rows.
Proof.
  induction all_data as [|e l IH]; intros H.
  - exists []. split; [reflexivity | constructor].
  - destruct (H e ltac:(left)) as (u & g & p & w & n & d & ->).
    destruct (record_of_row u g p w n d) as (Hdom & row & Hrow & Hcols & Hok).
    destruct IH as (rows & Hrows & Hall).
    { intros e He. apply H. right. exact He. }
    exists (row :: rows). split.
    + cbn [mapM]. rewrite Hrow. cbn. rewrite Hrows. reflexivity.
    + constructor; [|exact Hall]. auto.
Qed.

(** X13.  The CSV writer accepts every record [main] collects.  Each
    record has exactly the seven keys of [fieldnames], so no row raises the
    [ValueError] for an unknown key; each row holds, column by column in
    header order, the value the record has under that field name, so no
    column falls back to the empty default; the count is an unsigned
    32-bit integer and the other six values are strings.  What is written
    is the header and these rows, in the order of the records; with no
    record nothing is written, not even the header. *)
Theorem write_csv_rows_accepts Registry_Registry Path_parent_name ntuser_files :
  ∃ rows,
    mapM (_dict_to_list fieldnames)
      (main_all_data Registry_Registry Path_parent_name ntuser_files) = Some rows
    ∧ Forall2 (fun e row =>
                 dom e =@{gset string} list_to_set fieldnames
                 ∧ Forall2 (fun key v => e !! key = Some v) fieldnames row
                 ∧ record_row row)
        (main_all_data Registry_Registry Path_parent_name ntuser_files) rows
    ∧ write_csv_rows
        (main_all_data Registry_Registry Path_parent_name ntuser_files)
      = Some (match rows with
              | [] => []
              | _ :: _ => List.map (fun key => PyStr (lit key)) fieldnames :: rows
              end).
Proof.
  destruct (records_rows
              (main_all_data Registry_Registry Path_parent_name ntuser_files))
    as (rows & Hrows & Hall).
  { intros e He.
    destruct (main_all_data_are_records _ _ _ _ He)
      as (f & g & w & n & d & _ & ->).
    eauto 7. }
  exists rows. repeat (split; [assumption|]).
  apply Forall2_length in Hall. unfold write_csv_rows.
  destruct (main_all_data _ _ _) as [|e l].
  - destruct rows; [reflexivity | discriminate].
  - rewrite Hrows. destruct rows; [discriminate | reflexivity].
Qed.
